(** * India food x cancer insight: the data pipeline and its statistics

    A shallow embedding of [scripts/build-data.ts] (the batch transform
    that normalises region names, classifies recipe rows, aggregates
    them per region and joins the result with the incidence table), of
    the regression in [src/viz/scatter.ts], of the correlation search
    and the ingredient tables in [src/ui/viewCompare.ts], of the ranked
    lists in [src/ui/viewCancer.ts] and of the router.

    Conventions of the embedding:
    - a JavaScript string is a [string] of 8-bit characters; case
      mapping and the whitespace class are the ASCII ones;
    - [null] and [undefined] are [None];
    - a JavaScript number is a [jsnum]: a real, an infinity or NaN.
      Rounding, overflow and the sign of zero are not modelled there.
      The statements that turn on them (the growth rate, the
      regression) are made in [Binary64] and [Scatter64], where a
      number is the binary64 value it is and [Math.pow] a parameter;
    - counters that only ever grow by one from zero are [nat];
    - an object or [Map] used as a dictionary is an association list in
      insertion order, looked up by its own keys. A read of a plain
      object also finds the members of [Object.prototype]: [Proto]
      has these reads, and [Proto.plain] marks the spellings on which
      the own-key lookup reads what the program reads. *)

From Stdlib Require Import String Ascii List Bool Arith ZArith Lia.
From Stdlib Require Import DecimalString OrderedTypeEx.
From Stdlib Require Import Reals Lra.
From Stdlib Require Import Sorting.Sorted Sorting.Permutation.
From Stdlib Require Floats Uint63.
Import ListNotations.

Open Scope string_scope.

(* ------------------------------------------------------------------ *)
(** ** String primitives *)

Module JsString.

(** [c.toLowerCase()] on one ASCII character. *)
Definition lower_ascii (c : ascii) : ascii :=
  let n := nat_of_ascii c in
  if ((65 <=? n) && (n <=? 90))%nat then ascii_of_nat (n + 32) else c.

(** [s.toLowerCase()] *)
Fixpoint toLowerCase (s : string) : string :=
  match s with
  | EmptyString => EmptyString
  | String c s' => String (lower_ascii c) (toLowerCase s')
  end.

(** [s.startsWith(kw)] *)
Fixpoint startsWith (kw s : string) : bool :=
  match kw, s with
  | EmptyString, _ => true
  | String _ _, EmptyString => false
  | String a kw', String b s' => Ascii.eqb a b && startsWith kw' s'
  end.

(** [s.includes(kw)]: [kw] occurs somewhere in [s]. *)
Fixpoint includes (kw s : string) : bool :=
  startsWith kw s ||
  match s with
  | EmptyString => false
  | String _ s' => includes kw s'
  end.

(** The declarative reading of "contains as a substring". *)
Definition contains (kw s : string) : Prop :=
  exists p q, s = p ++ kw ++ q.

(** The whitespace class of [trim] and of the regular expression
    escape [\s], restricted to ASCII: tab, line feed, vertical tab, form
    feed, carriage return and space. *)
Definition is_space (c : ascii) : bool :=
  let n := nat_of_ascii c in
  (((9 <=? n) && (n <=? 13)) || (n =? 32))%nat.

Fixpoint trimStart (s : string) : string :=
  match s with
  | EmptyString => EmptyString
  | String c s' => if is_space c then trimStart s' else s
  end.

Fixpoint trimEnd (s : string) : string :=
  match s with
  | EmptyString => EmptyString
  | String c s' =>
      match trimEnd s' with
      | EmptyString => if is_space c then EmptyString else String c EmptyString
      | t => String c t
      end
  end.

(** [s.trim()] *)
Definition trim (s : string) : string := trimEnd (trimStart s).

(** Truthiness of a string: the empty string is falsy. *)
Definition truthy (s : string) : bool :=
  match s with EmptyString => false | _ => true end.

(** [parts.join(sep)] *)
Fixpoint join (sep : string) (parts : list string) : string :=
  match parts with
  | [] => ""
  | [p] => p
  | p :: rest => p ++ sep ++ join sep rest
  end.

(** [s.split(',')] for a one-character separator: always at least one
    part. *)
Fixpoint split (sep : ascii) (s : string) : list string :=
  match s with
  | EmptyString => [""]
  | String c s' =>
      if Ascii.eqb c sep then "" :: split sep s'
      else match split sep s' with
           | [] => [String c ""]
           | p :: rest => String c p :: rest
           end
  end.

(** The first literal of [lits] that [s] starts with. *)
Fixpoint first_prefix (lits : list string) (s : string) : option string :=
  match lits with
  | [] => None
  | lit :: rest => if startsWith lit s then Some lit else first_prefix rest s
  end.

(** [s.replace(/l1|l2|.../g, '')] for non-empty literals: scan left to
    right, drop each match, resume behind it. [skip] counts the
    characters of the current match still to drop. *)
Fixpoint remove_literals_from (lits : list string) (skip : nat)
    (s : string) : string :=
  match s with
  | EmptyString => EmptyString
  | String c s' =>
      match skip with
      | S k => remove_literals_from lits k s'
      | O =>
          match first_prefix lits s with
          | Some lit => remove_literals_from lits (String.length lit - 1) s'
          | None => String c (remove_literals_from lits 0 s')
          end
      end
  end.

Definition remove_literals (lits : list string) (s : string) : string :=
  remove_literals_from lits 0 s.

Definition is_lower_letter (c : ascii) : bool :=
  let n := nat_of_ascii c in ((97 <=? n) && (n <=? 122))%nat.

(** [s.replace(/[^a-z\s]/g, ' ')] *)
Fixpoint blank_non_letters (s : string) : string :=
  match s with
  | EmptyString => EmptyString
  | String c s' =>
      String (if is_lower_letter c || is_space c then c else " "%char)
             (blank_non_letters s')
  end.

(** [s.replace(/\s+/g, ' ')]; [in_run] says that the previous character
    was whitespace already replaced. *)
Fixpoint collapse_spaces_from (in_run : bool) (s : string) : string :=
  match s with
  | EmptyString => EmptyString
  | String c s' =>
      if is_space c
      then (if in_run then collapse_spaces_from true s'
            else String " "%char (collapse_spaces_from true s'))
      else String c (collapse_spaces_from false s')
  end.

Definition collapse_spaces (s : string) : string :=
  collapse_spaces_from false s.

(** [s.replace(/\([^)]*\)/g, '')]: an opening parenthesis with a closing
    one somewhere behind it is dropped together with everything up to
    the first closing one. *)
Fixpoint strip_parens_from (inside : bool) (s : string) : string :=
  match s with
  | EmptyString => EmptyString
  | String c s' =>
      if inside
      then strip_parens_from (negb (Ascii.eqb c ")"%char)) s'
      else if Ascii.eqb c "("%char && includes ")" s'
           then strip_parens_from true s'
           else String c (strip_parens_from false s')
  end.

Definition strip_parens (s : string) : string := strip_parens_from false s.

End JsString.

Import JsString.

(* ------------------------------------------------------------------ *)
(** ** Numbers *)

(** A JavaScript number: a real, [Infinity], [-Infinity] or [NaN]. *)
Inductive jsnum : Type :=
| Fin (r : R)
| PInf
| NInf
| NaN.

Module JsNum.

Local Open Scope R_scope.

Definition Rleb (a b : R) : bool := if Rle_dec a b then true else false.
Definition Rltb (a b : R) : bool := if Rlt_dec a b then true else false.
Definition Reqb (a b : R) : bool := if Req_dec_T a b then true else false.

(** [isFinite(x)] and [Number.isFinite(x)] on a number. *)
Definition isFinite (x : jsnum) : bool :=
  match x with Fin _ => true | _ => false end.

Definition of_nat (n : nat) : jsnum := Fin (INR n).
Definition of_Z (z : Z) : jsnum := Fin (IZR z).

(** [ToNumber] of a nullable number: [null] is [+0]. *)
Definition toNumber (x : option jsnum) : jsnum :=
  match x with Some v => v | None => Fin 0 end.

(** Truthiness of a number: zero and [NaN] are falsy. *)
Definition truthy (x : jsnum) : bool :=
  match x with
  | Fin r => negb (Reqb r 0)
  | NaN => false
  | _ => true
  end.

(** [x <= y]; every comparison with [NaN] is false. *)
Definition le (x y : jsnum) : bool :=
  match x, y with
  | NaN, _ | _, NaN => false
  | Fin a, Fin b => Rleb a b
  | NInf, _ => true
  | _, PInf => true
  | _, _ => false
  end.

(** [x >= y] *)
Definition ge (x y : jsnum) : bool := le y x.

(** "Strictly positive": a positive real or [Infinity]. *)
Definition positive (x : jsnum) : Prop :=
  match x with
  | Fin a => 0 < a
  | PInf => True
  | _ => False
  end.

(** [x === y] on numbers. *)
Definition strict_eq (x y : jsnum) : bool :=
  match x, y with
  | Fin a, Fin b => Reqb a b
  | PInf, PInf | NInf, NInf => true
  | _, _ => false
  end.

Definition neg (x : jsnum) : jsnum :=
  match x with
  | Fin a => Fin (- a)
  | PInf => NInf
  | NInf => PInf
  | NaN => NaN
  end.

Definition add (x y : jsnum) : jsnum :=
  match x, y with
  | NaN, _ | _, NaN => NaN
  | Fin a, Fin b => Fin (a + b)
  | PInf, NInf | NInf, PInf => NaN
  | PInf, _ | _, PInf => PInf
  | NInf, _ | _, NInf => NInf
  end.

Definition sub (x y : jsnum) : jsnum := add x (neg y).

(** The infinity of the sign of [s * t], for [s] and [t] not zero. *)
Definition signed_inf (positive : bool) : jsnum :=
  if positive then PInf else NInf.

Definition mul (x y : jsnum) : jsnum :=
  match x, y with
  | NaN, _ | _, NaN => NaN
  | Fin a, Fin b => Fin (a * b)
  | Fin a, PInf | PInf, Fin a =>
      if Reqb a 0 then NaN else signed_inf (Rltb 0 a)
  | Fin a, NInf | NInf, Fin a =>
      if Reqb a 0 then NaN else signed_inf (Rltb a 0)
  | PInf, PInf | NInf, NInf => PInf
  | PInf, NInf | NInf, PInf => NInf
  end.

Definition div (x y : jsnum) : jsnum :=
  match x, y with
  | NaN, _ | _, NaN => NaN
  | Fin a, Fin b =>
      if Reqb b 0
      then (if Reqb a 0 then NaN else signed_inf (Rltb 0 a))
      else Fin (a / b)
  | Fin _, _ => Fin 0
  | PInf, Fin b => signed_inf (Rleb 0 b)
  | NInf, Fin b => signed_inf (Rltb b 0)
  | _, _ => NaN
  end.

(** [Math.abs] *)
Definition abs (x : jsnum) : jsnum :=
  match x with
  | Fin a => Fin (Rabs a)
  | NaN => NaN
  | _ => PInf
  end.

(** [Math.sqrt] *)
Definition sqrt (x : jsnum) : jsnum :=
  match x with
  | Fin a => if Rltb a 0 then NaN else Fin (R_sqrt.sqrt a)
  | PInf => PInf
  | _ => NaN
  end.

Definition is_integer (e : R) : bool := Reqb e (IZR (Int_part e)).
Definition is_odd_integer (e : R) : bool :=
  is_integer e && Z.odd (Int_part e).

(** [Math.pow(base, exponent)], case by case as [Number::exponentiate]
    lists them. *)
Definition pow (base exponent : jsnum) : jsnum :=
  match exponent with
  | NaN => NaN
  | Fin e =>
      if Reqb e 0 then Fin 1
      else
        match base with
        | NaN => NaN
        | PInf => if Rltb 0 e then PInf else Fin 0
        | NInf =>
            if Rltb 0 e
            then (if is_odd_integer e then NInf else PInf)
            else Fin 0
        | Fin b =>
            if Reqb b 0 then (if Rltb 0 e then Fin 0 else PInf)
            else if Rltb 0 b then Fin (Rpower b e)
            else if is_integer e
                 then Fin (if is_odd_integer e
                           then - Rpower (- b) e else Rpower (- b) e)
                 else NaN
        end
  | PInf =>
      match base with
      | NaN => NaN
      | Fin b =>
          if Rltb 1 (Rabs b) then PInf
          else if Reqb (Rabs b) 1 then NaN else Fin 0
      | _ => PInf
      end
  | NInf =>
      match base with
      | NaN => NaN
      | Fin b =>
          if Rltb 1 (Rabs b) then Fin 0
          else if Reqb (Rabs b) 1 then NaN else PInf
      | _ => Fin 0
      end
  end.

(** The sign a comparator's result has for [Array.prototype.sort]:
    [NaN] counts as zero. *)
Definition sign (x : jsnum) : Z :=
  match x with
  | Fin a => if Rltb a 0 then (-1)%Z else if Rltb 0 a then 1%Z else 0%Z
  | PInf => 1%Z
  | NInf => (-1)%Z
  | NaN => 0%Z
  end.

End JsNum.

(* ------------------------------------------------------------------ *)
(** ** Arrays and dictionaries *)

Module JsArray.

Section Sort.
Context {A : Type}.
Variable cmp : A -> A -> Z.

(** [x] goes in front of the first element it does not exceed. *)
Fixpoint insert_sorted (x : A) (l : list A) : list A :=
  match l with
  | [] => [x]
  | y :: l' =>
      if (cmp x y <=? 0)%Z then x :: y :: l' else y :: insert_sorted x l'
  end.

(** [a] may stand in front of [b]. *)
Definition before (a b : A) : Prop := (cmp a b <= 0)%Z.

(** [l.sort(cmp)]. The language fixes the result as the stable
    arrangement for a consistent comparator; stable insertion computes
    it. *)
Definition sort (l : list A) : list A := fold_right insert_sorted [] l.

End Sort.

(** The elements of [new Set(l)] in iteration order: first occurrences. *)
Fixpoint dedup (seen : list string) (l : list string) : list string :=
  match l with
  | [] => []
  | x :: l' =>
      if existsb (String.eqb x) seen then dedup seen l'
      else x :: dedup (x :: seen) l'
  end.

Definition set_of (l : list string) : list string := dedup [] l.

Section Dict.
Context {V : Type}.

(** [obj[key]], [map.get(key)] *)
Fixpoint get (key : string) (d : list (string * V)) : option V :=
  match d with
  | [] => None
  | (k, v) :: d' => if String.eqb k key then Some v else get key d'
  end.

(** Replace the value under [key] by [f] of it; a missing key starts
    from [init] and is added at the end. *)
Fixpoint upsert (key : string) (init : V) (f : V -> V)
    (d : list (string * V)) : list (string * V) :=
  match d with
  | [] => [(key, f init)]
  | (k, v) :: d' =>
      if String.eqb k key then (k, f v) :: d'
      else (k, v) :: upsert key init f d'
  end.

Definition keys (d : list (string * V)) : list string := map fst d.
Definition values (d : list (string * V)) : list V := map snd d.

(** [new Map(entries)]: a later entry replaces the value of an earlier
    one with the same key. *)
Definition map_of (entries : list (string * V)) : list (string * V) :=
  fold_left (fun m e => upsert (fst e) (snd e) (fun _ => snd e) m)
            entries [].

End Dict.

End JsArray.

(* ------------------------------------------------------------------ *)
(** ** Text classifiers of the build script *)

Module Classify.

Inductive diet : Type := vegetarian | non_vegetarian.

(** [classifyDiet]: [None] is the script's [null], the "unknown" diet. *)
Definition classifyDiet (rawDiet : option string) : option diet :=
  match rawDiet with
  | None => None
  | Some rawDiet =>
      if negb (truthy rawDiet) then None
      else
        let diet := toLowerCase rawDiet in
        if includes "non" diet then Some non_vegetarian
        else if includes "egg" diet then Some non_vegetarian
        else if includes "veg" diet then Some vegetarian
        else None
  end.

Definition SWEET_NAME_KEYWORDS : list string :=
  [ "sweet"; "halwa"; "laddu"; "ladoo"; "barfi"; "burfi"; "kheer";
    "payasam"; "peda"; "rasgulla"; "rasmalai"; "kesari"; "jalebi";
    "sheera"; "poli"; "mithai"; "malpua"; "gulab jamun"; "sandesh";
    "shrikhand"; "ghewar"; "modak"; "kulfi"; "puran poli" ].

Definition SWEET_INGREDIENT_KEYWORDS : list string :=
  [ "sugar"; "jaggery"; "honey"; "condensed milk"; "khoya"; "mawa";
    "rabdi"; "gud"; "treacle"; "molasses"; "palm jaggery"; "dates";
    "khoa" ].

(** [tokenizeIngredients] *)
Definition tokenizeIngredients (s : string) : list string :=
  if negb (truthy s) then []
  else
    filter truthy
      (map (fun part => trim (collapse_spaces (blank_non_letters part)))
         (map (fun part => trim (strip_parens part))
            (split ","%char (toLowerCase s)))).

(** [detectSweetness] *)
Definition detectSweetness
    (name : string) (course : option string)
    (tokens : list string) (rawIngredients : string) : bool :=
  let courseLower :=
    match course with Some c => toLowerCase c | None => "" end in
  if includes "dessert" courseLower || includes "sweet" courseLower then true
  else
    let lowerName := toLowerCase name in
    if existsb (fun kw => includes kw lowerName) SWEET_NAME_KEYWORDS then true
    else
      let rawLower := toLowerCase rawIngredients in
      if existsb (fun kw => includes kw rawLower) SWEET_INGREDIENT_KEYWORDS
      then true
      else if existsb
                (fun token =>
                   existsb
                     (fun kw => if includes " " kw then false
                                else includes kw token)
                     SWEET_INGREDIENT_KEYWORDS)
                tokens
      then true
      else false.

(** The sweet-ingredient keywords without a blank: those the per-token
    test can match. *)
Definition single_word_keywords : list string :=
  filter (fun kw => negb (includes " " kw)) SWEET_INGREDIENT_KEYWORDS.

End Classify.

(* ------------------------------------------------------------------ *)
(** ** Region names *)

Module Regions.

Definition STATE_POPULATION_2021 : list (string * Z) :=
  [ ("Andaman and Nicobar Islands", 419978%Z);
    ("Andhra Pradesh", 53903393%Z);
    ("Arunachal Pradesh", 1570458%Z);
    ("Assam", 35607039%Z);
    ("Bihar", 127403751%Z);
    ("Chandigarh", 1184743%Z);
    ("Chhattisgarh", 29436231%Z);
    ("Dadra and Nagar Haveli and Daman and Diu", 867846%Z);
    ("Delhi", 19814000%Z);
    ("Goa", 1586250%Z);
    ("Gujarat", 63872399%Z);
    ("Haryana", 28902198%Z);
    ("Himachal Pradesh", 7304787%Z);
    ("Jharkhand", 38471306%Z);
    ("Karnataka", 67562686%Z);
    ("Kerala", 35699443%Z);
    ("Madhya Pradesh", 85358965%Z);
    ("Maharashtra", 124904071%Z);
    ("Manipur", 3117011%Z);
    ("Meghalaya", 3366710%Z);
    ("Mizoram", 1261231%Z);
    ("Nagaland", 2249695%Z);
    ("Odisha", 46356334%Z);
    ("Puducherry", 1504000%Z);
    ("Punjab", 30141373%Z);
    ("Rajasthan", 81032689%Z);
    ("Sikkim", 690251%Z);
    ("Tamil Nadu", 77841267%Z);
    ("Telangana", 37173107%Z);
    ("Tripura", 4169794%Z);
    ("Uttar Pradesh", 237882725%Z);
    ("Uttarakhand", 11250858%Z);
    ("West Bengal", 100043676%Z);
    ("Jammu and Kashmir", 13635010%Z);
    ("Ladakh", 297419%Z);
    ("Lakshadweep", 73199%Z);
    ("Andaman & Nicobar Islands", 419978%Z) ].

(** The alias table: raw spelling, canonical name. *)
Definition normMap : list (string * string) :=
  [ ("NCT of Delhi", "Delhi");
    ("National Capital Territory of Delhi", "Delhi");
    ("Delhi (NCT)", "Delhi");
    ("Uttaranchal", "Uttarakhand");
    ("Uttar Pradesh", "Uttar Pradesh");
    ("Jammu & Kashmir", "Jammu and Kashmir");
    ("Jammu and Kashmir", "Jammu and Kashmir");
    ("Dadra and Nagar Haveli and Daman and Diu",
     "Dadra and Nagar Haveli and Daman and Diu");
    ("Dadra and Nagar Haveli", "Dadra and Nagar Haveli and Daman and Diu");
    ("Daman", "Dadra and Nagar Haveli and Daman and Diu");
    ("Daman and Diu", "Dadra and Nagar Haveli and Daman and Diu");
    ("Andaman & Nicobar Islands", "Andaman and Nicobar Islands");
    ("Andaman and Nicobar Islands", "Andaman and Nicobar Islands");
    ("Pondicherry", "Puducherry");
    ("Puducherry", "Puducherry");
    ("Orissa", "Odisha");
    ("Karnataka", "Karnataka");
    ("Tamilnadu", "Tamil Nadu");
    ("Telangana", "Telangana");
    ("Chattisgarh", "Chhattisgarh");
    ("Chhatisgarh", "Chhattisgarh");
    ("Lakshadweep Islands", "Lakshadweep");
    ("Lakshadweep", "Lakshadweep");
    ("Arunachal", "Arunachal Pradesh");
    ("Maharastra", "Maharashtra");
    ("Madhya Pradesh", "Madhya Pradesh");
    ("Ladakh", "Ladakh") ].

(** [norm]: [(normMap[trimmed] ?? trimmed) || trimmed] *)
Definition norm (s : string) : string :=
  let trimmed := trim s in
  let mapped :=
    match JsArray.get trimmed normMap with
    | Some canonical => canonical
    | None => trimmed
    end in
  if JsString.truthy mapped then mapped else trimmed.

(** One alternative of a pattern of [CUISINE_TO_STATE]: a literal, with
    a word boundary [\b] required in front of it, behind it, or not. *)
Record alternative : Type := Alt {
  bound_left : bool;
  literal : string;
  bound_right : bool
}.

Definition bw (w : string) : alternative := Alt true w true.
Definition bare (w : string) : alternative := Alt false w false.

(** A word character of a regular expression: letter, digit or
    underscore. *)
Definition is_word (c : ascii) : bool :=
  let n := nat_of_ascii c in
  (((48 <=? n) && (n <=? 57)) || ((65 <=? n) && (n <=? 90)) ||
   ((97 <=? n) && (n <=? 122)) || (n =? 95))%nat.

Definition word_before (prev : option ascii) : bool :=
  match prev with Some c => is_word c | None => false end.

Definition word_at (s : string) : bool :=
  match s with String c _ => is_word c | EmptyString => false end.

(** Consume [lit] at the head of [s]: the last character read and the
    rest of the text. *)
Fixpoint consume (lit s : string) (prev : option ascii)
  : option (option ascii * string) :=
  match lit with
  | EmptyString => Some (prev, s)
  | String a lit' =>
      match s with
      | EmptyString => None
      | String b s' =>
          if Ascii.eqb a b then consume lit' s' (Some b) else None
      end
  end.

Definition alternative_here (a : alternative) (prev : option ascii)
    (s : string) : bool :=
  (if bound_left a then xorb (word_before prev) (word_at s) else true) &&
  match consume (literal a) s prev with
  | Some (last, rest) =>
      if bound_right a then xorb (word_before last) (word_at rest) else true
  | None => false
  end.

Fixpoint test_from (alts : list alternative) (prev : option ascii)
    (s : string) : bool :=
  existsb (fun a => alternative_here a prev s) alts ||
  match s with
  | EmptyString => false
  | String c s' => test_from alts (Some c) s'
  end.

(** [pattern.test(s)] for a pattern that is a choice of literals. *)
Definition test (alts : list alternative) (s : string) : bool :=
  test_from alts None s.

Definition CUISINE_TO_STATE : list (list alternative * string) :=
  [
    ([bw "andhra"; bare "rayalaseema"; bare "nellore"; bare "guntur"],
     "Andhra Pradesh");
    ([bw "telangana"; bare "hyderabadi"; bare "nizam"],
     "Telangana");
    ([bw "bengal"; bw "bengali"; bare "kolkata"; bare "calcutta"],
     "West Bengal");
    ([bw "odia"; bw "oriya"; bw "odisha"; bare "cuttack"; bare "bhubaneswar"],
     "Odisha");
    ([bw "assam"; bw "assamese"; bare "ahom"; bare "bihu"],
     "Assam");
    ([bw "bihar"; bw "bihari"; bare "magahi"],
     "Bihar");
    ([bw "arunachal"; bare "monpa"; bare "adi"; bare "nyishi"],
     "Arunachal Pradesh");
    ([bw "chhattisgarh"; bw "chattisgarh"; bare "bastar"],
     "Chhattisgarh");
    ([bw "goa"; bw "goan"],
     "Goa");
    ([bw "gujarat"; bw "gujarati"; bare "kathiyawadi"; bare "kathiawadi";
      bare "surti"],
     "Gujarat");
    ([bw "haryana"; bare "haryanvi"],
     "Haryana");
    ([bw "himachal"; bare "pahari"; bare "kangra"],
     "Himachal Pradesh");
    ([bw "jharkhand"; bare "chota nagpur"],
     "Jharkhand");
    ([bw "karnataka"; bare "mangalorean"; bare "udupi"; bare "coorg";
      bare "kodava"; bare "malnad"; bare "coastal karnataka";
      bare "north karnataka"; bare "south karnataka"; bare "mysore"],
     "Karnataka");
    ([bw "kerala"; bare "malabar"; bare "onam"; bare "nadan"],
     "Kerala");
    ([bw "madhya pradesh"; bare "malwa"; bare "bagheli"; bare "baghelkhand";
      bare "mahakoshal"; bare "bhopal"; bare "indore"],
     "Madhya Pradesh");
    ([bw "maharashtra"; bare "maharashtrian"; bare "konkan"; bare "malvani";
      bare "vidarbha"; bare "kolhapuri"; bare "parsi"],
     "Maharashtra");
    ([bw "manipur"; bare "manipuri"; bare "meitei"],
     "Manipur");
    ([bw "meghalaya"; bare "khasi"; bare "jaintia"; bare "garo"],
     "Meghalaya");
    ([bw "mizoram"; bare "mizo"],
     "Mizoram");
    ([bw "nagaland"; bw "naga"],
     "Nagaland");
    ([bw "sikkim"; bare "lepcha"; bare "bhutia"],
     "Sikkim");
    ([bw "tamil"; bare "chettinad"; bare "kongunadu"; bare "madurai";
      bare "tirunelveli"],
     "Tamil Nadu");
    ([bw "uttar pradesh"; bare "awadhi"; bare "lucknowi"; bare "banarasi";
      bare "kashi"],
     "Uttar Pradesh");
    ([bw "uttarakhand"; Alt false "uttarakhand" true; bare "kumaon";
      bare "garhwal"; bare "garhwali"],
     "Uttarakhand");
    ([bw "punjab"; bare "punjabi"; bare "amritsar"],
     "Punjab");
    ([bw "rajasthan"; bare "rajasthani"; bare "marwari"; bare "jaipuri";
      bare "jodhpuri"],
     "Rajasthan");
    ([bw "delhi"; bare "dilli"],
     "Delhi");
    ([bw "chandigarh"],
     "Chandigarh");
    ([bw "puducherry"; bare "pondicherry"],
     "Puducherry");
    ([bw "andaman"; bare "nicobar"; bare "car nicobar"],
     "Andaman and Nicobar Islands");
    ([bw "lakshadweep"; bare "laccadive"; bare "minicoy"],
     "Lakshadweep");
    ([bw "dadra"; bare "nagar haveli"; bare "daman"; bw "diu"],
     "Dadra and Nagar Haveli and Daman and Diu");
    ([bw "ladakh"; bare "ladakhi"],
     "Ladakh");
    ([bw "kashmir"; bare "kashmiri"; bare "kashmiri pandit"],
     "Jammu and Kashmir");
    ([bw "tripura"; bare "tripuri"; bare "kokborok"],
     "Tripura");
    ([bw "goan"],
     "Goa");
    ([bw "konkani"],
     "Goa");
    ([bw "haryana"],
     "Haryana");
    ([bw "bastar"],
     "Chhattisgarh");
    ([bw "himachali"],
     "Himachal Pradesh") ].

(** [normalizeStateText] *)
Definition normalizeStateText (label : string) : string :=
  trim
    (collapse_spaces
       (blank_non_letters
          (remove_literals ["cuisine"]
             (remove_literals ["recipes"; "recipe"] (toLowerCase label))))).

Fixpoint first_rule (rules : list (list alternative * string))
    (normalized : string) : option string :=
  match rules with
  | [] => None
  | (pattern, state) :: rest =>
      if test pattern normalized then Some state
      else first_rule rest normalized
  end.

(** [inferStateFromText] *)
Definition inferStateFromText (rawText : option string) : option string :=
  match rawText with
  | None => None
  | Some rawText =>
      if negb (JsString.truthy rawText) then None
      else
        let normalized := normalizeStateText rawText in
        if negb (JsString.truthy normalized) then None
        else first_rule CUISINE_TO_STATE normalized
  end.

End Regions.

(* ------------------------------------------------------------------ *)
(** ** The build script *)

Module BuildData.

Import Classify Regions.

(** [cagr] over the extended reals, as the second pass of [main] uses
    it; [Binary64.cagr] is the function in double arithmetic. *)
Definition cagr (v0 v1 years : jsnum) : option jsnum :=
  if negb (JsNum.isFinite v0) || negb (JsNum.isFinite v1) ||
     JsNum.le v0 (Fin 0) || JsNum.le years (Fin 0)
  then None
  else Some (JsNum.sub (JsNum.pow (JsNum.div v1 v0) (JsNum.div (Fin 1) years))
                       (Fin 1)).

Definition LENTIL_TERMS : list string :=
  [ "lentil"; "dal"; "toor"; "masoor"; "moong"; "chana"; "chickpea";
    "arhar"; "urad" ].
Definition RED_MEAT_TERMS : list string :=
  [ "mutton"; "lamb"; "pork"; "beef"; "yak" ].
Definition POULTRY_TERMS : list string := [ "chicken"; "duck" ].
Definition FISH_TERMS : list string :=
  [ "fish"; "prawn"; "prawns"; "shrimp"; "tuna"; "pomfret"; "crab";
    "seafood" ].
Definition TURMERIC_TERMS : list string := [ "turmeric"; "haldi" ].
Definition NON_VEG_TERMS : list string :=
  [ "chicken"; "mutton"; "lamb"; "pork"; "beef"; "fish"; "prawn";
    "prawns"; "shrimp"; "egg"; "eggs"; "crab"; "tuna"; "clam" ].

(** [anyMention] *)
Definition anyMention (tokens terms : list string) : bool :=
  existsb (fun token => existsb (fun term => includes term token) terms)
          tokens.

(** The rows of the four input tables. A column a table does not have
    is [None]. *)
Record CancerRow : Type := {
  cr_state : option string;
  cr_2019 : option string;
  cr_2020 : option string;
  cr_2021 : option string;
  cr_2022 : option string
}.

Record ArchanaFoodRow : Type := {
  ar_recipe_name : option string;
  ar_diet : option string;
  ar_prep_time_mins : option string;
  ar_cook_time_mins : option string;
  ar_course : option string;
  ar_cuisine : option string;
  ar_translated_ingredients : option string
}.

Record LegacyFoodRow : Type := {
  lr_name : option string;
  lr_ingredients : option string;
  lr_diet : option string;
  lr_flavor_profile : option string;
  lr_prep_time : option string;
  lr_cook_time : option string;
  lr_state : option string;
  lr_course : option string
}.

Record ManualFoodRow : Type := {
  mr_state : string;
  mr_recipe_name : string;
  mr_diet : string;
  mr_is_sweet : option bool;
  mr_prep_time_mins : option jsnum;
  mr_cook_time_mins : option jsnum;
  mr_ingredients : list string
}.

(** A bucket of [cancerByState]. The growth rate and the rates per
    100k are filled in by the second pass. *)
Record CancerBucket : Type := {
  cb_state : string;
  population : option jsnum;
  incidence_2019 : option jsnum;
  incidence_2020 : option jsnum;
  incidence_2021 : option jsnum;
  incidence_2022 : option jsnum;
  incidence_cagr_19_22 : option jsnum;
  incidence_per_100k_2019 : option jsnum;
  incidence_per_100k_2020 : option jsnum;
  incidence_per_100k_2021 : option jsnum;
  incidence_per_100k_2022 : option jsnum
}.

(** A bucket of [cuisineAcc]. *)
Record CuisineBucket : Type := {
  cu_state : string;
  dish_count : nat;
  veg : nat;
  sweet : nat;
  prep_sum : jsnum;
  prep_n : nat;
  cook_sum : jsnum;
  cook_n : nat;
  lentil_like : nat;
  red_meat_like : nat;
  poultry : nat;
  fish : nat;
  turmeric : nat;
  ingredient_stats : list (string * nat)
}.

(** The second argument of [addObservation]. *)
Record Details : Type := {
  d_diet : option diet;
  d_sweet : bool;
  d_prep : option jsnum;
  d_cook : option jsnum;
  d_tokens : list string
}.

(** A row of [cuisine_by_state.json]. *)
Record CuisineRow : Type := {
  state : string;
  row_dish_count : nat;
  pct_veg : option jsnum;
  pct_sweet : option jsnum;
  avg_prep_time : option jsnum;
  avg_cook_time : option jsnum;
  pct_lentil_like : option jsnum;
  pct_red_meat_like : option jsnum;
  pct_poultry : option jsnum;
  pct_fish : option jsnum;
  pct_turmeric : option jsnum;
  row_ingredient_stats : list (string * nat)
}.

(** A row of [joined_state_metrics.json]. *)
Record JoinedRow : Type := {
  j_state : string;
  cancer : option CancerBucket;
  cuisine : option CuisineRow
}.

(** What is handed to [JSON.stringify] for each file. *)
Inductive document : Type :=
| CancerDoc (rows : list CancerBucket)
| CuisineDoc (rows : list CuisineRow)
| JoinedDoc (rows : list JoinedRow).

Inductive outcome : Type :=
| Completed
| Thrown (message : string).

(** A run of the script: the files written, in order, and how it
    ended. *)
Record run : Type := {
  written : list (string * document);
  result : outcome
}.

(** The invariant of a bucket of [cuisineAcc]: at least one dish, and
    no category counted more often than dishes were added. *)
Definition counts_bounded (b : CuisineBucket) : Prop :=
  veg b <= dish_count b /\ sweet b <= dish_count b /\
  lentil_like b <= dish_count b /\ red_meat_like b <= dish_count b /\
  poultry b <= dish_count b /\ fish b <= dish_count b /\
  turmeric b <= dish_count b.

Definition bucket_ok (b : CuisineBucket) : Prop :=
  1 <= dish_count b /\ counts_bounded b.

(** A share that is present and lies between zero and one. *)
Definition unit_interval (x : option jsnum) : Prop :=
  exists q : R, x = Some (Fin q) /\ (0 <= q <= 1)%R.

Definition row_ok (row : CuisineRow) : Prop :=
  1 <= row_dish_count row /\
  unit_interval (pct_veg row) /\ unit_interval (pct_sweet row) /\
  unit_interval (pct_lentil_like row) /\
  unit_interval (pct_red_meat_like row) /\
  unit_interval (pct_poultry row) /\ unit_interval (pct_fish row) /\
  unit_interval (pct_turmeric row).

Section Script.

(** The environment of the script: [Number(x)] on a string, the
    collation [a.localeCompare(b)] and the byte size of a serialised
    document. *)
Variable Number : string -> jsnum.
Variable localeCompare : string -> string -> Z.
Variable byte_size : document -> nat.

(** [toNum] *)
Definition toNum (x : option string) : option jsnum :=
  match x with
  | None => None
  | Some x =>
      if String.eqb x "" then None
      else
        let n := Number x in
        if JsNum.isFinite n then Some n else None
  end.

(** [if (v != null) total += v; else total = null;] where [total] may
    already be [null]. *)
Definition accumulate (total v : option jsnum) : option jsnum :=
  match v with
  | Some v => Some (JsNum.add (JsNum.toNumber total) v)
  | None => None
  end.

Definition new_cancer_bucket (state rawState : string) : CancerBucket :=
  {| cb_state := state;
     population :=
       match JsArray.get state STATE_POPULATION_2021 with
       | Some p => Some (JsNum.of_Z p)
       | None =>
           match JsArray.get rawState STATE_POPULATION_2021 with
           | Some p => Some (JsNum.of_Z p)
           | None => None
           end
       end;
     incidence_2019 := Some (Fin 0);
     incidence_2020 := Some (Fin 0);
     incidence_2021 := Some (Fin 0);
     incidence_2022 := Some (Fin 0);
     incidence_cagr_19_22 := None;
     incidence_per_100k_2019 := None;
     incidence_per_100k_2020 := None;
     incidence_per_100k_2021 := None;
     incidence_per_100k_2022 := None |}.

(** The body of the first loop over the incidence rows. *)
Definition add_cancer_row (cancerByState : list (string * CancerBucket))
    (row : CancerRow) : list (string * CancerBucket) :=
  let rawState :=
    trim (match cr_state row with Some s => s | None => "" end) in
  if negb (JsString.truthy rawState) then cancerByState
  else
    let state := norm rawState in
    let v2019 := toNum (cr_2019 row) in
    let v2020 := toNum (cr_2020 row) in
    let v2021 := toNum (cr_2021 row) in
    let v2022 := toNum (cr_2022 row) in
    JsArray.upsert state (new_cancer_bucket state rawState)
      (fun bucket =>
         {| cb_state := cb_state bucket;
            population := population bucket;
            incidence_2019 := accumulate (incidence_2019 bucket) v2019;
            incidence_2020 := accumulate (incidence_2020 bucket) v2020;
            incidence_2021 := accumulate (incidence_2021 bucket) v2021;
            incidence_2022 := accumulate (incidence_2022 bucket) v2022;
            incidence_cagr_19_22 := incidence_cagr_19_22 bucket;
            incidence_per_100k_2019 := incidence_per_100k_2019 bucket;
            incidence_per_100k_2020 := incidence_per_100k_2020 bucket;
            incidence_per_100k_2021 := incidence_per_100k_2021 bucket;
            incidence_per_100k_2022 := incidence_per_100k_2022 bucket |})
      cancerByState.

(** The four yearly columns, to speak of any one of them. *)
Inductive year : Type := Y2019 | Y2020 | Y2021 | Y2022.

Definition cell (yr : year) (row : CancerRow) : option string :=
  match yr with
  | Y2019 => cr_2019 row
  | Y2020 => cr_2020 row
  | Y2021 => cr_2021 row
  | Y2022 => cr_2022 row
  end.

Definition total_of (yr : year) (bucket : CancerBucket) : option jsnum :=
  match yr with
  | Y2019 => incidence_2019 bucket
  | Y2020 => incidence_2020 bucket
  | Y2021 => incidence_2021 bucket
  | Y2022 => incidence_2022 bucket
  end.

(** The row is counted under the region [state]. *)
Definition contributes (state : string) (row : CancerRow) : bool :=
  let rawState :=
    trim (match cr_state row with Some s => s | None => "" end) in
  JsString.truthy rawState && String.eqb (norm rawState) state.

(** The figures of one region and year, in the order of the rows. *)
Definition figures (yr : year) (state : string)
    (cancerCSV : list CancerRow) : list (option jsnum) :=
  map (fun row => toNum (cell yr row)) (filter (contributes state) cancerCSV).

Definition accumulate_cancer (cancerCSV : list CancerRow)
  : list (string * CancerBucket) :=
  fold_left add_cancer_row cancerCSV [].

(** [incidenceValue != null && population ? ... : null] *)
Definition per_100k (incidenceValue population : option jsnum)
  : option jsnum :=
  match incidenceValue, population with
  | Some v, Some p =>
      if JsNum.truthy p
      then Some (JsNum.mul (JsNum.div v p) (Fin 100000))
      else None
  | _, _ => None
  end.

(** The body of the second loop: growth and the rates per 100k. *)
Definition derive_rates (bucket : CancerBucket) : CancerBucket :=
  {| cb_state := cb_state bucket;
     population := population bucket;
     incidence_2019 := incidence_2019 bucket;
     incidence_2020 := incidence_2020 bucket;
     incidence_2021 := incidence_2021 bucket;
     incidence_2022 := incidence_2022 bucket;
     incidence_cagr_19_22 :=
       match incidence_2019 bucket, incidence_2022 bucket with
       | Some v2019, Some v2022 => cagr v2019 v2022 (Fin 3)
       | _, _ => None
       end;
     incidence_per_100k_2019 :=
       per_100k (incidence_2019 bucket) (population bucket);
     incidence_per_100k_2020 :=
       per_100k (incidence_2020 bucket) (population bucket);
     incidence_per_100k_2021 :=
       per_100k (incidence_2021 bucket) (population bucket);
     incidence_per_100k_2022 :=
       per_100k (incidence_2022 bucket) (population bucket) |}.

(** [cancerByState] when both loops are done. *)
Definition cancer_by_state (cancerCSV : list CancerRow)
  : list (string * CancerBucket) :=
  map (fun kv => (fst kv, derive_rates (snd kv))) (accumulate_cancer cancerCSV).

Definition cancer_rows (cancerByState : list (string * CancerBucket))
  : list CancerBucket :=
  JsArray.sort (fun a b => localeCompare (cb_state a) (cb_state b))
               (JsArray.values cancerByState).

Definition missing_population (cancerRows : list CancerBucket)
  : list string :=
  map cb_state
      (filter (fun row => match population row with
                          | None => true
                          | Some _ => false
                          end) cancerRows).

Definition new_cuisine_bucket (state : string) : CuisineBucket :=
  {| cu_state := state;
     dish_count := 0; veg := 0; sweet := 0;
     prep_sum := Fin 0; prep_n := 0;
     cook_sum := Fin 0; cook_n := 0;
     lentil_like := 0; red_meat_like := 0; poultry := 0; fish := 0;
     turmeric := 0;
     ingredient_stats := [] |}.

Definition bump (b : bool) (n : nat) : nat := if b then n + 1 else n.

(** What [addObservation] does to the bucket it found or created. *)
Definition observe (details : Details) (bucket : CuisineBucket)
  : CuisineBucket :=
  let hasAnimalProtein :=
    existsb (fun token =>
               existsb (fun term => includes term token) NON_VEG_TERMS)
            (d_tokens details) in
  let isVegetarian :=
    match d_diet details with
    | Some vegetarian => negb hasAnimalProtein
    | _ => false
    end in
  let has_tokens := negb (Nat.eqb (List.length (d_tokens details)) 0) in
  let uniqueTokens := JsArray.set_of (d_tokens details) in
  {| cu_state := cu_state bucket;
     dish_count := dish_count bucket + 1;
     veg := bump isVegetarian (veg bucket);
     sweet := bump (d_sweet details) (sweet bucket);
     prep_sum := match d_prep details with
                 | Some prep => JsNum.add (prep_sum bucket) prep
                 | None => prep_sum bucket
                 end;
     prep_n := match d_prep details with
               | Some _ => prep_n bucket + 1
               | None => prep_n bucket
               end;
     cook_sum := match d_cook details with
                 | Some cook => JsNum.add (cook_sum bucket) cook
                 | None => cook_sum bucket
                 end;
     cook_n := match d_cook details with
               | Some _ => cook_n bucket + 1
               | None => cook_n bucket
               end;
     lentil_like :=
       bump (has_tokens && anyMention uniqueTokens LENTIL_TERMS)
            (lentil_like bucket);
     red_meat_like :=
       bump (has_tokens && anyMention uniqueTokens RED_MEAT_TERMS)
            (red_meat_like bucket);
     poultry :=
       bump (has_tokens && anyMention uniqueTokens POULTRY_TERMS)
            (poultry bucket);
     fish :=
       bump (has_tokens && anyMention uniqueTokens FISH_TERMS)
            (fish bucket);
     turmeric :=
       bump (has_tokens && anyMention uniqueTokens TURMERIC_TERMS)
            (turmeric bucket);
     ingredient_stats :=
       if has_tokens
       then fold_left (fun stats token =>
                         JsArray.upsert token 0 (fun prev => prev + 1) stats)
                      uniqueTokens (ingredient_stats bucket)
       else ingredient_stats bucket |}.

(** [addObservation] *)
Definition addObservation (stateRaw : string) (details : Details)
    (cuisineAcc : list (string * CuisineBucket))
  : list (string * CuisineBucket) :=
  let state := norm stateRaw in
  if negb (JsString.truthy state) || String.eqb state "-1" then cuisineAcc
  else JsArray.upsert state (new_cuisine_bucket state) (observe details)
                      cuisineAcc.

Definition or_empty (x : option string) : string :=
  match x with Some s => s | None => "" end.

(** [a || b] on nullable strings. *)
Definition or_else (a b : option string) : option string :=
  match a with
  | Some s => if JsString.truthy s then a else b
  | None => b
  end.

(** The body of the loop over the Archana's Kitchen rows. *)
Definition add_archana_row (cuisineAcc : list (string * CuisineBucket))
    (row : ArchanaFoodRow) : list (string * CuisineBucket) :=
  let stateFromCuisine :=
    or_else (inferStateFromText (ar_cuisine row))
      (or_else (inferStateFromText (ar_recipe_name row))
               (inferStateFromText (ar_course row))) in
  match stateFromCuisine with
  | None => cuisineAcc
  | Some stateFromCuisine =>
      if negb (JsString.truthy stateFromCuisine) then cuisineAcc
      else
        let name := trim (or_empty (ar_recipe_name row)) in
        if negb (JsString.truthy name) then cuisineAcc
        else
          let diet := classifyDiet (ar_diet row) in
          let prep := toNum (ar_prep_time_mins row) in
          let cook := toNum (ar_cook_time_mins row) in
          let ingredientsRaw :=
            trim (or_empty (ar_translated_ingredients row)) in
          let tokens := tokenizeIngredients ingredientsRaw in
          let sweet :=
            detectSweetness name (ar_course row) tokens ingredientsRaw in
          addObservation stateFromCuisine
            {| d_diet := diet; d_sweet := sweet; d_prep := prep;
               d_cook := cook; d_tokens := tokens |}
            cuisineAcc
  end.

(** The body of the loop over the legacy rows. *)
Definition add_legacy_row (cuisineAcc : list (string * CuisineBucket))
    (row : LegacyFoodRow) : list (string * CuisineBucket) :=
  let state := trim (or_empty (lr_state row)) in
  if negb (JsString.truthy state) then cuisineAcc
  else
    let name := trim (or_empty (lr_name row)) in
    let diet := classifyDiet (lr_diet row) in
    let prep := toNum (lr_prep_time row) in
    let cook := toNum (lr_cook_time row) in
    let ingredientsRaw := or_empty (lr_ingredients row) in
    let tokens := tokenizeIngredients ingredientsRaw in
    let flavor := toLowerCase (trim (or_empty (lr_flavor_profile row))) in
    let sweet :=
      String.eqb flavor "sweet" ||
      detectSweetness name (lr_course row) tokens ingredientsRaw in
    addObservation state
      {| d_diet := diet; d_sweet := sweet; d_prep := prep;
         d_cook := cook; d_tokens := tokens |}
      cuisineAcc.

(** The body of the loop over the hand-written entries. *)
Definition add_manual_entry (cuisineAcc : list (string * CuisineBucket))
    (entry : ManualFoodRow) : list (string * CuisineBucket) :=
  let ingredientsRaw := JsString.join ", " (mr_ingredients entry) in
  let tokens := tokenizeIngredients ingredientsRaw in
  let diet := classifyDiet (Some (mr_diet entry)) in
  let sweet :=
    match mr_is_sweet entry with
    | Some b => b
    | None => detectSweetness (mr_recipe_name entry) None tokens
                              ingredientsRaw
    end in
  addObservation (mr_state entry)
    {| d_diet := diet; d_sweet := sweet;
       d_prep := mr_prep_time_mins entry;
       d_cook := mr_cook_time_mins entry; d_tokens := tokens |}
    cuisineAcc.

(** [cuisineAcc] when the three loops are done. *)
Definition accumulate_cuisine (archanaCSV : list ArchanaFoodRow)
    (legacyCSV : list LegacyFoodRow) (manualJSON : list ManualFoodRow)
  : list (string * CuisineBucket) :=
  fold_left add_manual_entry manualJSON
    (fold_left add_legacy_row legacyCSV
       (fold_left add_archana_row archanaCSV [])).

(** A sequence of calls of [addObservation] on a fresh accumulator. *)
Definition add_all (calls : list (string * Details))
  : list (string * CuisineBucket) :=
  fold_left (fun acc call => addObservation (fst call) (snd call) acc)
            calls [].

(** [count ? total / count : null] *)
Definition ratio (total : jsnum) (count : nat) : option jsnum :=
  if Nat.eqb count 0 then None
  else Some (JsNum.div total (JsNum.of_nat count)).

(** [(b[1] - a[1]) || a[0].localeCompare(b[0])] *)
Definition by_count_then_name (a b : string * nat) : Z :=
  let d := (Z.of_nat (snd b) - Z.of_nat (snd a))%Z in
  if (d =? 0)%Z then localeCompare (fst a) (fst b) else d.

(** The summary row of one bucket. *)
Definition summarise (bucket : CuisineBucket) : CuisineRow :=
  {| state := cu_state bucket;
     row_dish_count := dish_count bucket;
     pct_veg := ratio (JsNum.of_nat (veg bucket)) (dish_count bucket);
     pct_sweet := ratio (JsNum.of_nat (sweet bucket)) (dish_count bucket);
     avg_prep_time := ratio (prep_sum bucket) (prep_n bucket);
     avg_cook_time := ratio (cook_sum bucket) (cook_n bucket);
     pct_lentil_like :=
       ratio (JsNum.of_nat (lentil_like bucket)) (dish_count bucket);
     pct_red_meat_like :=
       ratio (JsNum.of_nat (red_meat_like bucket)) (dish_count bucket);
     pct_poultry :=
       ratio (JsNum.of_nat (poultry bucket)) (dish_count bucket);
     pct_fish := ratio (JsNum.of_nat (fish bucket)) (dish_count bucket);
     pct_turmeric :=
       ratio (JsNum.of_nat (turmeric bucket)) (dish_count bucket);
     row_ingredient_stats :=
       JsArray.sort by_count_then_name (ingredient_stats bucket) |}.

(** [cuisineRows] *)
Definition cuisine_rows (cuisineAcc : list (string * CuisineBucket))
  : list CuisineRow :=
  JsArray.sort (fun a b => localeCompare (state a) (state b))
               (map summarise (JsArray.values cuisineAcc)).

(** [joinedRows] *)
Definition joined_rows (cancerByState : list (string * CancerBucket))
    (cuisineRows : list CuisineRow) : list JoinedRow :=
  let cuisineByState :=
    JsArray.map_of (map (fun row => (state row, row)) cuisineRows) in
  let allStates :=
    JsArray.set_of (JsArray.keys cancerByState ++ map state cuisineRows) in
  map (fun state =>
         {| j_state := state;
            cancer := JsArray.get state cancerByState;
            cuisine := JsArray.get state cuisineByState |})
      (JsArray.sort localeCompare allStates).

Definition decimal (n : nat) : string :=
  NilZero.string_of_uint (Nat.to_uint n).

(** The size guard at the end: the first file over the limit. *)
Fixpoint first_too_large (files : list (string * document))
  : option string :=
  match files with
  | [] => None
  | (file, doc) :: rest =>
      let size := byte_size doc in
      if (1000000 <? Z.of_nat size)%Z
      then Some (file ++ " too large: " ++ decimal size ++ " bytes")
      else first_too_large rest
  end.

(** [main]: the files written and the way the run ends. *)
Definition main (cancerCSV : list CancerRow)
    (archanaCSV : list ArchanaFoodRow) (legacyCSV : list LegacyFoodRow)
    (manualJSON : list ManualFoodRow) : run :=
  let cancerByState := cancer_by_state cancerCSV in
  let cancerRows := cancer_rows cancerByState in
  let missingPopulation := missing_population cancerRows in
  if negb (Nat.eqb (List.length missingPopulation) 0)
  then {| written := [];
          result := Thrown ("Missing population for states: " ++
                            JsString.join ", " missingPopulation) |}
  else
    let cuisineRows :=
      cuisine_rows (accumulate_cuisine archanaCSV legacyCSV manualJSON) in
    let joinedRows := joined_rows cancerByState cuisineRows in
    let files :=
      [ ("cancer_by_state.json", CancerDoc cancerRows);
        ("cuisine_by_state.json", CuisineDoc cuisineRows);
        ("joined_state_metrics.json", JoinedDoc joinedRows) ] in
    {| written := files;
       result := match first_too_large files with
                 | Some message => Thrown message
                 | None => Completed
                 end |}.

End Script.

End BuildData.

(* ------------------------------------------------------------------ *)
(** ** The scatter plot and its regression *)

Module Scatter.

Record ScatterPoint : Type := {
  sp_state : string;
  x : jsnum;
  y : jsnum
}.

Record Residual : Type := {
  res_state : string;
  actual : jsnum;
  predicted : jsnum;
  residual : jsnum
}.

Record ScatterMetrics : Type := {
  slope : jsnum;
  intercept : jsnum;
  r : jsnum;
  residuals : list Residual
}.

(** [d3.mean(values, valueof)] of d3-array: the numbers that are not
    [NaN] are counted and summed; with none to count the result is
    [undefined]. *)
Definition d3_mean {A : Type} (values : list A) (valueof : A -> jsnum)
  : option jsnum :=
  let counted := filter (fun v => JsNum.ge v v) (map valueof values) in
  let sum := fold_left JsNum.add counted (Fin 0) in
  let count := List.length counted in
  if Nat.eqb count 0 then None
  else Some (JsNum.div sum (JsNum.of_nat count)).

Definition or_zero (m : option jsnum) : jsnum :=
  match m with Some v => v | None => Fin 0 end.

Definition both_finite (d : ScatterPoint) : bool :=
  JsNum.isFinite (x d) && JsNum.isFinite (y d).

(** [(a, b) => Math.abs(b.residual) - Math.abs(a.residual)] *)
Definition by_abs_residual (a b : Residual) : Z :=
  JsNum.sign (JsNum.sub (JsNum.abs (residual b)) (JsNum.abs (residual a))).

(** [renderScatter] over the extended reals: the value it returns.
    What it draws into the container is left out.
    [Scatter64.renderScatter] is the function in double arithmetic. *)
Definition renderScatter (data : list ScatterPoint) : option ScatterMetrics :=
  let valid := filter both_finite data in
  if Nat.eqb (List.length valid) 0 then None
  else
    let meanX := or_zero (d3_mean valid x) in
    let meanY := or_zero (d3_mean valid y) in
    let varianceX :=
      or_zero (d3_mean valid
                 (fun d => JsNum.pow (JsNum.sub (x d) meanX) (Fin 2))) in
    let varianceY :=
      or_zero (d3_mean valid
                 (fun d => JsNum.pow (JsNum.sub (y d) meanY) (Fin 2))) in
    let covariance :=
      or_zero (d3_mean valid
                 (fun d => JsNum.mul (JsNum.sub (x d) meanX)
                                     (JsNum.sub (y d) meanY))) in
    let slope :=
      if JsNum.strict_eq varianceX (Fin 0) then Fin 0
      else JsNum.div covariance varianceX in
    let intercept := JsNum.sub meanY (JsNum.mul slope meanX) in
    let r :=
      if JsNum.strict_eq varianceX (Fin 0) ||
         JsNum.strict_eq varianceY (Fin 0)
      then Fin 0
      else JsNum.div covariance
                     (JsNum.sqrt (JsNum.mul varianceX varianceY)) in
    let residuals :=
      map (fun d =>
             let predicted := JsNum.add (JsNum.mul slope (x d)) intercept in
             {| res_state := sp_state d;
                actual := y d;
                predicted := predicted;
                residual := JsNum.sub (y d) predicted |})
          valid in
    Some {| slope := slope; intercept := intercept; r := r;
            residuals := JsArray.sort by_abs_residual residuals |}.

(** The statistics as the specification words them, over the reals. *)
Module Spec.

Local Open Scope R_scope.

Definition real_of (v : jsnum) : R :=
  match v with Fin a => a | _ => 0 end.

(** The samples with both coordinates finite, as pairs of reals. *)
Definition finite_samples (data : list ScatterPoint) : list (R * R) :=
  map (fun d => (real_of (x d), real_of (y d))) (filter both_finite data).

Definition total (l : list R) : R := fold_right Rplus 0 l.

(** The mean divides by the number of samples [n], not by [n - 1]. *)
Definition mean (l : list R) : R := total l / INR (List.length l).

Definition meanX (s : list (R * R)) : R := mean (map fst s).
Definition meanY (s : list (R * R)) : R := mean (map snd s).

Definition varianceX (s : list (R * R)) : R :=
  mean (map (fun p => (fst p - meanX s) * (fst p - meanX s)) s).
Definition varianceY (s : list (R * R)) : R :=
  mean (map (fun p => (snd p - meanY s) * (snd p - meanY s)) s).
Definition covariance (s : list (R * R)) : R :=
  mean (map (fun p => (fst p - meanX s) * (snd p - meanY s)) s).

Definition slope (s : list (R * R)) : R :=
  if Req_dec_T (varianceX s) 0 then 0 else covariance s / varianceX s.

Definition intercept (s : list (R * R)) : R :=
  meanY s - slope s * meanX s.

Definition pearson (s : list (R * R)) : R :=
  if Req_dec_T (varianceX s) 0 then 0
  else if Req_dec_T (varianceY s) 0 then 0
  else covariance s / sqrt (varianceX s * varianceY s).

End Spec.

End Scatter.

(* ------------------------------------------------------------------ *)
(** ** The correlation search of the compare view *)

Module Compare.

Import BuildData.

Inductive cuisine_key : Type :=
| k_pct_veg
| k_pct_sweet
| k_pct_lentil_like
| k_pct_red_meat_like
| k_pct_poultry
| k_pct_fish
| k_pct_turmeric
| k_avg_prep_time
| k_avg_cook_time
| k_dish_count.

Inductive cancer_key : Type :=
| k_incidence_per_100k_2019
| k_incidence_per_100k_2020
| k_incidence_per_100k_2021
| k_incidence_per_100k_2022
| k_incidence_2019
| k_incidence_2020
| k_incidence_2021
| k_incidence_2022
| k_incidence_cagr_19_22.

(** The metric menus. The formatting functions of an option only serve
    the display and are left out. *)
Record CuisineMetricOption : Type := {
  cuisine_option_key : cuisine_key;
  cuisine_option_label : string
}.

Record CancerMetricOption : Type := {
  cancer_option_key : cancer_key;
  cancer_option_label : string;
  isRate : bool;
  fallbackRange : jsnum
}.

Definition cuisineMetrics : list CuisineMetricOption :=
  [ {| cuisine_option_key := k_pct_veg;
       cuisine_option_label := "Vegetarian share" |};
    {| cuisine_option_key := k_pct_sweet;
       cuisine_option_label := "Sweet flavor share" |};
    {| cuisine_option_key := k_pct_lentil_like;
       cuisine_option_label := "Lentil mention share" |};
    {| cuisine_option_key := k_pct_red_meat_like;
       cuisine_option_label := "Red meat mention share" |};
    {| cuisine_option_key := k_pct_poultry;
       cuisine_option_label := "Poultry mention share" |};
    {| cuisine_option_key := k_pct_fish;
       cuisine_option_label := "Fish mention share" |};
    {| cuisine_option_key := k_pct_turmeric;
       cuisine_option_label := "Turmeric mention share" |};
    {| cuisine_option_key := k_avg_prep_time;
       cuisine_option_label := "Average prep time (min)" |};
    {| cuisine_option_key := k_avg_cook_time;
       cuisine_option_label := "Average cook time (min)" |};
    {| cuisine_option_key := k_dish_count;
       cuisine_option_label := "Dish count" |} ].

Definition rate_option (key : cancer_key) (label : string)
  : CancerMetricOption :=
  {| cancer_option_key := key; cancer_option_label := label;
     isRate := true; fallbackRange := Fin 10 |}.

Definition count_option (key : cancer_key) (label : string)
  : CancerMetricOption :=
  {| cancer_option_key := key; cancer_option_label := label;
     isRate := false; fallbackRange := Fin 1000 |}.

Definition cancerMetrics : list CancerMetricOption :=
  [ rate_option k_incidence_per_100k_2019 "Cancer incidence per 100k (2019)";
    rate_option k_incidence_per_100k_2020 "Cancer incidence per 100k (2020)";
    rate_option k_incidence_per_100k_2021 "Cancer incidence per 100k (2021)";
    rate_option k_incidence_per_100k_2022 "Cancer incidence per 100k (2022)";
    count_option k_incidence_2019 "Cancer incidence total (2019)";
    count_option k_incidence_2020 "Cancer incidence total (2020)";
    count_option k_incidence_2021 "Cancer incidence total (2021)";
    count_option k_incidence_2022 "Cancer incidence total (2022)";
    {| cancer_option_key := k_incidence_cagr_19_22;
       cancer_option_label := "Cancer incidence CAGR (2019-22)";
       isRate := true;
       fallbackRange := Fin (5 / 100) |} ].

(** [row[key]] on a cuisine summary. *)
Definition cuisine_field (key : cuisine_key) (row : CuisineRow)
  : option jsnum :=
  match key with
  | k_pct_veg => pct_veg row
  | k_pct_sweet => pct_sweet row
  | k_pct_lentil_like => pct_lentil_like row
  | k_pct_red_meat_like => pct_red_meat_like row
  | k_pct_poultry => pct_poultry row
  | k_pct_fish => pct_fish row
  | k_pct_turmeric => pct_turmeric row
  | k_avg_prep_time => avg_prep_time row
  | k_avg_cook_time => avg_cook_time row
  | k_dish_count => Some (JsNum.of_nat (row_dish_count row))
  end.

(** [entry.cancer[key]] on an incidence summary. *)
Definition cancer_field (key : cancer_key) (row : CancerBucket)
  : option jsnum :=
  match key with
  | k_incidence_per_100k_2019 => incidence_per_100k_2019 row
  | k_incidence_per_100k_2020 => incidence_per_100k_2020 row
  | k_incidence_per_100k_2021 => incidence_per_100k_2021 row
  | k_incidence_per_100k_2022 => incidence_per_100k_2022 row
  | k_incidence_2019 => incidence_2019 row
  | k_incidence_2020 => incidence_2020 row
  | k_incidence_2021 => incidence_2021 row
  | k_incidence_2022 => incidence_2022 row
  | k_incidence_cagr_19_22 => incidence_cagr_19_22 row
  end.

Record IngredientInfo : Type := {
  name : string;
  displayName : string;
  states : list (string * jsnum);
  averageShare : jsnum;
  stateCount : nat
}.

Inductive CuisineSelection : Type :=
| Preset (option : CuisineMetricOption)
| Ingredient (ingredient : IngredientInfo).

Record ComboSuggestion : Type := {
  combo_cuisine : CuisineSelection;
  combo_cancer : CancerMetricOption;
  combo_r : jsnum;
  combo_sample : nat
}.

(** [(a, b) => Math.abs(b.r) - Math.abs(a.r)] *)
Definition by_abs_r (a b : ComboSuggestion) : Z :=
  JsNum.sign (JsNum.sub (JsNum.abs (combo_r b)) (JsNum.abs (combo_r a))).

Section View.

(** What the functions of the view close over: the joined records, the
    ingredient universe built from the cuisine summaries, and
    [computeScatter], which the view imports from the scatter module;
    it is not among the sources, and only the [r] of the metrics it
    returns is read. *)
Variable computeScatter :
  list Scatter.ScatterPoint -> option Scatter.ScatterMetrics.
Variable joined : list JoinedRow.
Variable ingredientInfos : list IngredientInfo.
Variable stateIngredientShares : list (string * list (string * jsnum)).

(** [getCuisineValue] *)
Definition getCuisineValue (row : option CuisineRow)
    (selection : CuisineSelection) : option jsnum :=
  match row with
  | None => None
  | Some row =>
      match selection with
      | Preset option => cuisine_field (cuisine_option_key option) row
      | Ingredient ingredient =>
          if Nat.eqb (row_dish_count row) 0 then None
          else
            match JsArray.get (state row) stateIngredientShares with
            | None => Some (Fin 0)
            | Some shareMap =>
                match JsArray.get (name ingredient) shareMap with
                | Some share => Some share
                | None => Some (Fin 0)
                end
            end
      end
  end.

(** The paired samples of one cuisine candidate and one cancer metric:
    the inner loop over [data.joined]. *)
Definition points_of (cuisineCandidate : CuisineSelection)
    (cancerMetric : CancerMetricOption) : list Scatter.ScatterPoint :=
  flat_map
    (fun entry =>
       let cuisineValue := getCuisineValue (cuisine entry) cuisineCandidate in
       let cancerValue :=
         match cancer entry with
         | Some c => cancer_field (cancer_option_key cancerMetric) c
         | None => None
         end in
       match cuisineValue, cancerValue with
       | Some xv, Some yv =>
           [ {| Scatter.sp_state := j_state entry;
                Scatter.x := xv; Scatter.y := yv |} ]
       | _, _ => []
       end)
    joined.

Definition cuisineCandidates : list CuisineSelection :=
  let ingredientCandidates :=
    firstn 60 (filter (fun info => Nat.leb 6 (stateCount info))
                      ingredientInfos) in
  map Preset cuisineMetrics ++ map Ingredient ingredientCandidates.

(** What one pair pushes onto [combos]: nothing or one suggestion. *)
Definition combo_of (cuisineCandidate : CuisineSelection)
    (cancerMetric : CancerMetricOption) : list ComboSuggestion :=
  let points := points_of cuisineCandidate cancerMetric in
  if Nat.ltb (List.length points) 6 then []
  else
    match computeScatter points with
    | None => []
    | Some metrics =>
        [ {| combo_cuisine := cuisineCandidate;
             combo_cancer := cancerMetric;
             combo_r := Scatter.r metrics;
             combo_sample := List.length points |} ]
    end.

(** [combos] when the two nested loops are done. *)
Definition surviving_combos : list ComboSuggestion :=
  flat_map (fun cuisineCandidate =>
              flat_map (combo_of cuisineCandidate) cancerMetrics)
           cuisineCandidates.

(** [combos] after [combos.sort(...)]. *)
Definition ranked_combos : list ComboSuggestion :=
  JsArray.sort by_abs_r surviving_combos.

(** [computeInterestingCombos] *)
Definition computeInterestingCombos : list ComboSuggestion :=
  firstn 18 ranked_combos.

End View.

(** Modelled from the spec: [computeScatter] of [src/viz/scatter],
    imported by the compare view and absent from the sources. The
    contract of [fit] (null without a finite sample; population means,
    variances and covariance; slope, intercept and Pearson r; residuals
    by descending absolute value) is the computation that
    [renderScatter] carries out, so it stands in here. *)
Definition computeScatter (samples : list Scatter.ScatterPoint)
  : option Scatter.ScatterMetrics :=
  Scatter.renderScatter samples.

(** One combo outranks another: both hold a real [r], and the first is
    at least as large in absolute value. *)
Definition outranks (a b : ComboSuggestion) : Prop :=
  exists ra rb : R,
    combo_r a = Fin ra /\ combo_r b = Fin rb /\ (Rabs rb <= Rabs ra)%R.

Definition real_r (c : ComboSuggestion) : Prop :=
  exists ra : R, combo_r c = Fin ra.

End Compare.

(* ------------------------------------------------------------------ *)
(** ** A concrete environment *)

Module Env.

Definition digit_of (c : ascii) : option Z :=
  let n := nat_of_ascii c in
  if ((48 <=? n) && (n <=? 57))%nat then Some (Z.of_nat (n - 48)) else None.

Fixpoint digits_value (acc : Z) (s : string) : option Z :=
  match s with
  | EmptyString => Some acc
  | String c s' =>
      match digit_of c with
      | Some d => digits_value (10 * acc + d)%Z s'
      | None => None
      end
  end.

(** [Number(x)] on the strings made of decimal digits only; the empty
    string converts to zero, every other string is taken as [NaN]. *)
Definition Number_digits (x : string) : jsnum :=
  match digits_value 0%Z x with
  | Some z => Fin (IZR z)
  | None => NaN
  end.

(** The comparison of two strings character code by character code, as
    a number below, at or above zero. *)
Definition code_unit_compare (a b : string) : Z :=
  match String.compare a b with
  | Lt => (-1)%Z
  | Eq => 0%Z
  | Gt => 1%Z
  end.

Definition no_size (d : BuildData.document) : nat := 0.

(** A small incidence dictionary and a small list of cuisine
    summaries: "Goa" is in both, "Assam" and "Kerala" in one each. *)
Definition bucket_of (st : string) : BuildData.CancerBucket :=
  BuildData.new_cancer_bucket st st.

Definition row_of (st : string) : BuildData.CuisineRow :=
  BuildData.summarise code_unit_compare
    (BuildData.observe
       {| BuildData.d_diet := None; BuildData.d_sweet := false;
          BuildData.d_prep := None; BuildData.d_cook := None;
          BuildData.d_tokens := [] |}
       (BuildData.new_cuisine_bucket st)).

Definition some_cancer : list (string * BuildData.CancerBucket) :=
  [ ("Kerala", bucket_of "Kerala"); ("Goa", bucket_of "Goa") ].

Definition some_cuisine : list BuildData.CuisineRow :=
  [ row_of "Goa"; row_of "Assam" ].

(** An incidence row for a region without a population figure. *)
Definition atlantis_row : BuildData.CancerRow :=
  {| BuildData.cr_state := Some "Atlantis";
     BuildData.cr_2019 := Some "7";
     BuildData.cr_2020 := Some "8";
     BuildData.cr_2021 := Some "9";
     BuildData.cr_2022 := Some "10" |}.

(** Six regions for the correlation search. Each has a dish count and
    a 2019 incidence total and no other figure; the regions with one
    dish report two cases, those with two dishes report one. *)
Definition count_only (st : string) (n : nat) : BuildData.CuisineRow :=
  {| BuildData.state := st;
     BuildData.row_dish_count := n;
     BuildData.pct_veg := None;
     BuildData.pct_sweet := None;
     BuildData.avg_prep_time := None;
     BuildData.avg_cook_time := None;
     BuildData.pct_lentil_like := None;
     BuildData.pct_red_meat_like := None;
     BuildData.pct_poultry := None;
     BuildData.pct_fish := None;
     BuildData.pct_turmeric := None;
     BuildData.row_ingredient_stats := [] |}.

Definition total_2019_only (st : string) (v : jsnum)
  : BuildData.CancerBucket :=
  {| BuildData.cb_state := st;
     BuildData.population := None;
     BuildData.incidence_2019 := Some v;
     BuildData.incidence_2020 := None;
     BuildData.incidence_2021 := None;
     BuildData.incidence_2022 := None;
     BuildData.incidence_cagr_19_22 := None;
     BuildData.incidence_per_100k_2019 := None;
     BuildData.incidence_per_100k_2020 := None;
     BuildData.incidence_per_100k_2021 := None;
     BuildData.incidence_per_100k_2022 := None |}.

Definition region (st : string) (dishes : nat) (cases : jsnum)
  : BuildData.JoinedRow :=
  {| BuildData.j_state := st;
     BuildData.cancer := Some (total_2019_only st cases);
     BuildData.cuisine := Some (count_only st dishes) |}.

Definition six_regions : list BuildData.JoinedRow :=
  [ region "A" 1 (Fin 2); region "B" 1 (Fin 2); region "C" 1 (Fin 2);
    region "D" 2 (Fin 1); region "E" 2 (Fin 1); region "F" 2 (Fin 1) ].

Definition six_points : list Scatter.ScatterPoint :=
  Compare.points_of six_regions []
    (Compare.Preset
       {| Compare.cuisine_option_key := Compare.k_dish_count;
          Compare.cuisine_option_label := "Dish count" |})
    (Compare.count_option Compare.k_incidence_2019
                          "Cancer incidence total (2019)").

(** A dish about which nothing is known. *)
Definition plain_dish : BuildData.Details :=
  {| BuildData.d_diet := None; BuildData.d_sweet := false;
     BuildData.d_prep := None; BuildData.d_cook := None;
     BuildData.d_tokens := [] |}.

(** Two incidence rows that the alias table merges into one region:
    the first has no 2019 figure, the second reports five cases. *)
Definition haveli_missing : BuildData.CancerRow :=
  {| BuildData.cr_state := Some "Dadra and Nagar Haveli";
     BuildData.cr_2019 := Some "";
     BuildData.cr_2020 := Some "1";
     BuildData.cr_2021 := Some "1";
     BuildData.cr_2022 := Some "1" |}.

Definition daman_five : BuildData.CancerRow :=
  {| BuildData.cr_state := Some "Daman and Diu";
     BuildData.cr_2019 := Some "5";
     BuildData.cr_2020 := Some "1";
     BuildData.cr_2021 := Some "1";
     BuildData.cr_2022 := Some "1" |}.

(** An incidence row with figures for all four years, and the bucket
    the two passes make of it. *)
Definition kerala_row : BuildData.CancerRow :=
  {| BuildData.cr_state := Some " Kerala ";
     BuildData.cr_2019 := Some "8";
     BuildData.cr_2020 := Some "9";
     BuildData.cr_2021 := Some "10";
     BuildData.cr_2022 := Some "27" |}.

Definition kerala_bucket : BuildData.CancerBucket :=
  match JsArray.values
          (BuildData.cancer_by_state Number_digits [kerala_row]) with
  | bucket :: _ => bucket
  | [] => bucket_of ""
  end.

(** Four observations: two spellings of Odisha, one of Goa, and one
    under the sentinel. *)
Definition dal_dish : BuildData.Details :=
  {| BuildData.d_diet := Some Classify.vegetarian;
     BuildData.d_sweet := false;
     BuildData.d_prep := Some (Fin 10);
     BuildData.d_cook := None;
     BuildData.d_tokens := ["turmeric"; "toor dal"; "turmeric"] |}.

Definition four_calls : list (string * BuildData.Details) :=
  [ ("Orissa", dal_dish); ("Goa", plain_dish); (" Odisha ", dal_dish);
    ("-1", dal_dish) ].

End Env.

(* ------------------------------------------------------------------ *)
(** ** Shapes of strings *)

Module Shape.

(** The string does not begin with white space. *)
Definition no_leading_space (s : string) : Prop :=
  match s with
  | EmptyString => True
  | String c _ => is_space c = false
  end.

(** Every character is a lower-case letter or a blank. *)
Fixpoint letters_and_blanks (s : string) : bool :=
  match s with
  | EmptyString => true
  | String c s' =>
      (is_lower_letter c || Ascii.eqb c " "%char) && letters_and_blanks s'
  end.

(** No two blanks in a row; [after_blank] says that a blank precedes
    the string. *)
Fixpoint single_spaced (after_blank : bool) (s : string) : bool :=
  match s with
  | EmptyString => true
  | String c s' =>
      if Ascii.eqb c " "%char
      then negb after_blank && single_spaced true s'
      else single_spaced false s'
  end.

(** The number of occurrences of the character. *)
Fixpoint occurrences (c : ascii) (s : string) : nat :=
  match s with
  | EmptyString => 0
  | String d s' => (if Ascii.eqb d c then 1 else 0) + occurrences c s'
  end.

End Shape.

(* ------------------------------------------------------------------ *)
(** ** Checks on the region tables *)

Module Canon.

(** The name is its own normal form, is accepted by the aggregator and
    has a positive population figure. *)
Definition canonical_with_population (st : string) : bool :=
  String.eqb (Regions.norm st) st && JsString.truthy st &&
  negb (String.eqb st "-1") &&
  match JsArray.get st Regions.STATE_POPULATION_2021 with
  | Some p => (0 <? p)%Z
  | None => false
  end.

(** The incidence bucket opened for the trimmed spelling [rawState]
    finds a population. *)
Definition finds_population (rawState : string) : bool :=
  match BuildData.population
          (BuildData.new_cancer_bucket (Regions.norm rawState) rawState) with
  | Some _ => true
  | None => false
  end.

End Canon.

(* ------------------------------------------------------------------ *)
(** ** Readings of an incidence bucket *)

Module Incidence.

Import BuildData.

(** [bucket[`incidence_per_100k_${year}`]] *)
Definition rate_of (yr : year) (bucket : CancerBucket) : option jsnum :=
  match yr with
  | Y2019 => incidence_per_100k_2019 bucket
  | Y2020 => incidence_per_100k_2020 bucket
  | Y2021 => incidence_per_100k_2021 bucket
  | Y2022 => incidence_per_100k_2022 bucket
  end.

(** A total is [null] or a real number. *)
Definition null_or_real (v : option jsnum) : Prop :=
  match v with
  | None => True
  | Some (Fin _) => True
  | Some _ => False
  end.

(** A population is [null] or a positive real number. *)
Definition null_or_positive (v : option jsnum) : Prop :=
  match v with
  | None => True
  | Some (Fin p) => (0 < p)%R
  | Some _ => False
  end.

(** What holds of every bucket while the rows are read. *)
Definition sound_bucket (b : CancerBucket) : Prop :=
  null_or_positive (population b) /\
  forall yr, null_or_real (total_of yr b).

(** The serialised document stays within the size limit. *)
Definition within_limit (byte_size : document -> nat)
    (file : string * document) : Prop :=
  (Z.of_nat (byte_size (snd file)) <= 1000000)%Z.

(** The trimmed region of an incidence row. *)
Definition raw_state (row : CancerRow) : string :=
  trim (match cr_state row with Some s => s | None => "" end).

(** The row has no region, or one spelled as a key of the alias table
    or of the population table. *)
Definition listed_region (row : CancerRow) : Prop :=
  raw_state row = "" \/
  In (raw_state row) (JsArray.keys Regions.normMap) \/
  In (raw_state row) (JsArray.keys Regions.STATE_POPULATION_2021).

End Incidence.

(* ------------------------------------------------------------------ *)
(** ** Readings of the cuisine accumulator *)

Module Aggregate.

Import Classify BuildData.

(** A normalised region that [addObservation] does not ignore. *)
Definition accepted (st : string) : bool :=
  JsString.truthy st && negb (String.eqb st "-1").

(** The details of the calls filed under [st], in call order. *)
Definition calls_for (st : string) (calls : list (string * Details))
  : list Details :=
  map snd (filter (fun call => String.eqb (Regions.norm (fst call)) st) calls).

(** [observe] applied for each of [ds] in turn. *)
Definition observe_all (ds : list Details) (bucket : CuisineBucket)
  : CuisineBucket :=
  fold_left (fun b d => observe d b) ds bucket.

(** The dish counts as vegetarian: tagged so, and no token contains a
    term of [NON_VEG_TERMS]. *)
Definition counts_as_vegetarian (d : Details) : bool :=
  match d_diet d with
  | Some vegetarian =>
      negb (existsb (fun token =>
                       existsb (fun term => includes term token)
                               NON_VEG_TERMS)
                    (d_tokens d))
  | _ => false
  end.

(** The token is among the ingredient tokens of the dish. *)
Definition mentions (token : string) (d : Details) : bool :=
  existsb (String.eqb token) (d_tokens d).

Definition has_prep (d : Details) : bool :=
  match d_prep d with Some _ => true | None => false end.

(** The prep times that are present, in order. *)
Definition preps (ds : list Details) : list jsnum :=
  flat_map (fun d => match d_prep d with Some v => [v] | None => [] end) ds.

Definition has_cook (d : Details) : bool :=
  match d_cook d with Some _ => true | None => false end.

(** The cook times that are present, in order. *)
Definition cooks (ds : list Details) : list jsnum :=
  flat_map (fun d => match d_cook d with Some v => [v] | None => [] end) ds.

Definition count {A : Type} (f : A -> bool) (l : list A) : nat :=
  List.length (filter f l).

(** Higher count first; among equal counts, the name the collation
    puts first. *)
Definition ranks_before (localeCompare : string -> string -> Z)
    (a b : string * nat) : Prop :=
  snd b < snd a \/
  (snd a = snd b /\ (localeCompare (fst a) (fst b) <= 0)%Z).

End Aggregate.

(* ------------------------------------------------------------------ *)
(** ** Further sample data *)

Module Samples.

(** The bucket and the summary of Odisha after the four sample calls. *)
Definition odisha_bucket : BuildData.CuisineBucket :=
  Aggregate.observe_all
    (Aggregate.calls_for "Odisha" Env.four_calls)
    (BuildData.new_cuisine_bucket "Odisha").

Definition odisha_row : BuildData.CuisineRow :=
  BuildData.summarise Env.code_unit_compare odisha_bucket.

End Samples.


(* ------------------------------------------------------------------ *)
(** * The ingredient universe of the comparison view

    [normalizeIngredientToken], [titleCase], [buildIngredientUniverse]
    and [resolveIngredient]. The counts of [ingredient_stats] are the
    natural numbers the build script writes; a row without the field is
    a row with the empty table ([row.ingredient_stats ?? {}]). *)

Module Ingredients.
Import JsString BuildData Compare.

Definition MEASUREMENT_WORDS : list string :=
  [ "tablespoon"; "tablespoons"; "teaspoon"; "teaspoons"; "cup"; "cups";
    "tbsp"; "tsp"; "gram"; "grams"; "g"; "kg"; "ml"; "l"; "litre";
    "liter"; "handful"; "pinch"; "sprig"; "sprigs"; "dash"; "slice";
    "slices"; "piece"; "pieces" ].

Definition FILTER_WORDS : list string :=
  [ "to"; "taste"; "as"; "needed"; "optional"; "finely";
    "finely-chopped"; "thinly"; "roughly"; "chopped"; "diced"; "sliced";
    "grated"; "ground"; "roasted"; "powder"; "paste"; "fresh"; "dry";
    "dried"; "whole"; "large"; "small"; "medium"; "big"; "little" ].

(** [set.has(word)] *)
Definition has (set : list string) (word : string) : bool :=
  existsb (String.eqb word) set.

(** [s.split(/\s+/).filter(Boolean)]: the maximal runs of characters
    that are not whitespace, in order. *)
Fixpoint words (s : string) : list string :=
  match s with
  | EmptyString => []
  | String c s' =>
      if is_space c then words s'
      else
        match s' with
        | EmptyString => [String c EmptyString]
        | String d _ =>
            if is_space d then String c EmptyString :: words s'
            else
              match words s' with
              | w :: ws => String c w :: ws
              | [] => [String c EmptyString]
              end
        end
  end.

Definition is_digit (c : ascii) : bool :=
  let n := nat_of_ascii c in ((48 <=? n) && (n <=? 57))%nat.

(** [/^[0-9]+/.test(word)] *)
Definition starts_with_digit (word : string) : bool :=
  match word with
  | EmptyString => false
  | String c _ => is_digit c
  end.

(** The words the loop pushes onto [filtered]. *)
Definition pushed (word : string) : bool :=
  negb (has MEASUREMENT_WORDS word || has FILTER_WORDS word)
  && negb (starts_with_digit word).

(** [normalizeIngredientToken] *)
Definition normalizeIngredientToken (token : string) : string :=
  if negb (truthy token) then EmptyString
  else
    let filtered := filter pushed (words (toLowerCase token)) in
    match filtered with
    | [] => trim (toLowerCase token)
    | _ => trim (join " " filtered)
    end.

(** [c.toUpperCase()] on one ASCII character. *)
Definition upper_ascii (c : ascii) : ascii :=
  let n := nat_of_ascii c in
  if ((97 <=? n) && (n <=? 122))%nat then ascii_of_nat (n - 32) else c.

(** [word.charAt(0).toUpperCase() + word.slice(1)] *)
Definition capitalise (word : string) : string :=
  match word with
  | EmptyString => EmptyString
  | String c rest => String (upper_ascii c) rest
  end.

(** [titleCase] *)
Definition titleCase (value : string) : string :=
  join " " (map capitalise (filter truthy (split " " value))).

(** [x > y] *)
Definition gt (x y : jsnum) : bool :=
  match x, y with
  | NaN, _ | _, NaN => false
  | _, _ => negb (JsNum.le x y)
  end.

(** One entry of [ingredient_stats] added to [normalizedCounts]. *)
Definition count_token (dish_count : nat)
    (normalizedCounts : list (string * nat)) (entry : string * nat)
  : list (string * nat) :=
  let normalized := normalizeIngredientToken (fst entry) in
  if negb (truthy normalized) then normalizedCounts
  else
    let capped := Nat.min (snd entry) dish_count in
    JsArray.upsert normalized 0
      (fun prev => Nat.min dish_count (prev + capped)) normalizedCounts.

Definition normalizedCounts_of (row : CuisineRow) : list (string * nat) :=
  fold_left (count_token (row_dish_count row))
            (row_ingredient_stats row) [].

(** [Math.min(count, dishCount) / dishCount] *)
Definition share_of (dishCount count : nat) : jsnum :=
  JsNum.div (JsNum.of_nat (Nat.min count dishCount))
            (JsNum.of_nat dishCount).

(** One step of [normalizedCounts.forEach]. *)
Definition put_share (dishCount : nat)
    (shareMap : list (string * jsnum)) (entry : string * nat)
  : list (string * jsnum) :=
  let share := share_of dishCount (snd entry) in
  if gt share (Fin 0)
  then JsArray.upsert (fst entry) share (fun _ => share) shareMap
  else shareMap.

Definition shareMap_of (row : CuisineRow) : list (string * jsnum) :=
  let dishCount := row_dish_count row in
  if (0 <? dishCount)%nat
  then fold_left (put_share dishCount) (normalizedCounts_of row) []
  else [].

(** A value of [ingredientData]. *)
Record IngredientData : Type := {
  data_states : list (string * jsnum);
  totalShare : jsnum
}.

(** One step of [shareMap.forEach]: the record of the ingredient is
    created when missing, then updated in place. *)
Definition add_share (state : string)
    (ingredientData : list (string * IngredientData))
    (entry : string * jsnum) : list (string * IngredientData) :=
  JsArray.upsert (fst entry)
    {| data_states := []; totalShare := Fin 0 |}
    (fun info =>
       {| data_states :=
            JsArray.upsert state (snd entry) (fun _ => snd entry)
                           (data_states info);
          totalShare := JsNum.add (totalShare info) (snd entry) |})
    ingredientData.

Record Tables : Type := {
  t_stateShares : list (string * list (string * jsnum));
  t_ingredientData : list (string * IngredientData)
}.

(** The body of [for (const row of rows)]. *)
Definition add_row (tables : Tables) (row : CuisineRow) : Tables :=
  let shareMap := shareMap_of row in
  {| t_stateShares :=
       JsArray.upsert (state row) shareMap (fun _ => shareMap)
                      (t_stateShares tables);
     t_ingredientData :=
       fold_left (add_share (state row)) shareMap
                 (t_ingredientData tables) |}.

Definition tables_of (rows : list CuisineRow) : Tables :=
  fold_left add_row rows
            {| t_stateShares := []; t_ingredientData := [] |}.

(** The [map] callback over [ingredientData.entries()]. *)
Definition info_of (entry : string * IngredientData) : IngredientInfo :=
  let size := List.length (data_states (snd entry)) in
  {| name := fst entry;
     displayName := titleCase (fst entry);
     states := data_states (snd entry);
     averageShare :=
       if Nat.eqb size 0 then Fin 0
       else JsNum.div (totalShare (snd entry)) (JsNum.of_nat size);
     stateCount := size |}.

Record Universe : Type := {
  ingredientInfos : list IngredientInfo;
  ingredientIndex : list (string * IngredientInfo);
  stateShares : list (string * list (string * jsnum))
}.

Section Build.
Variable localeCompare : string -> string -> Z.

(** The comparator of [ingredientInfos]. *)
Definition by_share (a b : IngredientInfo) : Z :=
  if negb (JsNum.strict_eq (averageShare b) (averageShare a))
  then JsNum.sign (JsNum.sub (averageShare b) (averageShare a))
  else if negb (Nat.eqb (stateCount b) (stateCount a))
       then (Z.of_nat (stateCount b) - Z.of_nat (stateCount a))%Z
       else localeCompare (name a) (name b).

(** [buildIngredientUniverse] *)
Definition buildIngredientUniverse (rows : list CuisineRow) : Universe :=
  let tables := tables_of rows in
  let infos :=
    JsArray.sort by_share (map info_of (t_ingredientData tables)) in
  {| ingredientInfos := infos;
     ingredientIndex :=
       JsArray.map_of (map (fun info => (name info, info)) infos);
     stateShares := t_stateShares tables |}.

End Build.

(** [list.find(pred)] *)
Definition find_info (pred : IngredientInfo -> bool)
    (list : list IngredientInfo) : option IngredientInfo :=
  List.find pred list.

(** [resolveIngredient] *)
Definition resolveIngredient (value : string)
    (index : list (string * IngredientInfo))
    (list : list IngredientInfo) : option IngredientInfo :=
  let normalized := normalizeIngredientToken (trim value) in
  if negb (truthy normalized) then None
  else
    match JsArray.get normalized index with
    | Some direct => Some direct
    | None =>
        match find_info (fun info => includes normalized (name info))
                        list with
        | Some fallback => Some fallback
        | None =>
            find_info (fun info => includes (name info) normalized) list
        end
    end.

End Ingredients.

(** Shapes of ingredient names and shares, for the statements below. *)
Module IngredientShape.
Import JsString BuildData Ingredients.
Local Open Scope R_scope.

(** A word as [split(/\s+/)] yields it: not empty, no white space. *)
Definition solid (w : string) : Prop :=
  w <> EmptyString /\
  forall c, In c (list_ascii_of_string w) -> is_space c = false.

(** A name as the ingredient tables key it: not empty, trimmed, and
    left alone by [normalizeIngredientToken]. *)
Definition listed_name (k : string) : Prop :=
  k <> EmptyString /\ normalizeIngredientToken k = k /\ trim k = k.

(** A share that is a real number in (0, 1]. *)
Definition unit_share (v : jsnum) : Prop :=
  exists r, v = Fin r /\ 0 < r <= 1.

(** The sum of the shares of a [states] table. *)
Fixpoint share_sum (l : list (string * jsnum)) : R :=
  match l with
  | [] => 0
  | e :: l' => Scatter.Spec.real_of (snd e) + share_sum l'
  end.

(** The row of [rows] that [shares] were computed from. *)
Definition share_in_row (rows : list CuisineRow) (ingredient : string)
    (st : string) (v : jsnum) : Prop :=
  exists row, In row rows /\ state row = st /\
              In (ingredient, v) (shareMap_of row).

End IngredientShape.

(** Two regions with ingredient tables, to run the statements on. *)
Module IngredientSamples.
Import BuildData.

Definition region_with (name : string) (dishes : nat)
    (stats : list (string * nat)) : CuisineRow :=
  {| state := name; row_dish_count := dishes;
     pct_veg := None; pct_sweet := None;
     avg_prep_time := None; avg_cook_time := None;
     pct_lentil_like := None; pct_red_meat_like := None;
     pct_poultry := None; pct_fish := None; pct_turmeric := None;
     row_ingredient_stats := stats |}.

Definition goa : CuisineRow :=
  region_with "Goa" 4
    [("Fresh Coconut", 3%nat); ("coconut", 2%nat); ("2 cups rice", 4%nat)].

Definition punjab : CuisineRow :=
  region_with "Punjab" 2 [("coconut", 1%nat); ("ghee", 5%nat)].

Definition two_regions : list CuisineRow := [goa; punjab].

End IngredientSamples.

(* ------------------------------------------------------------------ *)
(** * The ranked lists of the incidence view

    [updateLists] of [renderCancerView], up to the two arrays it
    renders. *)

Module CancerView.
Import BuildData.
Local Open Scope R_scope.

(** [YearKey] *)
Inductive YearKey : Type := y2019 | y2020 | y2021 | y2022.

(** [row[`incidence_${year}`]] *)
Definition incidence_of (year : YearKey) (row : CancerBucket)
  : option jsnum :=
  match year with
  | y2019 => incidence_2019 row
  | y2020 => incidence_2020 row
  | y2021 => incidence_2021 row
  | y2022 => incidence_2022 row
  end.

(** An element of [entries]: a state with a value that is not [null]. *)
Record ListEntry : Type := {
  entry_state : string;
  entry_value : jsnum
}.

(** [(a, b) => b.value - a.value] *)
Definition by_value (a b : ListEntry) : Z :=
  JsNum.sign (JsNum.sub (entry_value b) (entry_value a)).

(** The [map] and the [filter] in one pass. *)
Definition with_value (year : YearKey) (cancer : list CancerBucket)
  : list ListEntry :=
  flat_map (fun row =>
              match incidence_of year row with
              | Some value =>
                  [{| entry_state := cb_state row; entry_value := value |}]
              | None => []
              end) cancer.

Definition entries (year : YearKey) (cancer : list CancerBucket)
  : list ListEntry :=
  JsArray.sort by_value (with_value year cancer).

(** [l.slice(-n)] *)
Definition slice_last {A : Type} (n : nat) (l : list A) : list A :=
  skipn (List.length l - n) l.

(** [entries.slice(0, 5)] *)
Definition top (year : YearKey) (cancer : list CancerBucket)
  : list ListEntry := firstn 5 (entries year cancer).

(** [entries.slice(-5).reverse()] *)
Definition bottom (year : YearKey) (cancer : list CancerBucket)
  : list ListEntry := rev (slice_last 5 (entries year cancer)).

(** [a] is listed with a value no smaller than that of [b]. *)
Definition no_smaller (a b : ListEntry) : Prop :=
  Scatter.Spec.real_of (entry_value b) <=
  Scatter.Spec.real_of (entry_value a).

(** The figure of the year is missing or a finite number, as in a JSON
    file. *)
Definition finite_figure (year : YearKey) (row : CancerBucket) : Prop :=
  match incidence_of year row with
  | Some v => JsNum.isFinite v = true
  | None => True
  end.

(** Seven regions with totals for 2019. *)
Definition seven_regions : list CancerBucket :=
  [ Env.total_2019_only "A" (Fin 2); Env.total_2019_only "B" (Fin 7);
    Env.total_2019_only "C" (Fin 5); Env.total_2019_only "D" (Fin 1);
    Env.total_2019_only "E" (Fin 9); Env.total_2019_only "F" (Fin 3);
    Env.total_2019_only "G" (Fin 4) ].

End CancerView.

(* ------------------------------------------------------------------ *)
(** * The router *)

Module Router.
Import JsString.

Definition validRoutes : list string := ["cancer"; "cuisine"; "compare"].

(** [s.replace(/^#/, '')] *)
Definition strip_hash (s : string) : string :=
  match s with
  | String "#" rest => rest
  | _ => s
  end.

(** [normalizeHash] *)
Definition normalizeHash (hash : option string) : string :=
  let clean :=
    toLowerCase
      (strip_hash (match hash with Some h => h | None => EmptyString end)) in
  if existsb (String.eqb clean) validRoutes then clean else "cancer".

End Router.

(* ------------------------------------------------------------------ *)
(** * Numbers as binary64

    Where a statement turns on rounding or overflow, a JavaScript
    number is the binary64 value it is ([PrimFloat.float]), and [+],
    [-], [*], [/], [Math.sqrt], [Math.abs] and the comparisons are the
    IEEE 754 operations on it. The language leaves the value of
    [Math.pow] to the implementation, so it is a parameter. *)

Module Binary64.
Import PrimFloat.

(** [Number.isFinite(v)], and [isFinite(v)], on a number. *)
Definition isFinite (v : float) : bool := is_finite v.

(** [v >= v]: true of every number but [NaN]. *)
Definition is_number (v : float) : bool := (v <=? v)%float.

(** The length of an array as a number. *)
Definition of_count (n : nat) : float :=
  of_uint63 (Uint63.of_Z (Z.of_nat n)).

(** The sign a comparator's result has for [Array.prototype.sort]:
    [NaN] counts as zero. *)
Definition sign (v : float) : Z :=
  if (v <? 0)%float then (-1)%Z
  else if (0 <? v)%float then 1%Z else 0%Z.

Section Pow.
Variable Math_pow : float -> float -> float.

(** [cagr] *)
Definition cagr (v0 v1 years : float) : option float :=
  if negb (isFinite v0) || negb (isFinite v1) ||
     (v0 <=? 0)%float || (years <=? 0)%float
  then None
  else Some (Math_pow (v1 / v0) (1 / years) - 1)%float.

End Pow.



(** A [Math.pow] that squares its base exactly, to run the regression
    on: every call there has the exponent 2. *)
Definition squaring (base exponent : float) : float := (base * base)%float.

End Binary64.

(* ------------------------------------------------------------------ *)
(** * The regression in binary64

    [renderScatter] of [src/viz/scatter.ts] once more, now with the
    arithmetic of the program: the value it returns, without what it
    draws. *)

Module Scatter64.
Import PrimFloat Binary64.

Record ScatterPoint : Type := {
  sp_state : string;
  x : float;
  y : float
}.

Record Residual : Type := {
  res_state : string;
  actual : float;
  predicted : float;
  residual : float
}.

Record ScatterMetrics : Type := {
  slope : float;
  intercept : float;
  r : float;
  residuals : list Residual
}.

(** [d3.mean(values, valueof)] of d3-array: the values that are not
    [NaN] are counted and added up from zero, in order; with none to
    count the result is [undefined]. *)
Definition d3_mean {A : Type} (values : list A) (valueof : A -> float)
  : option float :=
  let counted := filter is_number (map valueof values) in
  let sum := fold_left add counted 0%float in
  let count := List.length counted in
  if Nat.eqb count 0 then None
  else Some (sum / of_count count)%float.

(** [m ?? 0] *)
Definition or_zero (m : option float) : float :=
  match m with Some v => v | None => 0%float end.

(** [Number.isFinite(d.x) && Number.isFinite(d.y)] *)
Definition both_finite (d : ScatterPoint) : bool :=
  isFinite (x d) && isFinite (y d).

(** [(a, b) => Math.abs(b.residual) - Math.abs(a.residual)] *)
Definition by_abs_residual (a b : Residual) : Z :=
  sign (abs (residual b) - abs (residual a))%float.

Section Pow.
Variable Math_pow : float -> float -> float.

(** [renderScatter] *)
Definition renderScatter (data : list ScatterPoint)
  : option ScatterMetrics :=
  let valid := filter both_finite data in
  if Nat.eqb (List.length valid) 0 then None
  else
    let meanX := or_zero (d3_mean valid x) in
    let meanY := or_zero (d3_mean valid y) in
    let varianceX :=
      or_zero (d3_mean valid (fun d => Math_pow (x d - meanX) 2)%float) in
    let varianceY :=
      or_zero (d3_mean valid (fun d => Math_pow (y d - meanY) 2)%float) in
    let covariance :=
      or_zero (d3_mean valid
                 (fun d => (x d - meanX) * (y d - meanY))%float) in
    let slope :=
      if (varianceX =? 0)%float then 0%float
      else (covariance / varianceX)%float in
    let intercept := (meanY - slope * meanX)%float in
    let r :=
      if (varianceX =? 0)%float || (varianceY =? 0)%float then 0%float
      else (covariance / sqrt (varianceX * varianceY))%float in
    let residuals :=
      map (fun d =>
             let predicted := (slope * x d + intercept)%float in
             {| res_state := sp_state d;
                actual := y d;
                predicted := predicted;
                residual := (y d - predicted)%float |})
          valid in
    Some {| slope := slope; intercept := intercept; r := r;
            residuals := JsArray.sort by_abs_residual residuals |}.

End Pow.

(** The statistics as the specification words them, in the arithmetic
    of the program. How an average is taken is left open here: [avg]
    is [mean] for the plain reading (divide the sum by [n]) and
    [mean_of_numbers] for what [d3.mean] with its fallback does. *)
Module Spec.

(** The samples with both coordinates finite. *)
Definition finite_samples (data : list ScatterPoint) : list ScatterPoint :=
  filter both_finite data.

Definition total (l : list float) : float := fold_left add l 0%float.

(** The mean divides by the number of terms [n], not by [n - 1]. *)
Definition mean (l : list float) : float :=
  (total l / of_count (List.length l))%float.



Section Statistics.
Variable Math_pow : float -> float -> float.
Variable avg : list float -> float.

Definition meanX (s : list ScatterPoint) : float := avg (map x s).
Definition meanY (s : list ScatterPoint) : float := avg (map y s).

(** The squared deviations of the x and of the y coordinates, and the
    products of the two deviations. *)
Definition squaresX (s : list ScatterPoint) : list float :=
  map (fun d => Math_pow (x d - meanX s) 2)%float s.
Definition squaresY (s : list ScatterPoint) : list float :=
  map (fun d => Math_pow (y d - meanY s) 2)%float s.
Definition products (s : list ScatterPoint) : list float :=
  map (fun d => (x d - meanX s) * (y d - meanY s))%float s.

Definition varianceX (s : list ScatterPoint) : float := avg (squaresX s).
Definition varianceY (s : list ScatterPoint) : float := avg (squaresY s).
Definition covariance (s : list ScatterPoint) : float := avg (products s).

Definition slope (s : list ScatterPoint) : float :=
  if (varianceX s =? 0)%float then 0%float
  else (covariance s / varianceX s)%float.

Definition intercept (s : list ScatterPoint) : float :=
  (meanY s - slope s * meanX s)%float.

Definition pearson (s : list ScatterPoint) : float :=
  if (varianceX s =? 0)%float || (varianceY s =? 0)%float then 0%float
  else (covariance s / sqrt (varianceX s * varianceY s))%float.

End Statistics.

End Spec.

(** The residual entry of one sample under a fitted line. *)
Definition residual_of (slope intercept : float) (d : ScatterPoint)
  : Residual :=
  let predicted := (slope * x d + intercept)%float in
  {| res_state := sp_state d;
     actual := y d;
     predicted := predicted;
     residual := (y d - predicted)%float |}.

(** Three samples on the line y = 3 x. *)
Definition three_points : list ScatterPoint :=
  [ {| sp_state := "A"; x := 1; y := 3 |};
    {| sp_state := "B"; x := 2; y := 6 |};
    {| sp_state := "C"; x := 4; y := 12 |} ].

(** The same three samples among two without a finite coordinate. *)
Definition five_points : list ScatterPoint :=
  [ {| sp_state := "N"; x := nan; y := 1 |};
    {| sp_state := "A"; x := 1; y := 3 |};
    {| sp_state := "B"; x := 2; y := 6 |};
    {| sp_state := "I"; x := 5; y := infinity |};
    {| sp_state := "C"; x := 4; y := 12 |} ].


End Scatter64.

(* ------------------------------------------------------------------ *)
(** * Reads of an object literal

    [normMap], [STATE_POPULATION_2021], [cancerByState] and
    [cuisineAcc] are plain objects: a read [obj[key]] that finds no own
    property goes on to [Object.prototype] and finds its members. The
    dictionaries of [Regions] and [BuildData] are looked up by their
    own keys; they read a spelling as the program does when the
    spelling is [plain]. *)

Module Proto.
Import JsString.

(** The names of the properties of [Object.prototype]. *)
Definition members : list string :=
  [ "constructor"; "__defineGetter__"; "__defineSetter__";
    "hasOwnProperty"; "__lookupGetter__"; "__lookupSetter__";
    "isPrototypeOf"; "propertyIsEnumerable"; "toString"; "valueOf";
    "__proto__"; "toLocaleString" ].

Definition inherited (key : string) : bool :=
  existsb (String.eqb key) members.

(** A spelling that, once trimmed, names no such property. *)
Definition plain (s : string) : Prop := inherited (trim s) = false.

(** What a read [obj[key]] finds. *)
Inductive found (V : Type) : Type :=
| Own (v : V)
| Inherited
| Absent.
Arguments Own {V} v.
Arguments Inherited {V}.
Arguments Absent {V}.

Definition read {V : Type} (key : string) (obj : list (string * V))
  : found V :=
  match JsArray.get key obj with
  | Some v => Own v
  | None => if inherited key then Inherited else Absent
  end.

(** What [norm] returns: a name, or the member of [Object.prototype]
    that the read of [normMap] inherits. *)
Inductive region : Type :=
| Name (s : string)
| Member (key : string).

(** [norm], on any string. *)
Definition norm (s : string) : region :=
  let trimmed := trim s in
  match read trimmed Regions.normMap with
  | Own canonical =>
      Name (if truthy canonical then canonical else trimmed)
  | Inherited => Member trimmed
  | Absent => Name trimmed
  end.

(** The text of an inherited member as a property key: V8 prints a
    built-in function by its name, and the object behind [__proto__]
    as any plain object. *)
Definition member_text (key : string) : string :=
  if String.eqb key "__proto__" then "[object Object]"
  else "function " ++
       (if String.eqb key "constructor" then "Object" else key) ++
       "() { [native code] }".

Definition property_key (state : region) : string :=
  match state with
  | Name s => s
  | Member key => member_text key
  end.

(** The [population] of a new bucket: a figure of the table, an
    inherited member, or [null]. *)
Inductive figure : Type :=
| Figure (p : Z)
| MemberObject (key : string)
| NoFigure.

(** [STATE_POPULATION_2021[state] ?? STATE_POPULATION_2021[rawState] ??
    null] *)
Definition population_of (state : region) (rawState : string) : figure :=
  match read (property_key state) Regions.STATE_POPULATION_2021 with
  | Own p => Figure p
  | Inherited => MemberObject (property_key state)
  | Absent =>
      match read rawState Regions.STATE_POPULATION_2021 with
      | Own p => Figure p
      | Inherited => MemberObject rawState
      | Absent => NoFigure
      end
  end.

(** [row.population == null] *)
Definition lacks_population (population : figure) : bool :=
  match population with
  | NoFigure => true
  | _ => false
  end.

(** The key, the [state] and the [population] of the bucket that the
    first loop opens for an incidence row; none for a row without a
    region. *)
Definition opened_bucket (row : BuildData.CancerRow)
  : option (string * (region * figure)) :=
  let rawState :=
    trim (match BuildData.cr_state row with
          | Some s => s
          | None => EmptyString
          end) in
  if negb (truthy rawState) then None
  else
    let state := norm rawState in
    Some (property_key state, (state, population_of state rawState)).

(** The rows whose region is spelled plainly. *)
Definition plain_cancer_row (row : BuildData.CancerRow) : Prop :=
  plain (match BuildData.cr_state row with
         | Some s => s
         | None => EmptyString
         end).
Definition plain_legacy_row (row : BuildData.LegacyFoodRow) : Prop :=
  plain (BuildData.or_empty (BuildData.lr_state row)).
Definition plain_manual_entry (entry : BuildData.ManualFoodRow) : Prop :=
  plain (BuildData.mr_state entry).

(** An incidence row for a region called [constructor], which the
    population table does not list. *)
Definition constructor_row : BuildData.CancerRow :=
  {| BuildData.cr_state := Some "constructor";
     BuildData.cr_2019 := Some "7";
     BuildData.cr_2020 := Some "8";
     BuildData.cr_2021 := Some "9";
     BuildData.cr_2022 := Some "10" |}.

End Proto.

(* ------------------------------------------------------------------ *)
(** * Properties *)

(** ** Substring search *)

Lemma startsWith_iff kw s :
  startsWith kw s = true <-> exists q, s = kw ++ q.
Proof.
  revert s; induction kw as [|a kw IH]; intros s; simpl.
  - split; [intros _; now exists s | reflexivity].
  - destruct s as [|b s].
    + split; [discriminate | intros [q Hq]; discriminate].
    + rewrite andb_true_iff, Ascii.eqb_eq, IH. split.
      * intros [-> [q ->]]. now exists q.
      * intros [q Hq]. injection Hq as -> ->. split; [reflexivity | now exists q].
Qed.

Lemma includes_iff kw s : includes kw s = true <-> contains kw s.
Proof.
  induction s as [|c s IH]; simpl.
  - rewrite orb_false_r, startsWith_iff. split.
    + intros [q Hq]. now exists "", q.
    + intros [p [q Hpq]]. destruct p; simpl in Hpq.
      * now exists q.
      * discriminate.
  - rewrite orb_true_iff, startsWith_iff, IH. split.
    + intros [[q Hq] | [p [q Hpq]]].
      * now exists "", q.
      * exists (String c p), q. simpl. now rewrite Hpq.
    + intros [p [q Hpq]]. destruct p as [|d p]; simpl in Hpq.
      * left. now exists q.
      * right. injection Hpq as _ Hs. now exists p, q.
Qed.

Lemma includes_false_iff kw s : includes kw s = false <-> ~ contains kw s.
Proof.
  rewrite <- includes_iff. destruct (includes kw s); split; intro H;
    congruence.
Qed.

Lemma existsb_includes_iff kws s :
  existsb (fun kw => includes kw s) kws = true <->
  exists kw, In kw kws /\ contains kw s.
Proof.
  rewrite existsb_exists. split; intros [kw [Hin H]]; exists kw; split; auto;
    now apply includes_iff.
Qed.

(* ------------------------------------------------------------------ *)
(** ** Diet classification *)

Section DietFacts.
Import Classify.

Lemma lower_ascii_idem c : lower_ascii (lower_ascii c) = lower_ascii c.
Proof.
  destruct c as [[] [] [] [] [] [] [] []]; reflexivity.
Qed.

Lemma toLowerCase_idem s : toLowerCase (toLowerCase s) = toLowerCase s.
Proof.
  induction s as [|c s IH]; simpl; [reflexivity|].
  now rewrite lower_ascii_idem, IH.
Qed.

Lemma truthy_toLowerCase s : truthy (toLowerCase s) = truthy s.
Proof. destruct s; reflexivity. Qed.

Lemma contains_nonempty_in_empty kw :
  kw <> "" -> ~ contains kw "".
Proof.
  intros Hkw [p [q H]]. destruct p; simpl in H.
  - destruct kw; [now apply Hkw | discriminate].
  - discriminate.
Qed.

(** C4. For every input string the diet classifier applies its three
    substring rules to the lower-cased text in a fixed priority:
    "non" or else "egg" give non-vegetarian, else "veg" gives
    vegetarian, else the diet is unknown ([null]). The answer depends on
    the input only up to letter case. In particular "non-vegetarian"
    (which contains "veg") is non-vegetarian, "egg" is non-vegetarian,
    "vegetarian" is vegetarian and [null] is unknown. *)
Theorem classifyDiet_priority_rules :
  (forall s : string,
      let d := toLowerCase s in
      (classifyDiet (Some s) = Some non_vegetarian <->
         contains "non" d \/ (~ contains "non" d /\ contains "egg" d)) /\
      (classifyDiet (Some s) = Some vegetarian <->
         ~ contains "non" d /\ ~ contains "egg" d /\ contains "veg" d) /\
      (classifyDiet (Some s) = None <->
         ~ contains "non" d /\ ~ contains "egg" d /\ ~ contains "veg" d) /\
      classifyDiet (Some (toLowerCase s)) = classifyDiet (Some s)) /\
  classifyDiet (Some "non-vegetarian") = Some non_vegetarian /\
  contains "veg" (toLowerCase "non-vegetarian") /\
  classifyDiet (Some "egg") = Some non_vegetarian /\
  classifyDiet (Some "vegetarian") = Some vegetarian /\
  classifyDiet None = None.
Proof.
  split.
  - intros s d.
    assert (Hlow : classifyDiet (Some (toLowerCase s)) = classifyDiet (Some s)).
    { unfold classifyDiet. now rewrite truthy_toLowerCase, toLowerCase_idem. }
    assert (Hcases :
      classifyDiet (Some s) =
      if includes "non" d then Some non_vegetarian
      else if includes "egg" d then Some non_vegetarian
      else if includes "veg" d then Some vegetarian else None).
    { unfold classifyDiet. fold d. destruct s; reflexivity. }
    refine (conj _ (conj _ (conj _ Hlow))); rewrite Hcases;
      (destruct (includes "non" d) eqn:Hnon;
        [apply includes_iff in Hnon | apply includes_false_iff in Hnon]);
      (destruct (includes "egg" d) eqn:Hegg;
        [apply includes_iff in Hegg | apply includes_false_iff in Hegg]);
      (destruct (includes "veg" d) eqn:Hveg;
        [apply includes_iff in Hveg | apply includes_false_iff in Hveg]);
      split; intros; try discriminate; tauto.
  - repeat split. apply includes_iff. reflexivity.
Qed.

End DietFacts.

(* ------------------------------------------------------------------ *)
(** ** Sweetness detection *)

Section SweetFacts.
Import Classify.

Lemma token_check_iff tokens :
  existsb
    (fun token =>
       existsb (fun kw => if includes " " kw then false else includes kw token)
               SWEET_INGREDIENT_KEYWORDS) tokens = true <->
  exists token kw,
    In token tokens /\ In kw SWEET_INGREDIENT_KEYWORDS /\
    ~ contains " " kw /\ contains kw token.
Proof.
  rewrite existsb_exists. split.
  - intros [token [Hin H]]. apply existsb_exists in H as [kw [Hkw H]].
    exists token, kw. destruct (includes " " kw) eqn:Hsp; [discriminate|].
    repeat split; auto.
    + now apply includes_false_iff.
    + now apply includes_iff.
  - intros [token [kw [Hin [Hkw [Hsp H]]]]]. exists token. split; [assumption|].
    apply existsb_exists. exists kw. split; [assumption|].
    apply includes_false_iff in Hsp. rewrite Hsp. now apply includes_iff.
Qed.

(** C9. The sweetness detector answers true exactly when the lower-cased
    course mentions "dessert" or "sweet", or the lower-cased dish name
    contains a sweet-dish-name keyword, or the lower-cased raw
    ingredient text contains any sweet-ingredient keyword (multi-word
    ones included), or some ingredient token contains a sweet-ingredient
    keyword that has no blank in it. The keywords with a blank,
    "condensed milk" and "palm jaggery", take no part in the per-token
    test. *)
Theorem detectSweetness_iff :
  (forall (name : string) (course : option string)
          (tokens : list string) (rawIngredients : string),
      let courseLower :=
        match course with Some c => toLowerCase c | None => "" end in
      detectSweetness name course tokens rawIngredients = true <->
      (contains "dessert" courseLower \/ contains "sweet" courseLower) \/
      (exists kw, In kw SWEET_NAME_KEYWORDS /\
                  contains kw (toLowerCase name)) \/
      (exists kw, In kw SWEET_INGREDIENT_KEYWORDS /\
                  contains kw (toLowerCase rawIngredients)) \/
      (exists token kw,
          In token tokens /\ In kw single_word_keywords /\
          contains kw token)) /\
  single_word_keywords =
    [ "sugar"; "jaggery"; "honey"; "khoya"; "mawa"; "rabdi"; "gud";
      "treacle"; "molasses"; "dates"; "khoa" ] /\
  (forall kw, In kw SWEET_INGREDIENT_KEYWORDS ->
              ~ In kw single_word_keywords ->
              kw = "condensed milk" \/ kw = "palm jaggery").
Proof.
  split; [|split].
  - intros name course tokens raw courseLower.
    unfold detectSweetness. fold courseLower.
    rewrite <- !includes_iff, <- !existsb_includes_iff.
    assert (Htok :
      (exists token kw,
          In token tokens /\ In kw single_word_keywords /\ contains kw token)
      <-> existsb
            (fun token =>
               existsb (fun kw => if includes " " kw then false
                                  else includes kw token)
                       SWEET_INGREDIENT_KEYWORDS) tokens = true).
    { rewrite token_check_iff. unfold single_word_keywords.
      split; intros [token [kw H]]; exists token, kw.
      - destruct H as [Hin [Hkw Hc]]. apply filter_In in Hkw as [Hkw Hsp].
        apply negb_true_iff, includes_false_iff in Hsp. tauto.
      - destruct H as [Hin [Hkw [Hsp Hc]]]. repeat split; auto.
        apply filter_In. split; [assumption|].
        now apply negb_true_iff, includes_false_iff. }
    rewrite Htok. clear Htok.
    repeat match goal with
           | |- context [existsb ?f ?l] =>
               let b := fresh "b" in set (b := existsb f l); clearbody b
           end.
    destruct (includes "dessert" courseLower), (includes "sweet" courseLower),
      b, b0, b1; cbn [orb]; try tauto;
      (split; [discriminate|]; intros [[H|H]|[H|[H|H]]]; discriminate).
  - reflexivity.
  - intros kw Hin Hnot. simpl in Hin.
    repeat (destruct Hin as [<- | Hin];
            [ try (now left); try (now right);
              exfalso; apply Hnot; vm_compute; tauto | ]).
    contradiction.
Qed.

End SweetFacts.

(* ------------------------------------------------------------------ *)
(** ** Sorting and dictionaries *)

Section SortFacts.
Context {A : Type}.
Variable cmp : A -> A -> Z.

Lemma insert_sorted_perm x l :
  Permutation (JsArray.insert_sorted cmp x l) (x :: l).
Proof.
  induction l as [|y l IH]; simpl; [reflexivity|].
  destruct (cmp x y <=? 0)%Z; [reflexivity|].
  rewrite IH. apply perm_swap.
Qed.

Lemma sort_perm l : Permutation (JsArray.sort cmp l) l.
Proof.
  induction l as [|x l IH]; simpl; [reflexivity|].
  rewrite insert_sorted_perm. now constructor.
Qed.

Lemma sort_In x l : In x (JsArray.sort cmp l) <-> In x l.
Proof.
  split; apply Permutation_in; [|symmetry]; apply sort_perm.
Qed.

Lemma sort_length l : List.length (JsArray.sort cmp l) = List.length l.
Proof. apply Permutation_length, sort_perm. Qed.

Lemma sort_Forall (P : A -> Prop) l :
  Forall P l -> Forall P (JsArray.sort cmp l).
Proof.
  rewrite !Forall_forall. intros H x Hx. apply H. now apply sort_In.
Qed.

Lemma sort_singleton x : JsArray.sort cmp [x] = [x].
Proof. reflexivity. Qed.

Hypothesis cmp_total : forall a b, (cmp a b <= 0 \/ cmp b a <= 0)%Z.

Lemma insert_sorted_sorted x l :
  Sorted (JsArray.before cmp) l ->
  Sorted (JsArray.before cmp) (JsArray.insert_sorted cmp x l).
Proof.
  induction 1 as [|y l Hl IH Hy]; simpl.
  - repeat constructor.
  - destruct (cmp x y <=? 0)%Z eqn:E.
    + apply Z.leb_le in E. repeat constructor; assumption.
    + apply Z.leb_gt in E. constructor; [assumption|].
      assert (Hyx : JsArray.before cmp y x).
      { unfold JsArray.before. destruct (cmp_total x y); [lia | assumption]. }
      destruct Hy as [|z l Hyz]; simpl.
      * now constructor.
      * destruct (cmp x z <=? 0)%Z; now constructor.
Qed.

Lemma sort_sorted l : Sorted (JsArray.before cmp) (JsArray.sort cmp l).
Proof.
  induction l as [|x l IH]; simpl; [constructor|].
  now apply insert_sorted_sorted.
Qed.

Hypothesis cmp_trans :
  forall a b c, (cmp a b <= 0 -> cmp b c <= 0 -> cmp a c <= 0)%Z.

Lemma sort_strongly_sorted l :
  StronglySorted (JsArray.before cmp) (JsArray.sort cmp l).
Proof.
  apply Sorted_StronglySorted; [|apply sort_sorted].
  intros a b c. apply cmp_trans.
Qed.

End SortFacts.

Section DictFacts.
Context {V : Type}.

Lemma get_upsert_same key init (f : V -> V) d :
  JsArray.get key (JsArray.upsert key init f d) =
  Some (f match JsArray.get key d with Some v => v | None => init end).
Proof.
  induction d as [|[k v] d IH]; simpl.
  - now rewrite String.eqb_refl.
  - destruct (String.eqb k key) eqn:E; simpl; rewrite E; [reflexivity|].
    exact IH.
Qed.

Lemma get_upsert_other key key' init (f : V -> V) d :
  key <> key' ->
  JsArray.get key' (JsArray.upsert key init f d) = JsArray.get key' d.
Proof.
  intros Hne. induction d as [|[k v] d IH]; simpl.
  - apply String.eqb_neq in Hne. now rewrite Hne.
  - destruct (String.eqb k key) eqn:E; simpl.
    + apply String.eqb_eq in E. subst k.
      apply String.eqb_neq in Hne. now rewrite Hne.
    + destruct (String.eqb k key'); [reflexivity | exact IH].
Qed.

Lemma get_None_iff key (d : list (string * V)) :
  JsArray.get key d = None <-> ~ In key (JsArray.keys d).
Proof.
  induction d as [|[k v] d IH]; simpl.
  - tauto.
  - destruct (String.eqb_spec k key) as [->|Hne].
    + split; [discriminate | intros H; exfalso; apply H; now left].
    + rewrite IH. split; [intros H [Hk|Hin]; auto | tauto].
Qed.

Lemma get_Some_In key (d : list (string * V)) v :
  JsArray.get key d = Some v -> In (key, v) d.
Proof.
  induction d as [|[k w] d IH]; simpl; [discriminate|].
  destruct (String.eqb_spec k key) as [->|Hne].
  - intros H. injection H as ->. now left.
  - intros H. right. now apply IH.
Qed.

(** Every value of an updated dictionary is an old value, or [f] of an
    old value, or [f init]. *)
Lemma upsert_values key init (f : V -> V) d v :
  In v (JsArray.values (JsArray.upsert key init f d)) ->
  In v (JsArray.values d) \/
  (exists w, In w (JsArray.values d) /\ v = f w) \/ v = f init.
Proof.
  induction d as [|[k w] d IH]; simpl.
  - intros [<-|[]]. now right; right.
  - destruct (String.eqb k key); simpl.
    + intros [<-|H]; [right; left; exists w; auto | auto].
    + intros [<-|H]; [auto|].
      destruct (IH H) as [H1|[[u [Hu ->]]|H3]]; auto.
      right; left; exists u; auto.
Qed.

Lemma upsert_keys_NoDup key init (f : V -> V) d :
  NoDup (JsArray.keys d) -> NoDup (JsArray.keys (JsArray.upsert key init f d)).
Proof.
  assert (Hin : forall d k, In k (JsArray.keys (JsArray.upsert key init f d)) ->
                            k = key \/ In k (JsArray.keys d)).
  { clear d. induction d as [|[k' v] d IH]; simpl; intros k.
    - intros [<-|[]]. now left.
    - destruct (String.eqb k' key); simpl; [tauto|].
      intros [<-|H]; [tauto|]. destruct (IH _ H); tauto. }
  induction d as [|[k v] d IH]; simpl; intros Hnd.
  - repeat constructor. intros [].
  - inversion Hnd as [|? ? Hk Hd]; subst.
    destruct (String.eqb_spec k key) as [->|Hne]; simpl.
    + now constructor.
    + constructor; [|now apply IH].
      intros H. destruct (Hin _ _ H); [congruence | contradiction].
Qed.

End DictFacts.

(* ------------------------------------------------------------------ *)
(** ** Incidence totals *)

Section IncidenceFacts.
Import Regions BuildData.

(** A value added to a total that is [null] starts again from zero. *)
Lemma accumulate_after_null total v :
  accumulate (accumulate total None) (Some v) = Some (JsNum.add (Fin 0) v).
Proof. reflexivity. Qed.

(** The running total over the figures of one region and year is
    [null] exactly when the last figure is missing. *)
Lemma accumulate_fold_null_iff (vs : list (option jsnum)) total :
  fold_left accumulate vs total = None <->
  last vs total = None.
Proof.
  revert total. induction vs as [|v vs IH]; intros total.
  - simpl. tauto.
  - change (fold_left accumulate (v :: vs) total)
      with (fold_left accumulate vs (accumulate total v)).
    rewrite IH. destruct vs as [|w vs].
    + simpl. destruct v; simpl; split; congruence.
    + assert (Hd : forall (l : list (option jsnum)) x d d',
                 last (x :: l) d = last (x :: l) d').
      { induction l as [|y l IHl]; intros x d d'; [reflexivity|].
        change (last (y :: l) d = last (y :: l) d'). apply IHl. }
      change (last (v :: w :: vs) total) with (last (w :: vs) total).
      now rewrite (Hd vs w (accumulate total v) total).
Qed.

Section RunningTotal.
Variable Number : string -> jsnum.

Lemma add_cancer_row_total yr st acc row :
  option_map (total_of yr) (JsArray.get st (add_cancer_row Number acc row)) =
  if contributes st row
  then Some (accumulate
               (match JsArray.get st acc with
                | Some bucket => total_of yr bucket
                | None => Some (Fin 0)
                end)
               (toNum Number (cell yr row)))
  else option_map (total_of yr) (JsArray.get st acc).
Proof.
  unfold add_cancer_row, contributes.
  set (rawState := trim match cr_state row with
                        | Some s => s
                        | None => ""
                        end).
  destruct (JsString.truthy rawState); [|reflexivity].
  cbn [negb andb].
  destruct (String.eqb_spec (norm rawState) st) as [<-|Hne].
  - rewrite get_upsert_same.
    destruct (JsArray.get (norm rawState) acc) as [b|];
      destruct yr; reflexivity.
  - now rewrite get_upsert_other.
Qed.

Lemma fold_cancer_rows_total yr st rows acc :
  option_map (total_of yr)
    (JsArray.get st (fold_left (add_cancer_row Number) rows acc)) =
  match figures Number yr st rows with
  | [] => option_map (total_of yr) (JsArray.get st acc)
  | vs => Some (fold_left accumulate vs
                  (match JsArray.get st acc with
                   | Some bucket => total_of yr bucket
                   | None => Some (Fin 0)
                   end))
  end.
Proof.
  revert acc. induction rows as [|row rows IH]; intros acc; [reflexivity|].
  cbn [fold_left]. rewrite IH. unfold figures. cbn [filter].
  pose proof (add_cancer_row_total yr st acc row) as Hstep.
  destruct (contributes st row); cbn [map].
  - destruct (JsArray.get st (add_cancer_row Number acc row)) as [b|];
      [|discriminate].
    cbn [option_map] in Hstep. injection Hstep as Hstep.
    destruct (map _ (filter (contributes st) rows)) as [|v vs].
    + cbn [option_map fold_left]. now rewrite Hstep.
    + cbn [fold_left]. now rewrite Hstep.
  - destruct (map _ (filter (contributes st) rows)) as [|v vs].
    + exact Hstep.
    + destruct (JsArray.get st (add_cancer_row Number acc row)) as [b|],
        (JsArray.get st acc) as [b'|]; cbn [option_map] in Hstep;
        try discriminate; [|reflexivity].
      injection Hstep as Hstep. now rewrite Hstep.
Qed.

(** What the code does: the total of a region and year that has rows
    is the running [accumulate] of its figures, so it is [null] exactly
    when the figure of the last row is missing. *)
Lemma incidence_total_null_iff_last_missing yr st cancerCSV :
  figures Number yr st cancerCSV <> [] ->
  option_map (total_of yr)
    (JsArray.get st (accumulate_cancer Number cancerCSV)) =
    Some (fold_left accumulate (figures Number yr st cancerCSV)
                    (Some (Fin 0))) /\
  (option_map (total_of yr)
     (JsArray.get st (accumulate_cancer Number cancerCSV)) = Some None <->
   last (figures Number yr st cancerCSV) (Some (Fin 0)) = None).
Proof.
  intros Hne.
  assert (H : option_map (total_of yr)
                (JsArray.get st (accumulate_cancer Number cancerCSV)) =
              Some (fold_left accumulate (figures Number yr st cancerCSV)
                              (Some (Fin 0)))).
  { unfold accumulate_cancer. rewrite fold_cancer_rows_total.
    destruct (figures Number yr st cancerCSV); [congruence | reflexivity]. }
  split; [exact H|]. rewrite H, <- accumulate_fold_null_iff.
  split; [intros E; now injection E | intros ->; reflexivity].
Qed.

End RunningTotal.

(** C1 (the code loses the marker). The rows of "Dadra and Nagar
    Haveli" and of "Daman and Diu" feed one region. When the first has
    no 2019 figure and the second reports five cases, the 2019 total of
    the region ends as five: the [null] set by the first row is turned
    back into zero by the addition of the second. With the rows in the
    other order the total is [null]. *)
Theorem incidence_null_lost_on_later_value :
  option_map incidence_2019
    (JsArray.get "Dadra and Nagar Haveli and Daman and Diu"
       (accumulate_cancer Env.Number_digits
          [Env.haveli_missing; Env.daman_five])) = Some (Some (Fin 5)) /\
  option_map incidence_2019
    (JsArray.get "Dadra and Nagar Haveli and Daman and Diu"
       (accumulate_cancer Env.Number_digits
          [Env.daman_five; Env.haveli_missing])) = Some None.
Proof.
  split.
  - cbv. do 3 f_equal. lra.
  - reflexivity.
Qed.

End IncidenceFacts.

(* ------------------------------------------------------------------ *)
(** ** The per-region aggregator *)

Section AggregatorFacts.
Import Classify Regions BuildData.

(** A spelling listed in the alias table is its own trimmed form, and
    the name it stands for is neither empty nor the sentinel. *)
Lemma normMap_alias R k :
  JsArray.get R normMap = Some k ->
  norm R = k /\ JsString.truthy k = true /\ String.eqb k "-1" = false.
Proof.
  intros H. unfold normMap in H. cbn [JsArray.get] in H.
  repeat match type of H with
         | (if String.eqb ?a R then _ else _) = _ =>
             destruct (String.eqb_spec a R) as [<-|_];
             [injection H as <-; repeat split; reflexivity|]
         end.
  discriminate.
Qed.

(** C5. Two raw spellings that the alias table maps to the same
    canonical name feed one bucket: after one observation under each,
    the aggregator holds a single summary, keyed by the canonical name,
    with a dish count of two. *)
Theorem alias_spellings_share_one_summary
    (localeCompare : string -> string -> Z)
    (R1 R2 k : string) (d1 d2 : Details) :
  JsArray.get R1 normMap = Some k ->
  JsArray.get R2 normMap = Some k ->
  exists row,
    cuisine_rows localeCompare
      (addObservation R2 d2 (addObservation R1 d1 [])) = [row] /\
    state row = k /\ row_dish_count row = 2.
Proof.
  intros H1 H2.
  destruct (normMap_alias _ _ H1) as [N1 [T1 S1]].
  destruct (normMap_alias _ _ H2) as [N2 _].
  unfold addObservation. rewrite N1, N2, T1, S1.
  cbn [negb orb JsArray.upsert]. rewrite String.eqb_refl.
  unfold cuisine_rows. cbn [JsArray.values map snd].
  rewrite sort_singleton. eexists. split; [reflexivity|].
  split; reflexivity.
Qed.

Lemma alias_spellings_share_one_summary_witness :
  exists row,
    cuisine_rows Env.code_unit_compare
      (addObservation "Delhi (NCT)" Env.plain_dish
         (addObservation "NCT of Delhi" Env.plain_dish [])) = [row] /\
    state row = "Delhi" /\ row_dish_count row = 2.
Proof.
  apply (alias_spellings_share_one_summary Env.code_unit_compare
           "NCT of Delhi" "Delhi (NCT)" "Delhi"); reflexivity.
Defined.

Lemma new_bucket_bounded st : counts_bounded (new_cuisine_bucket st).
Proof. unfold counts_bounded; simpl; lia. Qed.

Lemma bump_le b n m : n <= m -> bump b n <= m + 1.
Proof. unfold bump; destruct b; lia. Qed.

Lemma observe_ok d b : counts_bounded b -> bucket_ok (observe d b).
Proof.
  intros (Hv & Hs & Hl & Hr & Hp & Hf & Ht).
  unfold bucket_ok, counts_bounded; simpl.
  split; [lia|]. repeat split; now apply bump_le.
Qed.

Lemma addObservation_ok stateRaw d acc :
  Forall bucket_ok (JsArray.values acc) ->
  Forall bucket_ok (JsArray.values (addObservation stateRaw d acc)).
Proof.
  intros Hacc. unfold addObservation.
  destruct (negb _ || _); [assumption|].
  rewrite Forall_forall in *. intros b Hb.
  apply upsert_values in Hb as [Hb | [[w [Hw ->]] | ->]].
  - now apply Hacc.
  - apply observe_ok. now apply Hacc.
  - apply observe_ok, new_bucket_bounded.
Qed.

Lemma add_all_ok calls : Forall bucket_ok (JsArray.values (add_all calls)).
Proof.
  unfold add_all.
  assert (H : forall acc,
             Forall bucket_ok (JsArray.values acc) ->
             Forall bucket_ok
               (JsArray.values
                  (fold_left
                     (fun acc call =>
                        addObservation (fst call) (snd call) acc)
                     calls acc))).
  { induction calls as [|c calls IH]; intros acc Hacc; simpl; [assumption|].
    now apply IH, addObservation_ok. }
  apply H. constructor.
Qed.

Section Loops.
Variable Number : string -> jsnum.

Lemma add_archana_row_ok acc row :
  Forall bucket_ok (JsArray.values acc) ->
  Forall bucket_ok (JsArray.values (add_archana_row Number acc row)).
Proof.
  intros Hacc. unfold add_archana_row.
  destruct (or_else _ _); [|assumption].
  destruct (negb _); [assumption|].
  destruct (negb _); [assumption|].
  now apply addObservation_ok.
Qed.

Lemma add_legacy_row_ok acc row :
  Forall bucket_ok (JsArray.values acc) ->
  Forall bucket_ok (JsArray.values (add_legacy_row Number acc row)).
Proof.
  intros Hacc. unfold add_legacy_row.
  destruct (negb _); [assumption|].
  now apply addObservation_ok.
Qed.

Lemma add_manual_entry_ok acc entry :
  Forall bucket_ok (JsArray.values acc) ->
  Forall bucket_ok (JsArray.values (add_manual_entry acc entry)).
Proof.
  intros Hacc. unfold add_manual_entry. now apply addObservation_ok.
Qed.

Lemma fold_left_ok {Row : Type}
    (step : list (string * CuisineBucket) -> Row ->
            list (string * CuisineBucket)) :
  (forall acc row,
      Forall bucket_ok (JsArray.values acc) ->
      Forall bucket_ok (JsArray.values (step acc row))) ->
  forall rows acc,
    Forall bucket_ok (JsArray.values acc) ->
    Forall bucket_ok (JsArray.values (fold_left step rows acc)).
Proof.
  intros Hstep. induction rows as [|row rows IH]; intros acc Hacc; simpl.
  - assumption.
  - now apply IH, Hstep.
Qed.

Lemma accumulate_cuisine_ok archanaCSV legacyCSV manualJSON :
  Forall bucket_ok
    (JsArray.values
       (accumulate_cuisine Number archanaCSV legacyCSV manualJSON)).
Proof.
  unfold accumulate_cuisine.
  apply fold_left_ok; [apply add_manual_entry_ok|].
  apply fold_left_ok; [apply add_legacy_row_ok|].
  apply fold_left_ok; [apply add_archana_row_ok|].
  constructor.
Qed.

End Loops.

Lemma ratio_unit_interval a n :
  1 <= n -> a <= n -> unit_interval (ratio (JsNum.of_nat a) n).
Proof.
  intros Hn Ha. unfold ratio, unit_interval.
  destruct (Nat.eqb_spec n 0) as [->|_]; [lia|].
  assert (Hpos : (0 < INR n)%R) by (apply lt_0_INR; lia).
  assert (Hle : (INR a <= INR n)%R) by now apply le_INR.
  assert (H0 : (0 <= INR a)%R) by apply pos_INR.
  exists (INR a / INR n)%R. split.
  - unfold JsNum.div, JsNum.of_nat, JsNum.Reqb.
    destruct (Req_dec_T (INR n) 0); [lra | reflexivity].
  - split.
    + apply Rmult_le_pos; [assumption|].
      left. now apply Rinv_0_lt_compat.
    + apply Rmult_le_reg_r with (INR n); [assumption|].
      unfold Rdiv. rewrite Rmult_assoc, Rinv_l by lra. lra.
Qed.

Lemma summarise_ok localeCompare b :
  bucket_ok b -> row_ok (summarise localeCompare b).
Proof.
  intros [H1 (Hv & Hs & Hl & Hr & Hp & Hf & Ht)].
  unfold row_ok; simpl.
  repeat split; try assumption; now apply ratio_unit_interval.
Qed.

Lemma cuisine_rows_ok localeCompare acc :
  Forall bucket_ok (JsArray.values acc) ->
  Forall row_ok (cuisine_rows localeCompare acc).
Proof.
  intros Hacc. unfold cuisine_rows. apply sort_Forall.
  rewrite Forall_forall in *. intros row Hrow.
  apply in_map_iff in Hrow as [b [<- Hb]].
  apply summarise_ok. now apply Hacc.
Qed.

(** C10. Whatever rows the three recipe tables hold, and whatever
    sequence of observations is added to a fresh accumulator, every
    bucket has counted at least one dish and none of its category
    counts exceeds its dish count; so every summary emitted has a dish
    count of at least one and every share in it is present and lies
    between zero and one. *)
Theorem cuisine_summaries_within_bounds :
  (forall (Number : string -> jsnum) (localeCompare : string -> string -> Z)
          (archanaCSV : list ArchanaFoodRow) (legacyCSV : list LegacyFoodRow)
          (manualJSON : list ManualFoodRow),
      let cuisineAcc :=
        accumulate_cuisine Number archanaCSV legacyCSV manualJSON in
      Forall bucket_ok (JsArray.values cuisineAcc) /\
      Forall row_ok (cuisine_rows localeCompare cuisineAcc)) /\
  (forall (localeCompare : string -> string -> Z)
          (calls : list (string * Details)),
      Forall bucket_ok (JsArray.values (add_all calls)) /\
      Forall row_ok (cuisine_rows localeCompare (add_all calls))).
Proof.
  split.
  - intros Number localeCompare archanaCSV legacyCSV manualJSON cuisineAcc.
    split; [|apply cuisine_rows_ok]; apply accumulate_cuisine_ok.
  - intros localeCompare calls.
    split; [|apply cuisine_rows_ok]; apply add_all_ok.
Qed.

End AggregatorFacts.

(* ------------------------------------------------------------------ *)
(** ** The concrete collation is an order *)

Section CollationFacts.

Lemma code_unit_compare_le a b :
  (Env.code_unit_compare a b <= 0)%Z <-> String_as_OT.lt a b \/ a = b.
Proof.
  unfold Env.code_unit_compare.
  rewrite <- String_as_OT.cmp_lt, <- String_as_OT.cmp_eq.
  unfold String_as_OT.cmp.
  destruct (String.compare a b); split; intros H; try lia; try tauto;
    destruct H; discriminate.
Qed.

Lemma code_unit_compare_total a b :
  (Env.code_unit_compare a b <= 0 \/ Env.code_unit_compare b a <= 0)%Z.
Proof.
  unfold Env.code_unit_compare.
  rewrite (String.compare_antisym b a).
  destruct (String.compare a b); simpl; lia.
Qed.

Lemma code_unit_compare_trans a b c :
  (Env.code_unit_compare a b <= 0 -> Env.code_unit_compare b c <= 0 ->
   Env.code_unit_compare a c <= 0)%Z.
Proof.
  rewrite !code_unit_compare_le.
  intros [Hab | ->] [Hbc | ->]; auto.
  left. eapply String_as_OT.lt_trans; eassumption.
Qed.

End CollationFacts.

(* ------------------------------------------------------------------ *)
(** ** The join *)

Section JoinFacts.
Import BuildData.

Lemma dedup_In seen l x :
  In x (JsArray.dedup seen l) <-> In x l /\ ~ In x seen.
Proof.
  revert seen. induction l as [|y l IH]; intros seen; simpl.
  - tauto.
  - destruct (existsb (String.eqb y) seen) eqn:E.
    + apply existsb_exists in E as [z [Hz Hyz]].
      apply String.eqb_eq in Hyz. subst z.
      rewrite IH. split; [tauto|].
      intros [[<-|H] Hn]; [contradiction | tauto].
    + assert (Hy : ~ In y seen).
      { intros Hy. apply Bool.not_true_iff_false in E. apply E.
        apply existsb_exists. exists y. split; [assumption|].
        apply String.eqb_refl. }
      simpl. rewrite IH. simpl. split.
      * intros [<-|[H Hn]]; [tauto|]. split; [tauto|]. intros Hs. apply Hn.
        now right.
      * intros [[<-|H] Hn]; [tauto|].
        destruct (String.eqb_spec y x) as [->|Hne]; [tauto|].
        right. split; [assumption|]. intros [Heq|Hs]; tauto.
Qed.

Lemma dedup_NoDup seen l : NoDup (JsArray.dedup seen l).
Proof.
  revert seen. induction l as [|y l IH]; intros seen; simpl.
  - constructor.
  - destruct (existsb (String.eqb y) seen); [apply IH|].
    constructor; [|apply IH].
    rewrite dedup_In. intros [_ H]. apply H. now left.
Qed.

Lemma set_of_In l x : In x (JsArray.set_of l) <-> In x l.
Proof. unfold JsArray.set_of. rewrite dedup_In. simpl. tauto. Qed.

Section MapOf.
Context {V : Type}.

Let put (m : list (string * V)) (e : string * V) :=
  JsArray.upsert (fst e) (snd e) (fun _ => snd e) m.

Lemma map_of_fold_None key entries (m : list (string * V)) :
  JsArray.get key (fold_left put entries m) = None <->
  JsArray.get key m = None /\ ~ In key (map fst entries).
Proof.
  revert m. induction entries as [|[k v] entries IH]; intros m; simpl.
  - tauto.
  - rewrite IH. unfold put. simpl.
    destruct (String.eqb_spec k key) as [->|Hne].
    + rewrite get_upsert_same. split; [intros [H _]; discriminate | tauto].
    + rewrite get_upsert_other by assumption. tauto.
Qed.

Lemma map_of_fold_Some key entries (m : list (string * V)) v :
  JsArray.get key (fold_left put entries m) = Some v ->
  JsArray.get key m = Some v \/ In (key, v) entries.
Proof.
  revert m. induction entries as [|[k w] entries IH]; intros m; simpl.
  - tauto.
  - intros H. apply IH in H as [H|H]; [|tauto].
    unfold put in H. simpl in H.
    destruct (String.eqb_spec k key) as [->|Hne].
    + rewrite get_upsert_same in H. injection H as ->. tauto.
    + rewrite get_upsert_other in H by assumption. tauto.
Qed.

Lemma map_of_None key (entries : list (string * V)) :
  JsArray.get key (JsArray.map_of entries) = None <->
  ~ In key (map fst entries).
Proof.
  unfold JsArray.map_of. fold put. rewrite map_of_fold_None. simpl. tauto.
Qed.

Lemma map_of_Some key (entries : list (string * V)) v :
  JsArray.get key (JsArray.map_of entries) = Some v -> In (key, v) entries.
Proof.
  unfold JsArray.map_of. fold put. intros H.
  apply map_of_fold_Some in H as [H|H]; [discriminate | assumption].
Qed.

End MapOf.

Lemma exactly_one_of_NoDup {T : Type} (f : T -> string) l x :
  NoDup (map f l) -> In x (map f l) ->
  List.length (filter (fun r => String.eqb (f r) x) l) = 1.
Proof.
  induction l as [|r l IH]; simpl; [contradiction|].
  intros Hnd Hin. inversion Hnd as [|? ? Hr Hl]; subst.
  destruct (String.eqb_spec (f r) x) as [<-|Hne]; simpl.
  - f_equal. clear IH Hin Hnd Hl.
    induction l as [|r' l IHl]; [reflexivity|]. simpl in *.
    destruct (String.eqb_spec (f r') (f r)) as [E|_].
    + exfalso. apply Hr. now left.
    + apply IHl. tauto.
  - destruct Hin as [H|H]; [contradiction|]. now apply IH.
Qed.

Lemma joined_rows_states localeCompare cancerByState cuisineRows :
  map j_state (joined_rows localeCompare cancerByState cuisineRows) =
  JsArray.sort localeCompare
    (JsArray.set_of (JsArray.keys cancerByState ++ map state cuisineRows)).
Proof.
  unfold joined_rows. rewrite map_map. simpl. apply map_id.
Qed.

(** C6. The join holds exactly one record for every region that is a
    key of the incidence dictionary or the state of a cuisine summary,
    and no record for any other region; the [cancer] and [cuisine]
    fields of a record are the entries of its region in the two
    sources, [null] exactly when the source has none; and the records
    are in ascending order of their region under the collation, which
    is assumed total and transitive. *)
Theorem join_covers_every_region
    (localeCompare : string -> string -> Z)
    (cancerByState : list (string * CancerBucket))
    (cuisineRows : list CuisineRow) :
  (forall a b, (localeCompare a b <= 0 \/ localeCompare b a <= 0)%Z) ->
  (forall a b c, (localeCompare a b <= 0 -> localeCompare b c <= 0 ->
                  localeCompare a c <= 0)%Z) ->
  let joinedRows := joined_rows localeCompare cancerByState cuisineRows in
  (forall region,
      (In region (JsArray.keys cancerByState) \/
       In region (map state cuisineRows)) <->
      List.length
        (filter (fun r => String.eqb (j_state r) region) joinedRows) = 1) /\
  NoDup (map j_state joinedRows) /\
  (forall r, In r joinedRows ->
      cancer r = JsArray.get (j_state r) cancerByState /\
      (cancer r = None <-> ~ In (j_state r) (JsArray.keys cancerByState)) /\
      (forall b, cancer r = Some b -> In (j_state r, b) cancerByState) /\
      (cuisine r = None <-> ~ In (j_state r) (map state cuisineRows)) /\
      (forall row, cuisine r = Some row ->
                   In row cuisineRows /\ state row = j_state r)) /\
  StronglySorted (JsArray.before localeCompare) (map j_state joinedRows).
Proof.
  intros cmp_total cmp_trans joinedRows.
  assert (Hstates := joined_rows_states localeCompare cancerByState cuisineRows).
  fold joinedRows in Hstates.
  assert (Hnd : NoDup (map j_state joinedRows)).
  { rewrite Hstates.
    eapply Permutation_NoDup; [symmetry; apply sort_perm|].
    apply dedup_NoDup. }
  assert (Hin : forall region,
             In region (map j_state joinedRows) <->
             In region (JsArray.keys cancerByState) \/
             In region (map state cuisineRows)).
  { intros region. rewrite Hstates, sort_In, set_of_In. apply in_app_iff. }
  split; [|split; [exact Hnd|split]].
  - intros region. rewrite <- Hin. split.
    + now apply exactly_one_of_NoDup.
    + intros Hlen.
      destruct (filter (fun r => String.eqb (j_state r) region) joinedRows)
        as [|r rest] eqn:E; [discriminate|].
      assert (Hr : In r (filter (fun r => String.eqb (j_state r) region)
                                joinedRows)) by (rewrite E; now left).
      apply filter_In in Hr as [Hr Heq]. apply String.eqb_eq in Heq.
      subst region. now apply in_map.
  - intros r Hr. unfold joinedRows, joined_rows in Hr.
    apply in_map_iff in Hr as [st [<- _]]. simpl.
    split; [reflexivity|]. split; [apply get_None_iff|].
    split; [intros b; apply get_Some_In|].
    split.
    + rewrite map_of_None, map_map. simpl. tauto.
    + intros row Hrow. apply map_of_Some in Hrow.
      apply in_map_iff in Hrow as [row' [Heq Hin']].
      injection Heq as Hst ->. now split.
  - rewrite Hstates. now apply sort_strongly_sorted.
Qed.

Lemma join_covers_every_region_witness :
  let joinedRows :=
    joined_rows Env.code_unit_compare Env.some_cancer Env.some_cuisine in
  (forall region,
      (In region (JsArray.keys Env.some_cancer) \/
       In region (map state Env.some_cuisine)) <->
      List.length
        (filter (fun r => String.eqb (j_state r) region) joinedRows) = 1) /\
  NoDup (map j_state joinedRows) /\
  (forall r, In r joinedRows ->
      cancer r = JsArray.get (j_state r) Env.some_cancer /\
      (cancer r = None <-> ~ In (j_state r) (JsArray.keys Env.some_cancer)) /\
      (forall b, cancer r = Some b -> In (j_state r, b) Env.some_cancer) /\
      (cuisine r = None <-> ~ In (j_state r) (map state Env.some_cuisine)) /\
      (forall row, cuisine r = Some row ->
                   In row Env.some_cuisine /\ state row = j_state r)) /\
  StronglySorted (JsArray.before Env.code_unit_compare)
                 (map j_state joinedRows).
Proof.
  exact (join_covers_every_region Env.code_unit_compare
           Env.some_cancer Env.some_cuisine
           code_unit_compare_total code_unit_compare_trans).
Defined.

(** The three regions of the example come out once each, in order. *)
Example joined_rows_example :
  map j_state
    (joined_rows Env.code_unit_compare Env.some_cancer Env.some_cuisine) =
  ["Assam"; "Goa"; "Kerala"].
Proof. reflexivity. Qed.

End JoinFacts.

(* ------------------------------------------------------------------ *)
(** ** The missing-population halt *)

Section HaltFacts.
Import BuildData.

Lemma append_assoc_string (a b c : string) : (a ++ b) ++ c = a ++ (b ++ c).
Proof. induction a as [|x a IH]; simpl; [reflexivity | now rewrite IH]. Qed.

Lemma contains_refl x : contains x x.
Proof.
  exists "", "". simpl. induction x as [|c x IH]; simpl; [reflexivity|].
  now rewrite <- IH.
Qed.

Lemma contains_app_l x p s : contains x s -> contains x (p ++ s).
Proof.
  intros [a [b ->]]. exists (p ++ a), b. now rewrite append_assoc_string.
Qed.

Lemma contains_app_r x s q : contains x s -> contains x (s ++ q).
Proof.
  intros [a [b ->]]. exists a, (b ++ q).
  now rewrite !append_assoc_string.
Qed.

Lemma join_contains sep parts x :
  In x parts -> contains x (JsString.join sep parts).
Proof.
  induction parts as [|p parts IH]; [contradiction|].
  intros Hin. destruct parts as [|p' parts].
  - destruct Hin as [->|[]]. apply contains_refl.
  - change (JsString.join sep (p :: p' :: parts))
      with (p ++ sep ++ JsString.join sep (p' :: parts)).
    destruct Hin as [->|Hin].
    + apply contains_app_r, contains_refl.
    + now apply contains_app_l, contains_app_l, IH.
Qed.

Lemma missing_population_In localeCompare cancerByState st :
  In st (missing_population (cancer_rows localeCompare cancerByState)) <->
  exists bucket,
    In bucket (JsArray.values cancerByState) /\
    population bucket = None /\ cb_state bucket = st.
Proof.
  unfold missing_population, cancer_rows. rewrite in_map_iff.
  split.
  - intros [b [<- Hb]]. apply filter_In in Hb as [Hb Hp].
    apply sort_In in Hb. exists b. repeat split; [assumption|].
    destruct (population b); [discriminate | reflexivity].
  - intros [b [Hb [Hp <-]]]. exists b. split; [reflexivity|].
    apply filter_In. split; [now apply sort_In | now rewrite Hp].
Qed.

(** X24. When the incidence rows spell their regions plainly and some
    region of the aggregated incidence data has no population figure,
    the run ends with an error before any file is written, and the
    error message is the fixed heading followed by the list of exactly
    the regions without a figure, each of which it therefore names. *)
Theorem missing_population_halts_before_writing
    (Number : string -> jsnum) (localeCompare : string -> string -> Z)
    (byte_size : document -> nat)
    (cancerCSV : list CancerRow) (archanaCSV : list ArchanaFoodRow)
    (legacyCSV : list LegacyFoodRow) (manualJSON : list ManualFoodRow) :
  let cancerByState := cancer_by_state Number cancerCSV in
  let affected :=
    missing_population (cancer_rows localeCompare cancerByState) in
  let message :=
    "Missing population for states: " ++ JsString.join ", " affected in
  Forall Proto.plain_cancer_row cancerCSV ->
  (exists bucket,
      In bucket (JsArray.values cancerByState) /\ population bucket = None) ->
  main Number localeCompare byte_size
       cancerCSV archanaCSV legacyCSV manualJSON =
    {| written := []; result := Thrown message |} /\
  (forall bucket,
      In bucket (JsArray.values cancerByState) ->
      population bucket = None ->
      In (cb_state bucket) affected /\ contains (cb_state bucket) message) /\
  (forall region,
      In region affected ->
      exists bucket,
        In bucket (JsArray.values cancerByState) /\
        population bucket = None /\ cb_state bucket = region).
Proof.
  intros cancerByState affected message _ [bucket [Hb Hp]].
  assert (Hin : forall b, In b (JsArray.values cancerByState) ->
                          population b = None -> In (cb_state b) affected).
  { intros b Hb' Hp'. apply missing_population_In. now exists b. }
  split; [|split].
  - unfold main. fold cancerByState. fold affected.
    destruct affected as [|st rest] eqn:E.
    + exfalso. exact (Hin bucket Hb Hp).
    + reflexivity.
  - intros b Hb' Hp'. split; [now apply Hin|].
    unfold message. now apply contains_app_l, join_contains, Hin.
  - intros region Hr. now apply missing_population_In in Hr.
Qed.

Lemma missing_population_halts_before_writing_witness :
  main Env.Number_digits Env.code_unit_compare Env.no_size
       [Env.daman_five; Env.atlantis_row] [] [] [] =
    {| written := [];
       result := Thrown "Missing population for states: Atlantis" |}.
Proof.
  refine (proj1 (missing_population_halts_before_writing
                   Env.Number_digits Env.code_unit_compare Env.no_size
                   [Env.daman_five; Env.atlantis_row] [] [] [] _ _)).
  - repeat constructor.
  - eexists. split; [right; left; reflexivity | reflexivity].
Defined.

(** C7. The population table has no figure for a region called
    [constructor]. For an incidence row of that region the read of the
    alias table inherits a member of [Object.prototype], so the bucket
    is keyed by that member's text, and the read of the population
    table inherits the member too: the [population] of the bucket is
    not [null], and the check that should halt the run does not list
    the region. *)
Theorem inherited_name_passes_population_check :
  JsArray.get "constructor" Regions.STATE_POPULATION_2021 = None /\
  Proto.opened_bucket Proto.constructor_row =
    Some ("function Object() { [native code] }",
          (Proto.Member "constructor",
           Proto.MemberObject "constructor")) /\
  Proto.lacks_population (Proto.MemberObject "constructor") = false.
Proof. repeat split. Qed.

End HaltFacts.

(* ------------------------------------------------------------------ *)
(** ** Arithmetic on finite numbers *)

Section NumFacts.
Local Open Scope R_scope.

Lemma Reqb_true a b : JsNum.Reqb a b = true <-> a = b.
Proof. unfold JsNum.Reqb. destruct (Req_dec_T a b); split; congruence. Qed.

Lemma Reqb_false a b : JsNum.Reqb a b = false <-> a <> b.
Proof. unfold JsNum.Reqb. destruct (Req_dec_T a b); split; congruence. Qed.

Lemma Rleb_true a b : JsNum.Rleb a b = true <-> a <= b.
Proof. unfold JsNum.Rleb. destruct (Rle_dec a b); split; congruence. Qed.

Lemma Rleb_false a b : JsNum.Rleb a b = false <-> b < a.
Proof.
  unfold JsNum.Rleb. destruct (Rle_dec a b); split; try congruence; lra.
Qed.

Lemma Rltb_true a b : JsNum.Rltb a b = true <-> a < b.
Proof. unfold JsNum.Rltb. destruct (Rlt_dec a b); split; congruence. Qed.

Lemma Rltb_false a b : JsNum.Rltb a b = false <-> b <= a.
Proof.
  unfold JsNum.Rltb. destruct (Rlt_dec a b); split; try congruence; lra.
Qed.

Lemma Rpower_two a : 0 < a -> Rpower a 2 = a * a.
Proof.
  intros Ha. unfold Rpower.
  replace (2 * ln a) with (ln a + ln a) by lra.
  now rewrite exp_plus, exp_ln.
Qed.

Lemma is_integer_two : JsNum.is_integer 2 = true.
Proof.
  unfold JsNum.is_integer. apply Reqb_true.
  change 2 with (INR 2) at 2. now rewrite Int_part_INR.
Qed.

Lemma is_odd_integer_two : JsNum.is_odd_integer 2 = false.
Proof.
  unfold JsNum.is_odd_integer. rewrite is_integer_two.
  change 2 with (INR 2). now rewrite Int_part_INR.
Qed.

(** [Math.pow(a, 2)] of a finite number is its square. *)
Lemma pow_two a : JsNum.pow (Fin a) (Fin 2) = Fin (a * a).
Proof.
  unfold JsNum.pow.
  assert (H2 : JsNum.Reqb 2 0 = false) by (apply Reqb_false; lra).
  rewrite H2.
  destruct (JsNum.Reqb a 0) eqn:E0.
  - apply Reqb_true in E0. subst a.
    assert (H : JsNum.Rltb 0 2 = true) by (apply Rltb_true; lra).
    rewrite H. f_equal. lra.
  - apply Reqb_false in E0.
    destruct (JsNum.Rltb 0 a) eqn:E1.
    + apply Rltb_true in E1. now rewrite Rpower_two.
    + apply Rltb_false in E1.
      rewrite is_integer_two, is_odd_integer_two.
      rewrite Rpower_two by lra. f_equal. lra.
Qed.

Lemma fold_add_fin l a :
  fold_left JsNum.add (map Fin l) (Fin a) = Fin (a + Scatter.Spec.total l).
Proof.
  revert a. induction l as [|b l IH]; intros a; simpl.
  - f_equal. lra.
  - rewrite IH. f_equal. lra.
Qed.

Lemma filter_not_nan_fin l :
  filter (fun v => JsNum.ge v v) (map Fin l) = map Fin l.
Proof.
  induction l as [|a l IH]; [reflexivity|].
  assert (H : JsNum.ge (Fin a) (Fin a) = true).
  { unfold JsNum.ge, JsNum.le. apply Rleb_true. lra. }
  cbn [map filter]. now rewrite H, IH.
Qed.

(** The mean of finite numbers is the sum over the count. *)
Lemma d3_mean_fin {A : Type} (values : list A) (f : A -> jsnum)
    (g : A -> R) :
  (forall d, In d values -> f d = Fin (g d)) ->
  values <> [] ->
  Scatter.d3_mean values f = Some (Fin (Scatter.Spec.mean (map g values))).
Proof.
  intros Hf Hne. unfold Scatter.d3_mean.
  assert (Hmap : map f values = map Fin (map g values)).
  { rewrite map_map. apply map_ext_in. exact Hf. }
  rewrite Hmap, filter_not_nan_fin, fold_add_fin.
  rewrite !length_map.
  destruct values as [|d values]; [congruence|].
  cbn [List.length Nat.eqb]. unfold JsNum.div, JsNum.of_nat.
  assert (Hn : JsNum.Reqb (INR (S (List.length values))) 0 = false).
  { apply Reqb_false. apply not_0_INR. discriminate. }
  rewrite Hn. unfold Scatter.Spec.mean. rewrite length_map.
  cbn [List.length]. do 2 f_equal. lra.
Qed.

Lemma total_nonneg l : Forall (fun v => 0 <= v) l -> 0 <= Scatter.Spec.total l.
Proof.
  induction 1 as [|v l Hv Hl IH]; simpl; lra.
Qed.

Lemma mean_nonneg l : Forall (fun v => 0 <= v) l -> 0 <= Scatter.Spec.mean l.
Proof.
  intros H. unfold Scatter.Spec.mean.
  destruct l as [|v l].
  - simpl. unfold Rdiv. rewrite Rinv_0. lra.
  - apply Rmult_le_pos; [now apply total_nonneg|].
    left. apply Rinv_0_lt_compat. apply lt_0_INR. simpl. lia.
Qed.

Lemma mean_squares_nonneg {A : Type} (h : A -> R) (l : list A) :
  0 <= Scatter.Spec.mean (map (fun p => h p * h p) l).
Proof.
  apply mean_nonneg. apply Forall_forall. intros v Hv.
  apply in_map_iff in Hv as [p [<- _]]. nra.
Qed.

End NumFacts.

(* ------------------------------------------------------------------ *)
(** ** The regression of the scatter plot *)

Section ScatterFacts.
Import Scatter.
Local Open Scope R_scope.

Lemma both_finite_fin d :
  both_finite d = true ->
  x d = Fin (Spec.real_of (x d)) /\ y d = Fin (Spec.real_of (y d)).
Proof.
  unfold both_finite. destruct (x d), (y d); simpl; try discriminate.
  now split.
Qed.

Lemma valid_empty_iff data :
  filter both_finite data = [] <->
  forall d, In d data ->
            ~ (JsNum.isFinite (x d) = true /\ JsNum.isFinite (y d) = true).
Proof.
  split.
  - intros He d Hd [Hx Hy].
    assert (Hin : In d (filter both_finite data)).
    { apply filter_In. split; [assumption|]. unfold both_finite.
      now rewrite Hx, Hy. }
    rewrite He in Hin. contradiction.
  - intros H. destruct (filter both_finite data) as [|d l] eqn:E;
      [reflexivity|].
    assert (Hin : In d (filter both_finite data)) by (rewrite E; now left).
    apply filter_In in Hin as [Hd Hb]. exfalso. apply (H d Hd).
    unfold both_finite in Hb. now apply andb_true_iff in Hb.
Qed.

Lemma slope_fin vx cov :
  (if JsNum.strict_eq (Fin vx) (Fin 0) then Fin 0
   else JsNum.div (Fin cov) (Fin vx)) =
  Fin (if Req_dec_T vx 0 then 0 else cov / vx).
Proof.
  unfold JsNum.strict_eq, JsNum.div, JsNum.Reqb.
  destruct (Req_dec_T vx 0); reflexivity.
Qed.

Lemma pearson_fin vx vy cov :
  0 <= vx -> 0 <= vy ->
  (if JsNum.strict_eq (Fin vx) (Fin 0) || JsNum.strict_eq (Fin vy) (Fin 0)
   then Fin 0
   else JsNum.div (Fin cov) (JsNum.sqrt (JsNum.mul (Fin vx) (Fin vy)))) =
  Fin (if Req_dec_T vx 0 then 0
       else if Req_dec_T vy 0 then 0 else cov / sqrt (vx * vy)).
Proof.
  intros Hx Hy. unfold JsNum.strict_eq, JsNum.Reqb at 1 2.
  destruct (Req_dec_T vx 0) as [|Hvx]; [reflexivity|].
  destruct (Req_dec_T vy 0) as [|Hvy]; [reflexivity|].
  cbn [orb JsNum.mul JsNum.sqrt].
  assert (Hpos : 0 < vx * vy) by (apply Rmult_lt_0_compat; lra).
  assert (Hlt : JsNum.Rltb (vx * vy) 0 = false) by (apply Rltb_false; lra).
  rewrite Hlt. unfold JsNum.div.
  assert (Hs : JsNum.Reqb (sqrt (vx * vy)) 0 = false).
  { apply Reqb_false. apply Rgt_not_eq. now apply sqrt_lt_R0. }
  now rewrite Hs.
Qed.

(** On a non-empty list of finite samples the value returned carries
    the statistics of the specification. *)
Lemma renderScatter_some data :
  filter both_finite data <> [] ->
  let s := Spec.finite_samples data in
  exists res,
    renderScatter data =
    Some {| slope := Fin (Spec.slope s);
            intercept := Fin (Spec.intercept s);
            r := Fin (Spec.pearson s);
            residuals := res |}.
Proof.
  intros Hne s.
  set (valid := filter both_finite data) in *.
  assert (Hfin : forall d, In d valid ->
             x d = Fin (Spec.real_of (x d)) /\
             y d = Fin (Spec.real_of (y d))).
  { intros d Hd. apply both_finite_fin. now apply filter_In in Hd. }
  assert (Hfst : map fst s = map (fun d => Spec.real_of (x d)) valid).
  { unfold s, Spec.finite_samples. fold valid. now rewrite map_map. }
  assert (Hsnd : map snd s = map (fun d => Spec.real_of (y d)) valid).
  { unfold s, Spec.finite_samples. fold valid. now rewrite map_map. }
  assert (HmX : or_zero (d3_mean valid x) = Fin (Spec.meanX s)).
  { rewrite (d3_mean_fin valid x (fun d => Spec.real_of (x d))).
    - unfold Spec.meanX. now rewrite Hfst.
    - intros d Hd. apply (Hfin d Hd).
    - assumption. }
  assert (HmY : or_zero (d3_mean valid y) = Fin (Spec.meanY s)).
  { rewrite (d3_mean_fin valid y (fun d => Spec.real_of (y d))).
    - unfold Spec.meanY. now rewrite Hsnd.
    - intros d Hd. apply (Hfin d Hd).
    - assumption. }
  assert (HvX :
    or_zero (d3_mean valid
               (fun d => JsNum.pow (JsNum.sub (x d) (Fin (Spec.meanX s)))
                                   (Fin 2))) = Fin (Spec.varianceX s)).
  { rewrite (d3_mean_fin valid _
               (fun d => (Spec.real_of (x d) - Spec.meanX s) *
                         (Spec.real_of (x d) - Spec.meanX s))).
    - unfold Spec.varianceX, s, Spec.finite_samples. fold valid.
      now rewrite map_map.
    - intros d Hd. destruct (Hfin d Hd) as [Hx _]. rewrite Hx at 1.
      cbn [JsNum.sub JsNum.neg JsNum.add]. apply pow_two.
    - assumption. }
  assert (HvY :
    or_zero (d3_mean valid
               (fun d => JsNum.pow (JsNum.sub (y d) (Fin (Spec.meanY s)))
                                   (Fin 2))) = Fin (Spec.varianceY s)).
  { rewrite (d3_mean_fin valid _
               (fun d => (Spec.real_of (y d) - Spec.meanY s) *
                         (Spec.real_of (y d) - Spec.meanY s))).
    - unfold Spec.varianceY, s, Spec.finite_samples. fold valid.
      now rewrite map_map.
    - intros d Hd. destruct (Hfin d Hd) as [_ Hy]. rewrite Hy at 1.
      cbn [JsNum.sub JsNum.neg JsNum.add]. apply pow_two.
    - assumption. }
  assert (Hcov :
    or_zero (d3_mean valid
               (fun d => JsNum.mul (JsNum.sub (x d) (Fin (Spec.meanX s)))
                                   (JsNum.sub (y d) (Fin (Spec.meanY s)))))
    = Fin (Spec.covariance s)).
  { rewrite (d3_mean_fin valid _
               (fun d => (Spec.real_of (x d) - Spec.meanX s) *
                         (Spec.real_of (y d) - Spec.meanY s))).
    - unfold Spec.covariance, s, Spec.finite_samples. fold valid.
      now rewrite map_map.
    - intros d Hd. destruct (Hfin d Hd) as [Hx Hy].
      rewrite Hx at 1. rewrite Hy at 1. reflexivity.
    - assumption. }
  unfold renderScatter. fold valid.
  destruct valid as [|d0 rest] eqn:Ev; [congruence|].
  cbn [List.length Nat.eqb]. cbv zeta.
  rewrite HmX, HmY, HvX, HvY, Hcov.
  rewrite slope_fin.
  rewrite pearson_fin by apply mean_squares_nonneg.
  eexists. reflexivity.
Qed.

End ScatterFacts.


(* ------------------------------------------------------------------ *)
(** ** The correlation search *)

Section SearchFacts.
Import BuildData Compare.

Lemma sign_sub_total u v :
  (JsNum.sign (JsNum.sub u v) <= 0 \/ JsNum.sign (JsNum.sub v u) <= 0)%Z.
Proof.
  destruct u as [a| | |], v as [b| | |];
    cbn [JsNum.sub JsNum.neg JsNum.add JsNum.sign]; try lia.
  destruct (JsNum.Rltb (a + - b) 0) eqn:E1; [left; lia|].
  destruct (JsNum.Rltb (b + - a) 0) eqn:E2; [right; lia|].
  apply Rltb_false in E1, E2.
  assert (H : JsNum.Rltb 0 (a + - b) = false) by (apply Rltb_false; lra).
  rewrite H. left; lia.
Qed.

Lemma by_abs_r_total a b : (by_abs_r a b <= 0 \/ by_abs_r b a <= 0)%Z.
Proof. unfold by_abs_r. apply sign_sub_total. Qed.

Lemma by_abs_r_outranks a b :
  real_r a -> real_r b -> JsArray.before by_abs_r a b -> outranks a b.
Proof.
  intros [ra Ha] [rb Hb] H. exists ra, rb. repeat split; try assumption.
  unfold JsArray.before, by_abs_r in H. rewrite Ha, Hb in H.
  cbn [JsNum.abs JsNum.sub JsNum.neg JsNum.add JsNum.sign] in H.
  destruct (JsNum.Rltb (Rabs rb + - Rabs ra) 0) eqn:E1.
  - apply Rltb_true in E1. lra.
  - destruct (JsNum.Rltb 0 (Rabs rb + - Rabs ra)) eqn:E2; [lia|].
    apply Rltb_false in E2. lra.
Qed.

Lemma outranks_trans a b c : outranks a b -> outranks b c -> outranks a c.
Proof.
  intros [ra [rb [Ha [Hb Hab]]]] [rb' [rc [Hb' [Hc Hbc]]]].
  rewrite Hb in Hb'. injection Hb' as <-.
  exists ra, rc. repeat split; try assumption. lra.
Qed.

Lemma Sorted_refine {A : Type} (P P' : A -> A -> Prop) (Q : A -> Prop) l :
  (forall a b, Q a -> Q b -> P a b -> P' a b) ->
  Forall Q l -> Sorted P l -> Sorted P' l.
Proof.
  intros Himp HQ Hs. induction Hs as [|a l Hl IH Hhd]; [constructor|].
  inversion HQ as [|? ? Qa Ql]; subst.
  constructor; [now apply IH|].
  destruct Hhd as [|b l Hab]; constructor.
  inversion Ql; subst. now apply Himp.
Qed.

Section AnySearch.
Variable computeScatter :
  list Scatter.ScatterPoint -> option Scatter.ScatterMetrics.
Variable joined : list JoinedRow.
Variable ingredientInfos : list IngredientInfo.
Variable stateIngredientShares : list (string * list (string * jsnum)).

Lemma combo_of_In cc cm combo :
  In combo (combo_of computeScatter joined stateIngredientShares cc cm) <->
  exists metrics,
    6 <= List.length (points_of joined stateIngredientShares cc cm) /\
    computeScatter (points_of joined stateIngredientShares cc cm) =
      Some metrics /\
    combo =
      {| combo_cuisine := cc; combo_cancer := cm;
         combo_r := Scatter.r metrics;
         combo_sample :=
           List.length (points_of joined stateIngredientShares cc cm) |}.
Proof.
  unfold combo_of.
  destruct (Nat.ltb_spec
              (List.length (points_of joined stateIngredientShares cc cm)) 6)
    as [Hlt|Hge].
  - split; [contradiction|]. intros [m [H _]]. lia.
  - destruct (computeScatter _) as [m|].
    + split.
      * intros [<-|[]]. exists m. repeat split. assumption.
      * intros [m' [_ [Hm ->]]]. injection Hm as <-. now left.
    + split; [contradiction|]. intros [m [_ [Hm _]]]. discriminate.
Qed.

(** C8, amended. For every pair of a cuisine candidate and a cancer
    metric the search builds the paired samples from the joined
    records; a pair with fewer than 6 of them, or for which the fit
    fails, is skipped; every other pair contributes one suggestion that
    records the fit's r itself, with its sign, and the number of
    samples. The suggestions are then arranged by descending absolute
    value of r, and the search returns the first 18 of that
    arrangement. *)
Theorem combos_ranked_by_abs_r :
  let points := points_of joined stateIngredientShares in
  let surviving :=
    surviving_combos computeScatter joined ingredientInfos
                     stateIngredientShares in
  let ranked :=
    ranked_combos computeScatter joined ingredientInfos
                  stateIngredientShares in
  (forall combo,
      In combo surviving <->
      exists cc cm metrics,
        In cc (cuisineCandidates ingredientInfos) /\
        In cm cancerMetrics /\
        6 <= List.length (points cc cm) /\
        computeScatter (points cc cm) = Some metrics /\
        combo = {| combo_cuisine := cc; combo_cancer := cm;
                   combo_r := Scatter.r metrics;
                   combo_sample := List.length (points cc cm) |}) /\
  Permutation ranked surviving /\
  Sorted (JsArray.before by_abs_r) ranked /\
  (Forall real_r surviving -> StronglySorted outranks ranked) /\
  computeInterestingCombos computeScatter joined ingredientInfos
                           stateIngredientShares = firstn 18 ranked.
Proof.
  intros points surviving ranked.
  assert (Hperm : Permutation ranked surviving) by apply sort_perm.
  assert (Hsorted : Sorted (JsArray.before by_abs_r) ranked).
  { apply sort_sorted. exact by_abs_r_total. }
  split; [|split; [exact Hperm|split; [exact Hsorted|split]]].
  - intros combo. unfold surviving, surviving_combos.
    rewrite in_flat_map. split.
    + intros [cc [Hcc H]]. apply in_flat_map in H as [cm [Hcm H]].
      apply combo_of_In in H as [m [Hlen [Hm ->]]].
      exists cc, cm, m. repeat split; assumption.
    + intros [cc [cm [m [Hcc [Hcm [Hlen [Hm ->]]]]]]].
      exists cc. split; [assumption|]. apply in_flat_map.
      exists cm. split; [assumption|]. apply combo_of_In.
      exists m. repeat split; assumption.
  - intros Hreal. apply Sorted_StronglySorted.
    + intros a b c. apply outranks_trans.
    + apply (Sorted_refine (JsArray.before by_abs_r) outranks real_r).
      * intros a b. apply by_abs_r_outranks.
      * eapply Permutation_Forall; [symmetry; exact Hperm | exact Hreal].
      * exact Hsorted.
  - reflexivity.
Qed.

End AnySearch.

Lemma six_regions_combos
    (cs : list Scatter.ScatterPoint -> option Scatter.ScatterMetrics) :
  computeInterestingCombos cs Env.six_regions [] [] =
  match cs Env.six_points with
  | Some metrics =>
      [ {| combo_cuisine :=
             Preset {| cuisine_option_key := k_dish_count;
                       cuisine_option_label := "Dish count" |};
           combo_cancer :=
             count_option k_incidence_2019 "Cancer incidence total (2019)";
           combo_r := Scatter.r metrics;
           combo_sample := 6 |} ]
  | None => []
  end.
Proof.
  unfold computeInterestingCombos, ranked_combos, surviving_combos.
  cbn [cuisineCandidates filter firstn map app cuisineMetrics cancerMetrics
       flat_map].
  unfold combo_of.
  change (points_of Env.six_regions []
            (Preset {| cuisine_option_key := k_dish_count;
                       cuisine_option_label := "Dish count" |})
            (count_option k_incidence_2019 "Cancer incidence total (2019)"))
    with Env.six_points.
  destruct (cs Env.six_points) as [m|]; reflexivity.
Qed.

Lemma six_points_pearson :
  Scatter.Spec.pearson (Scatter.Spec.finite_samples Env.six_points) = (-1)%R.
Proof.
  set (s := Scatter.Spec.finite_samples Env.six_points).
  assert (HmX : Scatter.Spec.meanX s = (3 / 2)%R)
    by (cbv -[Rplus Rmult Rinv IZR Rdiv]; lra).
  assert (HmY : Scatter.Spec.meanY s = (3 / 2)%R)
    by (cbv -[Rplus Rmult Rinv IZR Rdiv]; lra).
  assert (HvX : Scatter.Spec.varianceX s = (1 / 4)%R).
  { unfold Scatter.Spec.varianceX. rewrite HmX.
    cbv -[Rplus Rmult Rinv IZR Rdiv Rminus]. lra. }
  assert (HvY : Scatter.Spec.varianceY s = (1 / 4)%R).
  { unfold Scatter.Spec.varianceY. rewrite HmY.
    cbv -[Rplus Rmult Rinv IZR Rdiv Rminus]. lra. }
  assert (Hc : Scatter.Spec.covariance s = (- (1 / 4))%R).
  { unfold Scatter.Spec.covariance. rewrite HmX, HmY.
    cbv -[Rplus Rmult Rinv IZR Rdiv Rminus Ropp]. lra. }
  unfold Scatter.Spec.pearson. rewrite HvX, HvY, Hc.
  destruct (Req_dec_T (1 / 4) 0); [lra|].
  rewrite sqrt_square by lra. lra.
Qed.

(** C8, claim as stated, refuted: on six regions whose incidence falls
    as the dish count rises the search returns one suggestion, and the
    r it records is -1, which is not the absolute value of anything. *)
Lemma combo_records_signed_r :
  (exists combo,
      computeInterestingCombos computeScatter Env.six_regions [] [] =
        [combo] /\
      combo_r combo = Fin (-1)) /\
  (forall v, JsNum.abs v <> Fin (-1)).
Proof.
  split.
  - rewrite six_regions_combos. unfold computeScatter.
    destruct (renderScatter_some Env.six_points) as [res Hres];
      [discriminate|].
    rewrite Hres. eexists. split; [reflexivity|]. simpl.
    now rewrite six_points_pearson.
  - intros [a| | |]; simpl; try discriminate.
    intros H. injection H as H. pose proof (Rabs_pos a). lra.
Qed.

End SearchFacts.

(* ------------------------------------------------------------------ *)
(** ** Trimming and canonical region names *)

Section NormFacts.
Import Regions Shape.

Lemma trimStart_no_leading_space s : no_leading_space (trimStart s).
Proof.
  induction s as [|c s IH]; simpl; [exact I|].
  destruct (is_space c) eqn:E; [exact IH | exact E].
Qed.

Lemma trimStart_fixed s : no_leading_space s -> trimStart s = s.
Proof. destruct s as [|c s]; simpl; [reflexivity|]. now intros ->. Qed.

Lemma trimEnd_no_leading_space s :
  no_leading_space s -> no_leading_space (trimEnd s).
Proof.
  destruct s as [|c s]; simpl; [tauto|].
  intros Hc. destruct (trimEnd s); [rewrite Hc|]; exact Hc.
Qed.

Lemma trimEnd_idem s : trimEnd (trimEnd s) = trimEnd s.
Proof.
  induction s as [|c s IH]; [reflexivity|].
  cbn [trimEnd]. destruct (trimEnd s) as [|d t] eqn:E.
  - destruct (is_space c) eqn:Hc; [reflexivity|].
    cbn [trimEnd]. now rewrite Hc.
  - cbn [trimEnd]. cbn [trimEnd] in IH.
    destruct (trimEnd t) as [|e u] eqn:Et.
    + destruct (is_space d) eqn:Hd; [discriminate|]. now rewrite IH.
    + now rewrite IH.
Qed.

Lemma trim_idem s : trim (trim s) = trim s.
Proof.
  unfold trim. rewrite (trimStart_fixed (trimEnd (trimStart s))).
  - apply trimEnd_idem.
  - apply trimEnd_no_leading_space, trimStart_no_leading_space.
Qed.

(** Every name the alias table yields is trimmed and is left alone by
    [norm]. *)
Lemma normMap_values_fixed R k :
  JsArray.get R normMap = Some k -> norm k = k /\ trim k = k.
Proof.
  intros H. unfold normMap in H. cbn [JsArray.get] in H.
  repeat match type of H with
         | (if String.eqb ?a R then _ else _) = _ =>
             destruct (String.eqb a R);
             [injection H as <-; split; reflexivity|]
         end.
  discriminate.
Qed.

Lemma norm_cases s :
  (JsArray.get (trim s) normMap = None /\ norm s = trim s) \/
  (exists k, JsArray.get (trim s) normMap = Some k /\ norm s = k).
Proof.
  unfold norm. destruct (JsArray.get (trim s) normMap) as [k|] eqn:E.
  - right. exists k. split; [reflexivity|].
    destruct (normMap_alias _ _ E) as [_ [T _]]. now rewrite T.
  - left. split; [reflexivity|]. now destruct (JsString.truthy (trim s)).
Qed.

(** No name the alias table yields is the name of a property of
    [Object.prototype]. *)
Lemma normMap_values_plain R k :
  JsArray.get R normMap = Some k -> Proto.inherited k = false.
Proof.
  intros H. unfold normMap in H. cbn [JsArray.get] in H.
  repeat match type of H with
         | (if String.eqb ?a R then _ else _) = _ =>
             destruct (String.eqb a R);
             [injection H as <-; reflexivity|]
         end.
  discriminate.
Qed.

(** For a plain spelling the read of the alias table finds an own
    property or nothing: [norm] returns the string that the own-key
    lookup gives, and that string is plain again. *)
Lemma plain_norm s :
  Proto.plain s ->
  Proto.norm s = Proto.Name (norm s) /\ Proto.plain (norm s).
Proof.
  unfold Proto.plain. intros Hp.
  destruct (norm_cases s) as [[Hget Hn] | [k [Hget Hn]]]; rewrite Hn.
  - split.
    + unfold Proto.norm, Proto.read. now rewrite Hget, Hp.
    + unfold Proto.plain. now rewrite trim_idem.
  - destruct (normMap_alias _ _ Hget) as [_ [T _]].
    destruct (normMap_values_fixed _ _ Hget) as [_ Ht]. split.
    + unfold Proto.norm, Proto.read. now rewrite Hget, T.
    + unfold Proto.plain. rewrite Ht.
      exact (normMap_values_plain _ _ Hget).
Qed.

(** X1. For a spelling that names no property of [Object.prototype],
    [norm] returns a string, not an inherited member; that string
    carries no white space at either end, is plain again, and is left
    alone by another pass of [norm]. *)
Theorem norm_idempotent (s : string) :
  Proto.plain s ->
  Proto.norm s = Proto.Name (norm s) /\
  Proto.norm (norm s) = Proto.Name (norm s) /\
  norm (norm s) = norm s /\
  trim (norm s) = norm s /\
  Proto.plain (norm s).
Proof.
  intros Hp. destruct (plain_norm s Hp) as [Hn Hplain].
  assert (Hfix : norm (norm s) = norm s /\ trim (norm s) = norm s).
  { destruct (norm_cases s) as [[Hget Hs] | [k [Hget Hs]]]; rewrite Hs.
    - split; [|apply trim_idem].
      unfold norm. rewrite trim_idem, Hget.
      now destruct (JsString.truthy (trim s)).
    - exact (normMap_values_fixed _ _ Hget). }
  destruct Hfix as [Hfix Htrim].
  split; [exact Hn|]. split; [|now repeat split].
  destruct (plain_norm (norm s) Hplain) as [H _]. now rewrite Hfix in H.
Qed.

Lemma norm_idempotent_witness :
  Proto.plain " Orissa " /\
  Proto.norm " Orissa " = Proto.Name "Odisha" /\
  norm "Odisha" = "Odisha".
Proof.
  assert (H : Proto.plain " Orissa ") by reflexivity.
  split; [exact H|].
  destruct (norm_idempotent " Orissa " H) as [H1 [_ [H3 _]]].
  split; [exact H1 | exact H3].
Defined.

End NormFacts.

(* ------------------------------------------------------------------ *)
(** ** Regions read off free text and off the tables *)

Section RegionFacts.
Import Regions BuildData.

Lemma first_rule_In rules normalized st :
  first_rule rules normalized = Some st -> In st (map snd rules).
Proof.
  induction rules as [|[pattern st'] rules IH]; simpl; [discriminate|].
  destruct (test pattern normalized).
  - intros H. injection H as ->. now left.
  - intros H. right. now apply IH.
Qed.

Lemma inferStateFromText_In rawText st :
  inferStateFromText rawText = Some st ->
  In st (map snd CUISINE_TO_STATE).
Proof.
  unfold inferStateFromText. destruct rawText as [t|]; [|discriminate].
  destruct (negb (JsString.truthy t)); [discriminate|].
  destruct (negb (JsString.truthy (normalizeStateText t))); [discriminate|].
  apply first_rule_In.
Qed.

Lemma rule_targets_canonical :
  forallb Canon.canonical_with_population (map snd CUISINE_TO_STATE) = true.
Proof. vm_compute. reflexivity. Qed.

(** X2. A region inferred from free text is a canonical name: [norm]
    leaves it unchanged, it is neither empty nor the sentinel, it has a
    positive population figure, and [addObservation] files the dish
    under exactly that name. *)
Theorem inferred_region_is_canonical
    (rawText : option string) (st : string) :
  inferStateFromText rawText = Some st ->
  norm st = st /\ st <> "" /\ st <> "-1" /\
  (exists p, JsArray.get st STATE_POPULATION_2021 = Some p /\ (0 < p)%Z) /\
  (forall details cuisineAcc,
      addObservation st details cuisineAcc =
      JsArray.upsert st (new_cuisine_bucket st) (observe details) cuisineAcc).
Proof.
  intros H. apply inferStateFromText_In in H.
  pose proof (proj1 (forallb_forall _ _) rule_targets_canonical st H) as Hc.
  unfold Canon.canonical_with_population in Hc.
  apply andb_true_iff in Hc as [Hc Hpop].
  apply andb_true_iff in Hc as [Hc Hsent].
  apply andb_true_iff in Hc as [Hnorm Htruthy].
  apply String.eqb_eq in Hnorm. apply negb_true_iff in Hsent.
  split; [exact Hnorm|]. split; [|split; [|split]].
  - intros ->. discriminate.
  - intros ->. discriminate.
  - destruct (JsArray.get st STATE_POPULATION_2021) as [p|]; [|discriminate].
    exists p. split; [reflexivity|]. now apply Z.ltb_lt.
  - intros details cuisineAcc. unfold addObservation.
    now rewrite Hnorm, Htruthy, Hsent.
Qed.

Lemma inferred_region_is_canonical_witness :
  norm "Goa" = "Goa" /\ "Goa" <> "" /\ "Goa" <> "-1" /\
  (exists p, JsArray.get "Goa" STATE_POPULATION_2021 = Some p /\ (0 < p)%Z) /\
  (forall details cuisineAcc,
      addObservation "Goa" details cuisineAcc =
      JsArray.upsert "Goa" (new_cuisine_bucket "Goa") (observe details)
                     cuisineAcc).
Proof.
  apply (inferred_region_is_canonical (Some "Goan Recipes") "Goa").
  reflexivity.
Defined.

Lemma table_keys_find_population :
  forallb Canon.finds_population
          (JsArray.keys normMap ++ JsArray.keys STATE_POPULATION_2021) = true.
Proof. vm_compute. reflexivity. Qed.

(** An incidence row whose trimmed region is spelled as a key of
    the alias table or of the population table opens a bucket with a
    population figure, so such a row never causes the missing
    population halt. *)
Theorem listed_spelling_has_population (rawState : string) :
  In rawState (JsArray.keys normMap) \/
  In rawState (JsArray.keys STATE_POPULATION_2021) ->
  exists p, population (new_cancer_bucket (norm rawState) rawState) = Some p.
Proof.
  intros H. apply in_or_app in H.
  pose proof (proj1 (forallb_forall _ _) table_keys_find_population _ H)
    as Hc.
  unfold Canon.finds_population in Hc.
  destruct (population _) as [p|]; [now exists p | discriminate].
Qed.

Lemma listed_spelling_has_population_witness :
  exists p, population (new_cancer_bucket (norm "Orissa") "Orissa") = Some p.
Proof.
  apply (listed_spelling_has_population "Orissa").
  left. vm_compute. tauto.
Defined.

End RegionFacts.

(* ------------------------------------------------------------------ *)
(** ** Incidence buckets: populations, rates and growth *)

Section BucketFacts.
Import Regions BuildData Incidence.
Variable Number : string -> jsnum.

Lemma toNum_real x : null_or_real (toNum Number x).
Proof.
  unfold toNum. destruct x as [x|]; [|exact I].
  destruct (String.eqb x ""); [exact I|].
  destruct (Number x); simpl; exact I.
Qed.

Lemma accumulate_real total v :
  null_or_real total -> null_or_real v -> null_or_real (accumulate total v).
Proof.
  destruct v as [[b| | |]|]; simpl; try tauto.
  destruct total as [[a| | |]|]; simpl; tauto.
Qed.

Lemma population_table_positive :
  forallb (fun kv => (0 <? snd kv)%Z) STATE_POPULATION_2021 = true.
Proof. reflexivity. Qed.

Lemma population_lookup_positive st p :
  JsArray.get st STATE_POPULATION_2021 = Some p -> (0 < p)%Z.
Proof.
  intros H. apply get_Some_In in H.
  apply (proj1 (forallb_forall _ _) population_table_positive) in H.
  now apply Z.ltb_lt in H.
Qed.

Lemma new_bucket_population st raw :
  null_or_positive (population (new_cancer_bucket st raw)).
Proof.
  unfold new_cancer_bucket; cbn [population].
  destruct (JsArray.get st STATE_POPULATION_2021) as [p|] eqn:E.
  - simpl. apply IZR_lt. now apply (population_lookup_positive st).
  - destruct (JsArray.get raw STATE_POPULATION_2021) as [p|] eqn:E';
      [|exact I].
    simpl. apply IZR_lt. now apply (population_lookup_positive raw).
Qed.

Lemma add_cancer_row_sound acc row :
  Forall sound_bucket (JsArray.values acc) ->
  Forall sound_bucket (JsArray.values (add_cancer_row Number acc row)).
Proof.
  intros Hacc. unfold add_cancer_row.
  destruct (negb _); [assumption|].
  rewrite Forall_forall in *. intros b Hb.
  assert (Hstep : forall w, sound_bucket w ->
            sound_bucket
              {| cb_state := cb_state w;
                 population := population w;
                 incidence_2019 :=
                   accumulate (incidence_2019 w) (toNum Number (cr_2019 row));
                 incidence_2020 :=
                   accumulate (incidence_2020 w) (toNum Number (cr_2020 row));
                 incidence_2021 :=
                   accumulate (incidence_2021 w) (toNum Number (cr_2021 row));
                 incidence_2022 :=
                   accumulate (incidence_2022 w) (toNum Number (cr_2022 row));
                 incidence_cagr_19_22 := incidence_cagr_19_22 w;
                 incidence_per_100k_2019 := incidence_per_100k_2019 w;
                 incidence_per_100k_2020 := incidence_per_100k_2020 w;
                 incidence_per_100k_2021 := incidence_per_100k_2021 w;
                 incidence_per_100k_2022 := incidence_per_100k_2022 w |}).
  { intros w [Hp Ht]. split; [exact Hp|].
    intros yr. pose proof (Ht yr) as Hy.
    destruct yr; simpl in *; apply accumulate_real;
      try assumption; apply toNum_real. }
  apply upsert_values in Hb as [Hb | [[w [Hw ->]] | ->]].
  - now apply Hacc.
  - apply Hstep. now apply Hacc.
  - apply Hstep. split; [apply new_bucket_population|].
    intros yr; destruct yr; exact I.
Qed.

Lemma accumulate_cancer_sound cancerCSV :
  Forall sound_bucket (JsArray.values (accumulate_cancer Number cancerCSV)).
Proof.
  unfold accumulate_cancer.
  assert (H : forall acc,
             Forall sound_bucket (JsArray.values acc) ->
             Forall sound_bucket
               (JsArray.values
                  (fold_left (add_cancer_row Number) cancerCSV acc))).
  { induction cancerCSV as [|row rows IH]; intros acc Hacc; simpl;
      [assumption|]. now apply IH, add_cancer_row_sound. }
  apply H. constructor.
Qed.

Lemma cancer_by_state_values cancerCSV b :
  In b (JsArray.values (cancer_by_state Number cancerCSV)) ->
  exists w, In w (JsArray.values (accumulate_cancer Number cancerCSV)) /\
            b = derive_rates w.
Proof.
  unfold cancer_by_state, JsArray.values. rewrite map_map. simpl.
  intros H. apply in_map_iff in H as [[k w] [<- Hw]].
  exists w. split; [|reflexivity]. apply in_map_iff. now exists (k, w).
Qed.

(** X4. When the incidence rows spell their regions plainly, every
    population in the incidence output is [null] or a positive figure,
    and a rate per 100k is [null] exactly when that year's total or
    the population is [null], independently of the other years. *)
Theorem rate_null_only_with_its_total
    (cancerCSV : list CancerRow) (bucket : CancerBucket) (yr : year) :
  Forall Proto.plain_cancer_row cancerCSV ->
  In bucket (JsArray.values (cancer_by_state Number cancerCSV)) ->
  null_or_positive (population bucket) /\
  (rate_of yr bucket = None <->
   total_of yr bucket = None \/ population bucket = None).
Proof.
  intros _ Hb. apply cancer_by_state_values in Hb as [w [Hw ->]].
  pose proof (proj1 (Forall_forall _ _) (accumulate_cancer_sound cancerCSV)
                    w Hw) as [Hp Ht].
  specialize (Ht yr).
  assert (Htot : total_of yr (derive_rates w) = total_of yr w)
    by (destruct yr; reflexivity).
  assert (Hrate : rate_of yr (derive_rates w) =
                  per_100k (total_of yr w) (population w))
    by (destruct yr; reflexivity).
  rewrite Htot, Hrate. cbn [derive_rates population].
  split; [exact Hp|].
  unfold per_100k.
  destruct (total_of yr w) as [[v| | |]|]; try contradiction;
    destruct (population w) as [[p| | |]|]; try contradiction.
  - simpl in Hp.
    assert (Hq : JsNum.Reqb p 0 = false) by (apply Reqb_false; lra).
    unfold JsNum.truthy. rewrite Hq. cbn [negb JsNum.div JsNum.mul].
    split; [discriminate | intros [H|H]; discriminate].
  - tauto.
  - tauto.
  - tauto.
Qed.

Lemma add_cancer_row_population acc row :
  listed_region row ->
  Forall (fun b => population b <> None) (JsArray.values acc) ->
  Forall (fun b => population b <> None)
         (JsArray.values (add_cancer_row Number acc row)).
Proof.
  intros Hrow Hacc. unfold add_cancer_row. fold (raw_state row).
  destruct (JsString.truthy (raw_state row)) eqn:T; [|assumption].
  cbn [negb].
  destruct Hrow as [He | Hlisted];
    [rewrite He in T; discriminate|].
  rewrite Forall_forall in *. intros b Hb.
  apply upsert_values in Hb as [Hb | [[w [Hw ->]] | ->]].
  - now apply Hacc.
  - cbn [population]. now apply Hacc.
  - cbn [population].
    destruct (listed_spelling_has_population _ Hlisted) as [p Hp].
    rewrite Hp. discriminate.
Qed.

(** X3. When every incidence row has no region or one spelled as a key
    of the alias table or of the population table, no region lacks a
    population: the halt for missing populations does not occur. *)
Theorem listed_regions_never_halt
    (localeCompare : string -> string -> Z) (cancerCSV : list CancerRow) :
  Forall listed_region cancerCSV ->
  missing_population
    (cancer_rows localeCompare (cancer_by_state Number cancerCSV)) = [].
Proof.
  intros Hrows.
  assert (Hacc : Forall (fun b => population b <> None)
                        (JsArray.values (accumulate_cancer Number cancerCSV))).
  { unfold accumulate_cancer.
    assert (H : forall acc,
               Forall (fun b => population b <> None) (JsArray.values acc) ->
               Forall (fun b => population b <> None)
                 (JsArray.values
                    (fold_left (add_cancer_row Number) cancerCSV acc))).
    { induction Hrows as [|row rows Hrow Hrows IH]; intros acc Hacc; simpl;
        [assumption|]. now apply IH, add_cancer_row_population. }
    apply H. constructor. }
  destruct (missing_population _) as [|st rest] eqn:E; [reflexivity|].
  assert (Hst : In st (missing_population
                         (cancer_rows localeCompare
                            (cancer_by_state Number cancerCSV))))
    by (rewrite E; now left).
  apply missing_population_In in Hst as [b [Hb [Hp _]]].
  apply cancer_by_state_values in Hb as [w [Hw ->]].
  exfalso. exact (proj1 (Forall_forall _ _) Hacc w Hw Hp).
Qed.

End BucketFacts.

Section BucketWitnesses.
Import BuildData Incidence.

Lemma kerala_bucket_In :
  In Env.kerala_bucket
     (JsArray.values (cancer_by_state Env.Number_digits [Env.kerala_row])).
Proof. left. reflexivity. Qed.

Lemma rate_null_only_with_its_total_witness :
  null_or_positive (population Env.kerala_bucket) /\
  (rate_of Y2019 Env.kerala_bucket = None <->
   total_of Y2019 Env.kerala_bucket = None \/
   population Env.kerala_bucket = None).
Proof.
  apply (rate_null_only_with_its_total Env.Number_digits
           [Env.kerala_row] Env.kerala_bucket Y2019).
  - repeat constructor.
  - left. reflexivity.
Defined.

Lemma listed_regions_never_halt_witness :
  missing_population
    (cancer_rows Env.code_unit_compare
       (cancer_by_state Env.Number_digits
          [Env.kerala_row; Env.haveli_missing])) = [].
Proof.
  apply (listed_regions_never_halt Env.Number_digits Env.code_unit_compare
           [Env.kerala_row; Env.haveli_missing]).
  apply Forall_cons; [|apply Forall_cons; [|apply Forall_nil]].
  - right; right. vm_compute. tauto.
  - right; left. vm_compute. tauto.
Defined.

End BucketWitnesses.

(* ------------------------------------------------------------------ *)
(** ** The size guard at the end of the run *)

Section SizeGuardFacts.
Import BuildData Incidence.
Variable byte_size : document -> nat.

Lemma first_too_large_None files :
  first_too_large byte_size files = None <->
  Forall (within_limit byte_size) files.
Proof.
  induction files as [|[file doc] files IH]; simpl.
  - split; [constructor | reflexivity].
  - destruct (Z.ltb_spec 1000000 (Z.of_nat (byte_size doc))) as [Hgt|Hle].
    + split; [discriminate|]. intros H. inversion H as [|? ? Hw _]; subst.
      unfold within_limit in Hw. simpl in Hw. lia.
    + rewrite IH. split.
      * intros H. constructor; [exact Hle | exact H].
      * intros H. now inversion H.
Qed.

Lemma first_too_large_Some files message :
  first_too_large byte_size files = Some message ->
  exists before file doc after,
    files = (before ++ (file, doc) :: after)%list /\
    Forall (within_limit byte_size) before /\
    (1000000 < Z.of_nat (byte_size doc))%Z /\
    message = file ++ " too large: " ++ decimal (byte_size doc) ++ " bytes".
Proof.
  induction files as [|[file doc] files IH]; simpl; [discriminate|].
  destruct (Z.ltb_spec 1000000 (Z.of_nat (byte_size doc))) as [Hgt|Hle].
  - intros H. injection H as <-.
    exists [], file, doc, files. repeat split; [constructor | assumption].
  - intros H. destruct (IH H) as (before & f & d & after & -> & Hb & Hd & ->).
    exists ((file, doc) :: before), f, d, after.
    repeat split; [constructor; assumption | assumption].
Qed.

(** X6. When every region is spelled plainly in the incidence rows,
    the legacy rows and the hand-written entries, and no population is
    missing, the run writes the three files
    in the order cancer, cuisine, joined, and only then checks their
    sizes: it completes exactly when each stays within 1,000,000 bytes,
    and otherwise ends with an error that names the first file over the
    limit and its size, with all three files already written. *)
Theorem main_writes_then_checks_sizes
    (Number : string -> jsnum) (localeCompare : string -> string -> Z)
    (cancerCSV : list CancerRow) (archanaCSV : list ArchanaFoodRow)
    (legacyCSV : list LegacyFoodRow) (manualJSON : list ManualFoodRow) :
  let cancerByState := cancer_by_state Number cancerCSV in
  let cuisineRows :=
    cuisine_rows localeCompare
      (accumulate_cuisine Number archanaCSV legacyCSV manualJSON) in
  let outcome :=
    main Number localeCompare byte_size
         cancerCSV archanaCSV legacyCSV manualJSON in
  Forall Proto.plain_cancer_row cancerCSV ->
  Forall Proto.plain_legacy_row legacyCSV ->
  Forall Proto.plain_manual_entry manualJSON ->
  missing_population (cancer_rows localeCompare cancerByState) = [] ->
  written outcome =
    [ ("cancer_by_state.json",
       CancerDoc (cancer_rows localeCompare cancerByState));
      ("cuisine_by_state.json", CuisineDoc cuisineRows);
      ("joined_state_metrics.json",
       JoinedDoc (joined_rows localeCompare cancerByState cuisineRows)) ] /\
  (result outcome = Completed <->
   Forall (within_limit byte_size) (written outcome)) /\
  (forall message,
      result outcome = Thrown message ->
      exists before file doc after,
        written outcome = (before ++ (file, doc) :: after)%list /\
        Forall (within_limit byte_size) before /\
        (1000000 < Z.of_nat (byte_size doc))%Z /\
        message =
          file ++ " too large: " ++ decimal (byte_size doc) ++ " bytes").
Proof.
  intros cancerByState cuisineRows outcome _ _ _ Hnone.
  unfold outcome, main. fold cancerByState. rewrite Hnone.
  cbn [List.length Nat.eqb negb]. fold cuisineRows. cbn [written result].
  split; [reflexivity|].
  set (files := [ _; _; _ ]).
  destruct (first_too_large byte_size files) as [m|] eqn:E.
  - split.
    + split; [discriminate|]. intros H.
      apply first_too_large_None in H. congruence.
    + intros message Hm. injection Hm as <-.
      now apply first_too_large_Some.
  - split.
    + split; [intros _; now apply first_too_large_None | reflexivity].
    + intros message Hm. discriminate.
Qed.

End SizeGuardFacts.

Lemma main_writes_then_checks_sizes_witness :
  BuildData.result
    (BuildData.main Env.Number_digits Env.code_unit_compare Env.no_size
       [Env.kerala_row] [] [] []) = BuildData.Completed.
Proof.
  assert (Hplain : Forall Proto.plain_cancer_row [Env.kerala_row])
    by (repeat constructor).
  apply (proj1 (proj2 (main_writes_then_checks_sizes Env.no_size
                         Env.Number_digits Env.code_unit_compare
                         [Env.kerala_row] [] [] []
                         Hplain (Forall_nil _) (Forall_nil _) eq_refl))).
  rewrite (proj1 (main_writes_then_checks_sizes Env.no_size
                    Env.Number_digits Env.code_unit_compare
                    [Env.kerala_row] [] [] []
                    Hplain (Forall_nil _) (Forall_nil _) eq_refl)).
  repeat (apply Forall_cons;
          [unfold Incidence.within_limit, Env.no_size; simpl; lia|]).
  apply Forall_nil.
Defined.

(* ------------------------------------------------------------------ *)
(** ** Buckets region by region *)

Section RegionBucketFacts.
Import Classify Regions BuildData Aggregate.

Lemma addObservation_get st raw d acc :
  JsArray.get st (addObservation raw d acc) =
  if accepted (norm raw) && String.eqb (norm raw) st
  then Some (observe d match JsArray.get st acc with
                       | Some b => b
                       | None => new_cuisine_bucket st
                       end)
  else JsArray.get st acc.
Proof.
  unfold addObservation, accepted.
  destruct (JsString.truthy (norm raw)); cbn [negb andb orb]; [|reflexivity].
  destruct (String.eqb (norm raw) "-1"); cbn [negb andb]; [reflexivity|].
  destruct (String.eqb_spec (norm raw) st) as [<-|Hne].
  - apply get_upsert_same.
  - now apply get_upsert_other.
Qed.

Lemma fold_addObservation_get st calls acc :
  JsArray.get st
    (fold_left (fun acc call => addObservation (fst call) (snd call) acc)
               calls acc) =
  match (if accepted st then calls_for st calls else []) with
  | [] => JsArray.get st acc
  | ds => Some (observe_all ds match JsArray.get st acc with
                               | Some b => b
                               | None => new_cuisine_bucket st
                               end)
  end.
Proof.
  revert acc. induction calls as [|[raw d] calls IH]; intros acc.
  - simpl. now destruct (accepted st).
  - cbn [fold_left fst snd]. rewrite IH. rewrite addObservation_get.
    unfold calls_for. cbn [filter fst].
    destruct (String.eqb_spec (norm raw) st) as [->|Hne].
    + destruct (accepted st); cbn [andb map snd]; [|reflexivity].
      destruct (map snd (filter _ calls)); reflexivity.
    + rewrite andb_false_r. reflexivity.
Qed.

(** X7. The bucket of a region depends on the observations of that
    region only: it is absent when the region is empty, the sentinel or
    never observed, and otherwise it is what [observe] builds from a
    fresh bucket out of exactly the observations whose normalised
    region is this one, in call order. *)
Theorem bucket_built_from_own_observations
    (calls : list (string * Details)) (st : string) :
  JsArray.get st (add_all calls) =
  match (if accepted st then calls_for st calls else []) with
  | [] => None
  | ds => Some (observe_all ds (new_cuisine_bucket st))
  end.
Proof. unfold add_all. now rewrite fold_addObservation_get. Qed.

Lemma observe_all_app ds d b :
  observe_all (ds ++ [d]) b = observe d (observe_all ds b).
Proof. unfold observe_all. now rewrite fold_left_app. Qed.

Lemma observe_all_counts ds b :
  let b' := observe_all ds b in
  cu_state b' = cu_state b /\
  dish_count b' = dish_count b + List.length ds /\
  veg b' = veg b + count counts_as_vegetarian ds /\
  sweet b' = sweet b + count d_sweet ds /\
  prep_n b' = prep_n b + count has_prep ds /\
  prep_sum b' = fold_left JsNum.add (preps ds) (prep_sum b).
Proof.
  revert b. induction ds as [|d ds IH]; intros b.
  - unfold count. simpl. repeat split; lia.
  - cbn zeta in *. unfold observe_all in *. cbn [fold_left].
    destruct (IH (observe d b)) as (H1 & H2 & H3 & H4 & H5 & H6).
    rewrite H1, H2, H3, H4, H5, H6. unfold count, preps.
    cbn [filter flat_map List.length observe cu_state dish_count veg sweet
         prep_n prep_sum].
    unfold counts_as_vegetarian, has_prep, bump.
    repeat split.
    + simpl. lia.
    + destruct (d_diet d) as [[|]|]; cbn [List.length];
        try destruct (negb _); cbn [List.length]; lia.
    + destruct (d_sweet d); cbn [List.length]; lia.
    + destruct (d_prep d); cbn [List.length]; lia.
    + destruct (d_prep d); reflexivity.
Qed.

Lemma add_all_keys_NoDup calls : NoDup (JsArray.keys (add_all calls)).
Proof.
  unfold add_all.
  assert (H : forall acc,
             NoDup (JsArray.keys acc) ->
             NoDup (JsArray.keys
                      (fold_left
                         (fun acc call =>
                            addObservation (fst call) (snd call) acc)
                         calls acc))).
  { induction calls as [|c calls IH]; intros acc Hacc; simpl; [assumption|].
    apply IH. unfold addObservation.
    destruct (negb _ || _); [assumption|]. now apply upsert_keys_NoDup. }
  apply H. constructor.
Qed.

Lemma In_get_NoDup {V : Type} k (v : V) d :
  NoDup (JsArray.keys d) -> In (k, v) d -> JsArray.get k d = Some v.
Proof.
  induction d as [|[k' v'] d IH]; simpl; [contradiction|].
  intros Hnd [Heq|Hin].
  - injection Heq as -> ->. now rewrite String.eqb_refl.
  - inversion Hnd as [|? ? Hk Hd]; subst.
    destruct (String.eqb_spec k' k) as [->|Hne].
    + exfalso. apply Hk. apply in_map_iff. now exists (k, v).
    + now apply IH.
Qed.

(** X8. When every observation spells its region plainly, every
    cuisine summary belongs to one accepted region, and no two
    summaries share a region; its dish count is the number of
    observations filed under that region, and its vegetarian and sweet
    shares are the fractions of those observations that count as
    vegetarian and that are flagged sweet. *)
Theorem summary_counts_its_own_observations
    (localeCompare : string -> string -> Z)
    (calls : list (string * Details)) :
  Forall (fun call => Proto.plain (fst call)) calls ->
  let rows := cuisine_rows localeCompare (add_all calls) in
  NoDup (map state rows) /\
  (forall st, In st (map state rows) <->
              accepted st = true /\ calls_for st calls <> []) /\
  (forall row, In row rows ->
      let ds := calls_for (state row) calls in
      row_dish_count row = List.length ds /\
      pct_veg row =
        ratio (JsNum.of_nat (count counts_as_vegetarian ds))
              (List.length ds) /\
      pct_sweet row =
        ratio (JsNum.of_nat (count d_sweet ds)) (List.length ds)).
Proof.
  intros _ rows.
  assert (Hbucket : forall k b,
            In (k, b) (add_all calls) ->
            accepted k = true /\ calls_for k calls <> [] /\
            b = observe_all (calls_for k calls) (new_cuisine_bucket k)).
  { intros k b Hin.
    apply In_get_NoDup in Hin; [|apply add_all_keys_NoDup].
    rewrite bucket_built_from_own_observations in Hin.
    destruct (accepted k); [|discriminate].
    destruct (calls_for k calls) as [|d ds]; [discriminate|].
    injection Hin as <-. repeat split. discriminate. }
  assert (Hstate : forall k b, In (k, b) (add_all calls) ->
                               state (summarise localeCompare b) = k).
  { intros k b Hin. destruct (Hbucket k b Hin) as (_ & _ & ->).
    cbn [summarise state].
    now destruct (observe_all_counts (calls_for k calls)
                                     (new_cuisine_bucket k)) as [-> _]. }
  assert (Hstates : Permutation (map state rows)
                                (JsArray.keys (add_all calls))).
  { unfold rows, cuisine_rows. rewrite sort_perm.
    unfold JsArray.values, JsArray.keys. rewrite !map_map.
    erewrite map_ext_in; [reflexivity|].
    intros [k b] Hin. now apply Hstate. }
  split; [|split].
  - eapply Permutation_NoDup; [symmetry; exact Hstates|].
    apply add_all_keys_NoDup.
  - intros st. split.
    + intros Hin. eapply Permutation_in in Hin; [|exact Hstates].
      apply in_map_iff in Hin as [[k b] [<- Hin]].
      destruct (Hbucket k b Hin) as (Ha & Hne & _). now split.
    + intros [Ha Hne]. eapply Permutation_in; [symmetry; exact Hstates|].
      pose proof (bucket_built_from_own_observations calls st) as Hget.
      rewrite Ha in Hget.
      destruct (calls_for st calls) as [|d ds]; [congruence|].
      apply get_Some_In in Hget. apply in_map_iff.
      now exists (st, observe_all (d :: ds) (new_cuisine_bucket st)).
  - intros row Hrow. unfold rows, cuisine_rows in Hrow.
    apply sort_In in Hrow. apply in_map_iff in Hrow as [b [<- Hb]].
    apply in_map_iff in Hb as [[k b'] [Heq Hin]]. simpl in Heq. subst b'.
    rewrite (Hstate k b Hin). destruct (Hbucket k b Hin) as (_ & _ & ->).
    destruct (observe_all_counts (calls_for k calls) (new_cuisine_bucket k))
      as (_ & Hd & Hv & Hs & _).
    cbn [summarise row_dish_count pct_veg pct_sweet].
    rewrite Hd, Hv, Hs. cbn [new_cuisine_bucket dish_count veg sweet].
    repeat split.
Qed.

Lemma observe_all_cook ds b :
  cook_n (observe_all ds b) = cook_n b + count has_cook ds /\
  cook_sum (observe_all ds b) = fold_left JsNum.add (cooks ds) (cook_sum b).
Proof.
  revert b. induction ds as [|d ds IH]; intros b.
  - unfold count. simpl. split; [lia | reflexivity].
  - unfold observe_all in *. cbn [fold_left].
    destruct (IH (observe d b)) as [H1 H2]. rewrite H1, H2.
    unfold count, cooks, has_cook.
    cbn [filter flat_map observe cook_n cook_sum].
    split; destruct (d_cook d); cbn [List.length app fold_left]; try lia;
      reflexivity.
Qed.

Lemma row_of_own_observations localeCompare calls row :
  In row (cuisine_rows localeCompare (add_all calls)) ->
  row = summarise localeCompare
          (observe_all (calls_for (state row) calls)
                       (new_cuisine_bucket (state row))).
Proof.
  intros Hrow. unfold cuisine_rows in Hrow.
  apply sort_In in Hrow. apply in_map_iff in Hrow as [b [<- Hb]].
  apply in_map_iff in Hb as [[k b'] [Heq Hin]]. simpl in Heq. subst b'.
  apply In_get_NoDup in Hin; [|apply add_all_keys_NoDup].
  rewrite bucket_built_from_own_observations in Hin.
  destruct (accepted k); [|discriminate].
  destruct (calls_for k calls) as [|d ds] eqn:E; [discriminate|].
  assert (Hb : b = observe_all (d :: ds) (new_cuisine_bucket k))
    by congruence.
  subst b. clear Hin.
  assert (Hst : state (summarise localeCompare
                         (observe_all (d :: ds) (new_cuisine_bucket k))) = k).
  { cbn [summarise state].
    now destruct (observe_all_counts (d :: ds) (new_cuisine_bucket k))
      as [-> _]. }
  now rewrite Hst, E.
Qed.

(** X9. The average prep and cook times of a summary skip the dishes
    that report no time instead of counting them as zero: each average
    is the sum of the times present among the region's observations
    over their number, and it is [null] exactly when no observation of
    the region reports that time. *)
Theorem averages_skip_missing_times
    (localeCompare : string -> string -> Z)
    (calls : list (string * Details)) (row : CuisineRow) :
  In row (cuisine_rows localeCompare (add_all calls)) ->
  let ds := calls_for (state row) calls in
  avg_prep_time row =
    ratio (fold_left JsNum.add (preps ds) (Fin 0)) (count has_prep ds) /\
  avg_cook_time row =
    ratio (fold_left JsNum.add (cooks ds) (Fin 0)) (count has_cook ds) /\
  (avg_prep_time row = None <-> forall d, In d ds -> d_prep d = None) /\
  (avg_cook_time row = None <-> forall d, In d ds -> d_cook d = None).
Proof.
  intros Hrow ds. apply row_of_own_observations in Hrow. fold ds in Hrow.
  destruct (observe_all_counts ds (new_cuisine_bucket (state row)))
    as (_ & _ & _ & _ & Hpn & Hps).
  destruct (observe_all_cook ds (new_cuisine_bucket (state row)))
    as (Hcn & Hcs).
  assert (Hp : avg_prep_time row =
               ratio (fold_left JsNum.add (preps ds) (Fin 0))
                     (count has_prep ds)).
  { rewrite Hrow at 1. cbn [summarise avg_prep_time]. now rewrite Hpn, Hps. }
  assert (Hc : avg_cook_time row =
               ratio (fold_left JsNum.add (cooks ds) (Fin 0))
                     (count has_cook ds)).
  { rewrite Hrow at 1. cbn [summarise avg_cook_time]. now rewrite Hcn, Hcs. }
  assert (Hzero : forall (f : Details -> bool) (l : list Details),
             count f l = 0 <-> forall d, In d l -> f d = false).
  { intros f l. unfold count. induction l as [|d l IH]; simpl.
    - split; [intros _ d [] | reflexivity].
    - destruct (f d) eqn:E; simpl.
      + split; [discriminate|]. intros H.
        specialize (H d (or_introl eq_refl)). congruence.
      + rewrite IH. split.
        * intros H d' [<-|Hd']; [assumption | now apply H].
        * intros H d' Hd'. apply H. now right. }
  assert (Hratio : forall total n, ratio total n = None <-> n = 0).
  { intros total n. unfold ratio. destruct (Nat.eqb_spec n 0); split;
      congruence. }
  split; [exact Hp|]. split; [exact Hc|]. split.
  - rewrite Hp, Hratio, Hzero. unfold has_prep.
    split; intros H d Hd; specialize (H d Hd);
      destruct (d_prep d); congruence.
  - rewrite Hc, Hratio, Hzero. unfold has_cook.
    split; intros H d Hd; specialize (H d Hd);
      destruct (d_cook d); congruence.
Qed.

Lemma stats_fold_get t toks (stats : list (string * nat)) :
  NoDup toks ->
  JsArray.get t
    (fold_left (fun stats token =>
                  JsArray.upsert token 0 (fun prev => prev + 1) stats)
               toks stats) =
  if existsb (String.eqb t) toks
  then Some (match JsArray.get t stats with Some n => n | None => 0 end + 1)
  else JsArray.get t stats.
Proof.
  revert stats. induction toks as [|x toks IH]; intros stats Hnd;
    [reflexivity|].
  inversion Hnd as [|? ? Hx Hrest]; subst.
  cbn [fold_left existsb]. rewrite IH by assumption.
  destruct (String.eqb_spec t x) as [->|Hne].
  - assert (Hno : existsb (String.eqb x) toks = false).
    { apply Bool.not_true_iff_false. intros H.
      apply existsb_exists in H as [y [Hy Heq]].
      apply String.eqb_eq in Heq. now subst y. }
    rewrite Hno. cbn [orb]. now rewrite get_upsert_same.
  - cbn [orb]. rewrite get_upsert_other by congruence. reflexivity.
Qed.

Lemma existsb_set_of t tokens :
  existsb (String.eqb t) (JsArray.set_of tokens) =
  existsb (String.eqb t) tokens.
Proof.
  apply eq_true_iff_eq. rewrite !existsb_exists.
  split; intros [y [Hy Heq]]; exists y; (split; [|assumption]);
    now apply set_of_In.
Qed.

Lemma observe_stats_get t d b :
  JsArray.get t (ingredient_stats (observe d b)) =
  if mentions t d
  then Some (match JsArray.get t (ingredient_stats b) with
             | Some n => n
             | None => 0
             end + 1)
  else JsArray.get t (ingredient_stats b).
Proof.
  cbn [observe ingredient_stats]. unfold mentions.
  destruct (d_tokens d) as [|tok toks] eqn:E; [reflexivity|].
  cbn [List.length Nat.eqb negb].
  rewrite stats_fold_get by apply dedup_NoDup.
  now rewrite existsb_set_of.
Qed.

Lemma observe_all_stats_get t ds b :
  JsArray.get t (ingredient_stats (observe_all ds b)) =
  match count (mentions t) ds with
  | 0 => JsArray.get t (ingredient_stats b)
  | S n => Some (match JsArray.get t (ingredient_stats b) with
                 | Some m => m
                 | None => 0
                 end + S n)
  end.
Proof.
  revert b. induction ds as [|d ds IH]; intros b; [reflexivity|].
  unfold observe_all in *. cbn [fold_left]. rewrite IH.
  rewrite observe_stats_get. unfold count. cbn [filter].
  destruct (mentions t d); cbn [List.length].
  - destruct (List.length (filter (mentions t) ds)); f_equal; lia.
  - reflexivity.
Qed.

Lemma observe_all_stats_NoDup ds b :
  NoDup (JsArray.keys (ingredient_stats b)) ->
  NoDup (JsArray.keys (ingredient_stats (observe_all ds b))).
Proof.
  revert b. induction ds as [|d ds IH]; intros b Hb; [assumption|].
  unfold observe_all in *. cbn [fold_left]. apply IH.
  cbn [observe ingredient_stats]. destruct (negb _); [|assumption].
  generalize (JsArray.set_of (d_tokens d)) as toks.
  intros toks. revert Hb. generalize (ingredient_stats b) as stats.
  induction toks as [|x toks IHt]; intros stats Hs; [assumption|].
  cbn [fold_left]. apply IHt. now apply upsert_keys_NoDup.
Qed.

(** X10. In a region's bucket the frequency of an ingredient token is
    the number of that region's dishes whose tokens include it, a dish
    that repeats the token counting once; a token no dish mentions has
    no entry, so every recorded frequency is at least one and at most
    the dish count, and no token is listed twice. *)
Theorem ingredient_frequency_counts_dishes
    (calls : list (string * Details)) (st : string)
    (bucket : CuisineBucket) :
  JsArray.get st (add_all calls) = Some bucket ->
  NoDup (JsArray.keys (ingredient_stats bucket)) /\
  forall token,
    JsArray.get token (ingredient_stats bucket) =
      match count (mentions token) (calls_for st calls) with
      | 0 => None
      | n => Some n
      end /\
    count (mentions token) (calls_for st calls) <= dish_count bucket.
Proof.
  intros Hget. rewrite bucket_built_from_own_observations in Hget.
  destruct (accepted st); [|discriminate].
  destruct (calls_for st calls) as [|d ds] eqn:E; [discriminate|].
  assert (Hb : bucket = observe_all (d :: ds) (new_cuisine_bucket st))
    by congruence.
  subst bucket. clear Hget. split.
  - apply observe_all_stats_NoDup. constructor.
  - intros token. rewrite observe_all_stats_get. split.
    + now destruct (count (mentions token) (d :: ds)).
    + destruct (observe_all_counts (d :: ds) (new_cuisine_bucket st))
        as (_ & -> & _).
      unfold count. cbn [new_cuisine_bucket dish_count].
      apply filter_length_le.
Qed.

Lemma ingredient_frequency_counts_dishes_witness :
  JsArray.get "toor dal"
    (ingredient_stats
       (observe_all (calls_for "Odisha" Env.four_calls)
                    (new_cuisine_bucket "Odisha"))) = Some 2.
Proof.
  exact (proj1 (proj2 (ingredient_frequency_counts_dishes
                         Env.four_calls "Odisha" _ eq_refl) "toor dal")).
Defined.

Lemma by_count_then_name_before localeCompare a b :
  JsArray.before (by_count_then_name localeCompare) a b <->
  ranks_before localeCompare a b.
Proof.
  unfold JsArray.before, by_count_then_name, ranks_before.
  destruct (Z.eqb_spec (Z.of_nat (snd b) - Z.of_nat (snd a)) 0) as [E|E];
    split; intros H.
  - right. split; [lia | assumption].
  - destruct H as [H|[_ H]]; [lia | assumption].
  - left. lia.
  - destruct H as [H|[H _]]; lia.
Qed.

Lemma StronglySorted_iff {A : Type} (P Q : A -> A -> Prop) l :
  (forall a b, P a b <-> Q a b) -> StronglySorted P l -> StronglySorted Q l.
Proof.
  intros HPQ Hs. induction Hs as [|a l Hl IH Ha]; constructor;
    [assumption|].
  rewrite Forall_forall in *. intros b Hb. apply HPQ. now apply Ha.
Qed.

(** X11. The ingredient table of a summary holds the entries of the
    bucket, rearranged so that a higher frequency comes first and,
    among equal frequencies, the name the collation puts first; the
    collation is assumed total and transitive. *)
Theorem ingredient_table_ranked
    (localeCompare : string -> string -> Z) (bucket : CuisineBucket) :
  (forall a b, (localeCompare a b <= 0 \/ localeCompare b a <= 0)%Z) ->
  (forall a b c, (localeCompare a b <= 0 -> localeCompare b c <= 0 ->
                  localeCompare a c <= 0)%Z) ->
  Permutation (row_ingredient_stats (summarise localeCompare bucket))
              (ingredient_stats bucket) /\
  StronglySorted (ranks_before localeCompare)
                 (row_ingredient_stats (summarise localeCompare bucket)).
Proof.
  intros Htotal Htrans. cbn [summarise row_ingredient_stats].
  split; [apply sort_perm|].
  apply (StronglySorted_iff
           (JsArray.before (by_count_then_name localeCompare))).
  - apply by_count_then_name_before.
  - apply sort_strongly_sorted.
    + intros a b.
      fold (JsArray.before (by_count_then_name localeCompare) a b).
      fold (JsArray.before (by_count_then_name localeCompare) b a).
      rewrite !by_count_then_name_before. unfold ranks_before.
      destruct (Htotal (fst a) (fst b)); lia.
    + intros a b c.
      fold (JsArray.before (by_count_then_name localeCompare) a b).
      fold (JsArray.before (by_count_then_name localeCompare) b c).
      fold (JsArray.before (by_count_then_name localeCompare) a c).
      rewrite !by_count_then_name_before. unfold ranks_before.
      intros [H1|[H1 L1]] [H2|[H2 L2]]; try (left; lia).
      right. split; [lia|]. eapply Htrans; eassumption.
Qed.

Lemma ingredient_table_ranked_witness :
  Permutation (row_ingredient_stats Samples.odisha_row)
              (ingredient_stats Samples.odisha_bucket) /\
  StronglySorted (ranks_before Env.code_unit_compare)
                 (row_ingredient_stats Samples.odisha_row).
Proof.
  exact (ingredient_table_ranked Env.code_unit_compare Samples.odisha_bucket
           code_unit_compare_total code_unit_compare_trans).
Defined.

(** Two ingredients met twice each: the bucket holds them in the order
    met, the table in the order of their names. *)
Example odisha_ingredient_table :
  ingredient_stats Samples.odisha_bucket = [("turmeric", 2); ("toor dal", 2)] /\
  row_ingredient_stats Samples.odisha_row =
    [("toor dal", 2); ("turmeric", 2)].
Proof. split; reflexivity. Qed.

Lemma averages_skip_missing_times_witness :
  let ds := calls_for (state Samples.odisha_row) Env.four_calls in
  avg_prep_time Samples.odisha_row =
    ratio (fold_left JsNum.add (preps ds) (Fin 0)) (count has_prep ds) /\
  avg_cook_time Samples.odisha_row =
    ratio (fold_left JsNum.add (cooks ds) (Fin 0)) (count has_cook ds) /\
  (avg_prep_time Samples.odisha_row = None <->
   forall d, In d ds -> d_prep d = None) /\
  (avg_cook_time Samples.odisha_row = None <->
   forall d, In d ds -> d_cook d = None).
Proof.
  apply (averages_skip_missing_times Env.code_unit_compare Env.four_calls
           Samples.odisha_row).
  right. left. reflexivity.
Defined.

(** The four sample calls give two summaries: Goa with one dish and
    Odisha with two, neither counting the call under the sentinel. *)
Example four_calls_summaries :
  map (fun row => (state row, row_dish_count row))
      (cuisine_rows Env.code_unit_compare (add_all Env.four_calls)) =
  [("Goa", 1); ("Odisha", 2)].
Proof. reflexivity. Qed.

(** The four sample calls spell their regions plainly. *)
Lemma summary_counts_its_own_observations_witness :
  Forall (fun call => Proto.plain (fst call)) Env.four_calls /\
  NoDup (map state
             (cuisine_rows Env.code_unit_compare (add_all Env.four_calls))).
Proof.
  assert (H : Forall (fun call => Proto.plain (fst call)) Env.four_calls)
    by (repeat constructor).
  split; [exact H|].
  exact (proj1 (summary_counts_its_own_observations
                  Env.code_unit_compare Env.four_calls H)).
Defined.

End RegionBucketFacts.

(* ------------------------------------------------------------------ *)
(** ** Ingredient tokens *)

Section TokenFacts.
Import Classify Shape.

Lemma blank_is_space c : Ascii.eqb c " "%char = true -> is_space c = true.
Proof. intros H. apply Ascii.eqb_eq in H. now subst c. Qed.

Lemma letter_not_space c : is_lower_letter c = true -> is_space c = false.
Proof.
  destruct c as [[] [] [] [] [] [] [] []]; simpl; intros H;
    try reflexivity; discriminate.
Qed.

Lemma collapse_letters_and_blanks in_run s :
  letters_and_blanks (collapse_spaces_from in_run (blank_non_letters s))
  = true.
Proof.
  revert in_run. induction s as [|c s IH]; intros in_run; [reflexivity|].
  cbn [blank_non_letters collapse_spaces_from].
  destruct (is_lower_letter c) eqn:L; cbn [orb].
  - rewrite (letter_not_space c L). cbn [letters_and_blanks].
    now rewrite L, IH.
  - destruct (is_space c) eqn:Sp.
    + rewrite Sp. destruct in_run; [apply IH|].
      cbn [letters_and_blanks]. now rewrite IH.
    + change (is_space " "%char) with true. cbn iota.
      destruct in_run; [apply IH|].
      cbn [letters_and_blanks]. now rewrite IH.
Qed.

Lemma collapse_single_spaced in_run s :
  single_spaced in_run (collapse_spaces_from in_run s) = true.
Proof.
  revert in_run. induction s as [|c s IH]; intros in_run; [reflexivity|].
  cbn [collapse_spaces_from]. destruct (is_space c) eqn:Sp.
  - destruct in_run; [apply IH|].
    cbn [single_spaced]. change (Ascii.eqb " " " ") with true.
    cbn [negb andb]. apply IH.
  - cbn [single_spaced]. destruct (Ascii.eqb c " ") eqn:E.
    + apply blank_is_space in E. congruence.
    + apply IH.
Qed.

Lemma single_spaced_weaken b s :
  single_spaced b s = true -> single_spaced false s = true.
Proof.
  destruct s as [|c s]; [reflexivity|]. cbn [single_spaced].
  destruct (Ascii.eqb c " "); [|tauto].
  destruct b; [discriminate | tauto].
Qed.

Lemma trimStart_shape b s :
  letters_and_blanks s = true -> single_spaced b s = true ->
  letters_and_blanks (trimStart s) = true /\
  single_spaced false (trimStart s) = true.
Proof.
  revert b. induction s as [|c s IH]; intros b Hl Hs; [now split|].
  cbn [trimStart]. destruct (is_space c) eqn:Sp.
  - cbn [letters_and_blanks] in Hl. apply andb_true_iff in Hl as [_ Hl].
    cbn [single_spaced] in Hs.
    destruct (Ascii.eqb c " ").
    + apply andb_true_iff in Hs as [_ Hs]. now apply (IH true).
    + now apply (IH false).
  - split; [assumption|]. now apply (single_spaced_weaken b).
Qed.

Lemma trimEnd_shape b s :
  letters_and_blanks s = true -> single_spaced b s = true ->
  letters_and_blanks (trimEnd s) = true /\
  single_spaced b (trimEnd s) = true.
Proof.
  revert b. induction s as [|c s IH]; intros b Hl Hs; [now split|].
  cbn [letters_and_blanks] in Hl. apply andb_true_iff in Hl as [Hc Hl].
  cbn [single_spaced] in Hs. cbn [trimEnd].
  destruct (Ascii.eqb c " ") eqn:E.
  - apply andb_true_iff in Hs as [Hb Hs].
    destruct (IH true Hl Hs) as [Hl' Hs'].
    destruct (trimEnd s) as [|d t].
    + rewrite (blank_is_space c E). now split.
    + cbn [letters_and_blanks single_spaced]. rewrite E, Hc, Hb.
      now split.
  - destruct (IH false Hl Hs) as [Hl' Hs'].
    destruct (trimEnd s) as [|d t].
    + destruct (is_space c); [now split|].
      cbn [letters_and_blanks single_spaced]. rewrite E, Hc. now split.
    + cbn [letters_and_blanks single_spaced]. rewrite E, Hc. now split.
Qed.

Lemma split_length sep s :
  List.length (split sep s) = occurrences sep s + 1.
Proof.
  induction s as [|c s IH]; [reflexivity|].
  cbn [split occurrences]. destruct (Ascii.eqb c sep).
  - cbn [List.length]. lia.
  - destruct (split sep s); cbn [List.length] in *; lia.
Qed.

Lemma occurrences_toLowerCase s :
  occurrences ","%char (toLowerCase s) = occurrences ","%char s.
Proof.
  induction s as [|c s IH]; [reflexivity|].
  cbn [toLowerCase occurrences]. rewrite IH. f_equal.
  destruct c as [[] [] [] [] [] [] [] []]; reflexivity.
Qed.

(** X12. Every token of [tokenizeIngredients] is in normal form: it is
    not empty, consists of lower-case letters and blanks only, has no
    blank at either end and no two blanks in a row. There are at most
    as many tokens as the text has commas, plus one, and the empty
    text has none. *)
Theorem tokens_are_normalised (s : string) :
  (forall token, In token (tokenizeIngredients s) ->
      token <> "" /\
      letters_and_blanks token = true /\
      trim token = token /\
      single_spaced false token = true) /\
  List.length (tokenizeIngredients s) <= occurrences ","%char s + 1 /\
  tokenizeIngredients "" = [].
Proof.
  split; [|split; [|reflexivity]].
  - intros token Hin. unfold tokenizeIngredients in Hin.
    destruct (negb (truthy s)); [contradiction|].
    apply filter_In in Hin as [Hin Ht].
    apply in_map_iff in Hin as [part [<- _]].
    split; [destruct (trim _); [discriminate | discriminate]|].
    pose proof (collapse_letters_and_blanks false part) as Hl.
    pose proof (collapse_single_spaced false
                  (blank_non_letters part)) as Hs.
    fold (collapse_spaces (blank_non_letters part)) in Hl, Hs.
    unfold trim at 1 3.
    destruct (trimStart_shape false _ Hl Hs) as [Hl1 Hs1].
    destruct (trimEnd_shape false _ Hl1 Hs1) as [Hl2 Hs2].
    repeat split; [assumption | apply trim_idem | assumption].
  - unfold tokenizeIngredients. destruct (negb (truthy s)); [simpl; lia|].
    eapply Nat.le_trans; [apply filter_length_le|].
    rewrite !length_map, split_length, occurrences_toLowerCase. lia.
Qed.

(** Parenthesised asides, digits and punctuation go; what is left of
    each comma-separated part is its letters. *)
Example tokenizeIngredients_example :
  tokenizeIngredients "2 cups Rice (washed), Sugar ,, 1/2 tsp  Haldi" =
  ["cups rice"; "sugar"; "tsp haldi"].
Proof. reflexivity. Qed.

End TokenFacts.


(* ------------------------------------------------------------------ *)
(** ** What the correlation search keeps and what it cuts *)

Section TopSliceFacts.
Import BuildData Compare.

Lemma StronglySorted_app_cross {A : Type} (P : A -> A -> Prop) l1 l2 :
  StronglySorted P (l1 ++ l2)%list ->
  StronglySorted P l1 /\
  forall a b, In a l1 -> In b l2 -> P a b.
Proof.
  induction l1 as [|x l1 IH]; simpl; intros H.
  - split; [constructor | intros a b []].
  - inversion H as [|? ? Hs Hall]; subst.
    destruct (IH Hs) as [Hs1 Hcross]. split.
    + constructor; [assumption|].
      rewrite Forall_forall in *. intros y Hy. apply Hall.
      apply in_or_app. now left.
    + intros a b [<-|Ha] Hb.
      * rewrite Forall_forall in Hall. apply Hall.
        apply in_or_app. now right.
      * now apply Hcross.
Qed.

Variable computeScatter :
  list Scatter.ScatterPoint -> option Scatter.ScatterMetrics.
Variable joined : list JoinedRow.
Variable ingredientInfos : list IngredientInfo.
Variable stateIngredientShares : list (string * list (string * jsnum)).

(** X17. The search returns at most 18 suggestions, each of them a
    surviving pair with at least 6 samples; together with the ones cut
    off they are exactly the surviving pairs; and when every surviving
    r is a real number, the suggestions come strongest first and no
    suggestion that was cut off is stronger than one that was kept. *)
Theorem top_slice_keeps_the_strongest :
  let surviving :=
    surviving_combos computeScatter joined ingredientInfos
                     stateIngredientShares in
  let kept :=
    computeInterestingCombos computeScatter joined ingredientInfos
                             stateIngredientShares in
  let cut :=
    skipn 18 (ranked_combos computeScatter joined ingredientInfos
                            stateIngredientShares) in
  List.length kept <= 18 /\
  (forall combo, In combo kept ->
                 In combo surviving /\ 6 <= combo_sample combo) /\
  Permutation (kept ++ cut)%list surviving /\
  (Forall real_r surviving ->
   StronglySorted outranks kept /\
   forall a b, In a kept -> In b cut -> outranks a b).
Proof.
  intros surviving kept cut.
  set (ranked := ranked_combos computeScatter joined ingredientInfos
                               stateIngredientShares) in *.
  assert (Hsplit : (kept ++ cut)%list = ranked)
    by apply firstn_skipn.
  assert (Hperm : Permutation ranked surviving) by apply sort_perm.
  split; [apply firstn_le_length|]. split; [|split].
  - intros combo Hin.
    assert (Hs : In combo surviving).
    { eapply Permutation_in; [exact Hperm|]. rewrite <- Hsplit.
      apply in_or_app. now left. }
    split; [exact Hs|].
    unfold surviving, surviving_combos in Hs.
    apply in_flat_map in Hs as [cc [_ Hs]].
    apply in_flat_map in Hs as [cm [_ Hs]].
    apply combo_of_In in Hs as [m [Hlen [_ ->]]]. exact Hlen.
  - now rewrite Hsplit.
  - intros Hreal. apply StronglySorted_app_cross. rewrite Hsplit.
    apply Sorted_StronglySorted.
    + intros a b c. apply outranks_trans.
    + apply (Sorted_refine (JsArray.before by_abs_r) outranks real_r).
      * intros a b. apply by_abs_r_outranks.
      * eapply Permutation_Forall; [symmetry; exact Hperm | exact Hreal].
      * apply sort_sorted. exact by_abs_r_total.
Qed.

End TopSliceFacts.

(* ------------------------------------------------------------------ *)
(** ** Ingredient names of the comparison view *)

Section IngredientNameFacts.
Import JsString Ingredients IngredientShape.

Lemma is_space_lower c : is_space (lower_ascii c) = is_space c.
Proof. destruct c as [[] [] [] [] [] [] [] []]; reflexivity. Qed.

Lemma solid_cons c w :
  is_space c = false ->
  (w = EmptyString \/ solid w) -> solid (String c w).
Proof.
  intros Hc Hw. split; [discriminate|].
  simpl. intros d [<-|Hd]; [exact Hc|].
  destruct Hw as [->|[_ Hw]]; [contradiction | now apply Hw].
Qed.

Lemma words_solid s : Forall solid (words s).
Proof.
  induction s as [|c s IH]; cbn [words]; [constructor|].
  destruct (is_space c) eqn:Hc; [exact IH|].
  destruct s as [|d s'].
  - constructor; [|constructor]. apply solid_cons; auto.
  - destruct (is_space d) eqn:Hd.
    + constructor; [|exact IH]. apply solid_cons; auto.
    + destruct (words (String d s')) as [|w ws].
      * constructor; [|constructor]. apply solid_cons; auto.
      * inversion IH; subst. constructor; [|assumption].
        apply solid_cons; auto.
Qed.

Lemma words_lower s :
  words (toLowerCase s) = map toLowerCase (words s).
Proof.
  induction s as [|c s IH]; [reflexivity|].
  cbn [toLowerCase words]. rewrite is_space_lower.
  destruct (is_space c) eqn:Hc; [exact IH|].
  destruct s as [|d s']; [reflexivity|].
  cbn [toLowerCase] in *. rewrite is_space_lower.
  destruct (is_space d) eqn:Hd.
  - cbn [map]. now rewrite IH.
  - rewrite IH. now destruct (words (String d s')).
Qed.

Lemma words_trimStart s : words (trimStart s) = words s.
Proof.
  induction s as [|c s IH]; [reflexivity|].
  cbn [trimStart]. destruct (is_space c) eqn:Hc; [|reflexivity].
  cbn [words]. now rewrite Hc.
Qed.

Lemma trimEnd_head d s e t :
  trimEnd (String d s) = String e t -> e = d.
Proof.
  cbn [trimEnd]. destruct (trimEnd s).
  - destruct (is_space d); [discriminate|]. congruence.
  - congruence.
Qed.

Lemma words_trimEnd s : words (trimEnd s) = words s.
Proof.
  induction s as [|c s IH]; [reflexivity|].
  cbn [trimEnd]. destruct (trimEnd s) as [|e t] eqn:E.
  - cbn [words] in IH. destruct (is_space c) eqn:Hc.
    + cbn [words]. now rewrite Hc.
    + cbn [words]. rewrite Hc.
      destruct s as [|d s']; [reflexivity|].
      destruct (is_space d); now rewrite <- IH.
  - destruct s as [|d s']; [discriminate|].
    pose proof (trimEnd_head _ _ _ _ E) as ->.
    cbn [words]. destruct (is_space c) eqn:Hc.
    + exact IH.
    + cbn [words] in IH. destruct (is_space d) eqn:Hd.
      * now rewrite IH.
      * now rewrite IH.
Qed.

Lemma words_trim s : words (trim s) = words s.
Proof. unfold trim. now rewrite words_trimEnd, words_trimStart. Qed.

Lemma is_space_lower_string_start s :
  trimStart (toLowerCase s) = toLowerCase (trimStart s).
Proof.
  induction s as [|c s IH]; [reflexivity|].
  cbn [toLowerCase trimStart]. rewrite is_space_lower.
  now destruct (is_space c).
Qed.

Lemma trimEnd_lower s :
  trimEnd (toLowerCase s) = toLowerCase (trimEnd s).
Proof.
  induction s as [|c s IH]; [reflexivity|].
  cbn [toLowerCase trimEnd]. rewrite IH, is_space_lower.
  destruct (trimEnd s); cbn [toLowerCase]; [|reflexivity].
  now destruct (is_space c).
Qed.

Lemma trim_lower s : trim (toLowerCase s) = toLowerCase (trim s).
Proof.
  unfold trim. now rewrite is_space_lower_string_start, trimEnd_lower.
Qed.

(** A word followed by nothing or by white space is split off whole. *)
Lemma words_solid_app w r :
  solid w ->
  (r = EmptyString \/ exists d r', r = String d r' /\ is_space d = true) ->
  words (w ++ r) = w :: words r.
Proof.
  intros [Hne Hw] Hr. induction w as [|c w IH]; [congruence|].
  assert (Hc : is_space c = false) by (apply Hw; now left).
  assert (Hw' : forall c0, In c0 (list_ascii_of_string w) ->
                           is_space c0 = false)
    by (intros c0 H0; apply Hw; now right).
  cbn [append words]. rewrite Hc.
  destruct w as [|c' w'].
  - cbn [append]. destruct Hr as [->|[d [r' [-> Hd]]]]; [reflexivity|].
    now rewrite Hd.
  - cbn [append].
    assert (Hc' : is_space c' = false) by (apply Hw'; now left).
    rewrite Hc'. cbn [append] in IH.
    rewrite IH; [reflexivity | discriminate | exact Hw'].
Qed.

Lemma append_empty_r s : (s ++ EmptyString)%string = s.
Proof. induction s as [|c s IH]; simpl; congruence. Qed.

Lemma words_join ws :
  Forall solid ws -> words (join " " ws) = ws.
Proof.
  induction 1 as [|w ws Hw Hws IH]; [reflexivity|].
  destruct ws as [|v ws'].
  - cbn [join]. rewrite <- (append_empty_r w) at 1.
    rewrite words_solid_app; [reflexivity | exact Hw | now left].
  - change (join " " (w :: v :: ws'))
      with (w ++ String " " (join " " (v :: ws')))%string.
    rewrite words_solid_app; [| exact Hw | right; eauto].
    cbn [words]. change (is_space " ") with true. cbv iota.
    now rewrite IH.
Qed.

Lemma trimEnd_solid w : solid w -> trimEnd w = w.
Proof.
  intros [Hne Hw]. induction w as [|c w IH]; [congruence|].
  cbn [trimEnd]. destruct w as [|c' w'].
  - cbn [trimEnd]. rewrite Hw; [reflexivity | now left].
  - rewrite IH; [reflexivity | discriminate |].
    intros c0 H0. apply Hw. now right.
Qed.

Lemma trimEnd_app a b :
  b <> EmptyString -> trimEnd b = b -> trimEnd (a ++ b) = (a ++ b)%string.
Proof.
  intros Hb Eb. induction a as [|c a IH]; [exact Eb|].
  cbn [append trimEnd]. rewrite IH.
  destruct (a ++ b)%string eqn:E; [|reflexivity].
  destruct a; [simpl in E; congruence | discriminate].
Qed.

Lemma join_solid ws :
  ws <> [] -> Forall solid ws ->
  join " " ws <> EmptyString /\ trim (join " " ws) = join " " ws.
Proof.
  intros Hne Hall.
  assert (Hfirst : exists c t, join " " ws = String c t /\
                               is_space c = false).
  { destruct Hall as [|w ws [Hw Hsp] _]; [congruence|].
    destruct w as [|c w]; [congruence|].
    exists c. destruct ws as [|v ws'].
    - exists w. split; [reflexivity|]. apply Hsp. now left.
    - eexists. split; [reflexivity|]. apply Hsp. now left. }
  assert (Hend : join " " ws <> EmptyString /\
                 trimEnd (join " " ws) = join " " ws).
  { clear Hfirst. induction Hall as [|w ws Hw Hws IH]; [congruence|].
    destruct ws as [|v ws'].
    - cbn [join]. split; [apply Hw | now apply trimEnd_solid].
    - change (join " " (w :: v :: ws'))
        with (w ++ String " " (join " " (v :: ws')))%string.
      destruct IH as [IHne IHeq]; [discriminate|].
      split.
      + destruct w; discriminate.
      + apply trimEnd_app; [discriminate|].
        cbn [trimEnd]. rewrite IHeq.
        destruct (join " " (v :: ws')); [congruence | reflexivity]. }
  destruct Hfirst as [c [t [E Hc]]]. destruct Hend as [Hn He].
  split; [exact Hn|]. unfold trim.
  rewrite (trimStart_fixed (join " " ws)); [exact He|]. unfold Shape.no_leading_space.
  rewrite E. exact Hc.
Qed.

Lemma filter_words_lower token :
  let filtered := filter pushed (words (toLowerCase token)) in
  Forall solid filtered /\
  map toLowerCase filtered = filtered /\
  filter pushed filtered = filtered.
Proof.
  intros filtered. split; [|split].
  - apply Forall_forall. intros w Hw. apply filter_In in Hw as [Hw _].
    pose proof (words_solid (toLowerCase token)) as H.
    rewrite Forall_forall in H. now apply H.
  - assert (H : forall w, In w filtered -> toLowerCase w = w).
    { intros w Hw. apply filter_In in Hw as [Hw _].
      rewrite words_lower in Hw. apply in_map_iff in Hw as [v [<- _]].
      apply toLowerCase_idem. }
    induction filtered as [|w ws IH]; [reflexivity|].
    cbn [map]. rewrite H by now left.
    rewrite IH; [reflexivity|]. intros v Hv. apply H. now right.
  - unfold filtered.
    induction (words (toLowerCase token)) as [|w ws IH]; [reflexivity|].
    cbn [filter]. destruct (pushed w) eqn:E; [|exact IH].
    cbn [filter]. now rewrite E, IH.
Qed.

Lemma lower_join ws :
  toLowerCase (join " " ws) = join " " (map toLowerCase ws).
Proof.
  assert (Happ : forall a b,
    toLowerCase (a ++ b) = (toLowerCase a ++ toLowerCase b)%string).
  { intros a b. induction a as [|c a IH]; simpl; congruence. }
  induction ws as [|w ws IH]; [reflexivity|].
  destruct ws as [|v ws']; [reflexivity|].
  change (join " " (w :: v :: ws'))
    with (w ++ String " " (join " " (v :: ws')))%string.
  rewrite Happ. cbn [toLowerCase]. rewrite IH. reflexivity.
Qed.

(** The result of [normalizeIngredientToken] is one of its fixed
    points, trimmed and in lower case. *)
Lemma normalizeIngredientToken_fixed (token : string) :
  let normalized := normalizeIngredientToken token in
  normalizeIngredientToken normalized = normalized /\
  trim normalized = normalized /\
  toLowerCase normalized = normalized.
Proof.
  cbv zeta.
  destruct token as [|c0 t0]; [repeat split; reflexivity|].
  set (token := String c0 t0).
  destruct (filter_words_lower token) as [Hsolid [Hlow Hfix]].
  assert (Hn : normalizeIngredientToken token =
               match filter pushed (words (toLowerCase token)) with
               | [] => trim (toLowerCase token)
               | _ => trim (join " " (filter pushed
                                        (words (toLowerCase token))))
               end) by reflexivity.
  destruct (filter pushed (words (toLowerCase token))) as [|w ws] eqn:E.
  - rewrite Hn. set (r := trim (toLowerCase token)).
    assert (Hl : toLowerCase r = r).
    { unfold r. now rewrite <- trim_lower, toLowerCase_idem. }
    assert (Ht : trim r = r) by apply trim_idem.
    split; [|split; assumption].
    assert (Hw : words r = words (toLowerCase token))
      by apply words_trim.
    unfold normalizeIngredientToken.
    destruct r as [|c r'] eqn:Er; [reflexivity|].
    cbn [truthy negb]. rewrite Hl, Hw, E. exact Ht.
  - assert (Hne : w :: ws <> []) by discriminate.
    destruct (join_solid (w :: ws) Hne Hsolid) as [Hj Ht].
    rewrite Hn, Ht.
    assert (Hl : toLowerCase (join " " (w :: ws)) = join " " (w :: ws))
      by now rewrite lower_join, Hlow.
    assert (Hw : words (join " " (w :: ws)) = w :: ws)
      by now apply words_join.
    split; [|split; assumption].
    unfold normalizeIngredientToken.
    destruct (join " " (w :: ws)) as [|c J'] eqn:EJ; [congruence|].
    cbn [truthy negb]. rewrite Hl, Hw, Hfix, EJ. exact Ht.
Qed.

(** X18. Normalising an ingredient name twice changes nothing more:
    the result of [normalizeIngredientToken] is a fixed point of it,
    is trimmed, and is in lower case. *)
Theorem normalised_token_is_stable (token : string) :
  let normalized := normalizeIngredientToken token in
  normalizeIngredientToken normalized = normalized /\
  trim normalized = normalized /\
  toLowerCase normalized = normalized.
Proof. exact (normalizeIngredientToken_fixed token). Qed.

End IngredientNameFacts.

(* ------------------------------------------------------------------ *)
(** ** The ingredient tables of the comparison view *)

Section UniverseFacts.
Import JsString BuildData Compare Ingredients IngredientShape.
Local Open Scope R_scope.

Lemma upsert_In {V : Type} key init (f : V -> V) d k v :
  In (k, v) (JsArray.upsert key init f d) ->
  In (k, v) d \/
  (k = key /\
   ((exists w, In (key, w) d /\ v = f w) \/
    (v = f init /\ ~ In key (JsArray.keys d)))).
Proof.
  induction d as [|[k' w] d IH]; simpl.
  - intros [H|[]]. injection H as <- <-. right. split; [reflexivity|].
    right. split; [reflexivity | tauto].
  - destruct (String.eqb_spec k' key) as [->|Hne]; simpl.
    + intros [H|H]; [|tauto]. injection H as <- <-.
      right. split; [reflexivity|]. left. exists w. tauto.
    + intros [H|H]; [tauto|].
      destruct (IH H) as [H1|[-> [[u [Hu ->]]|[-> Hn]]]]; [tauto| |].
      * right. split; [reflexivity|]. left. exists u. tauto.
      * right. split; [reflexivity|]. right. split; [reflexivity|].
        intros [E|E]; [congruence | contradiction].
Qed.

Lemma upsert_fresh {V : Type} key init (f : V -> V) d :
  ~ In key (JsArray.keys d) ->
  JsArray.upsert key init f d = (d ++ [(key, f init)])%list.
Proof.
  induction d as [|[k w] d IH]; simpl; [reflexivity|].
  intros Hn. destruct (String.eqb_spec k key) as [->|Hne]; [tauto|].
  rewrite IH; [reflexivity | tauto].
Qed.

Lemma upsert_keys_In {V : Type} key init (f : V -> V) d k :
  In k (JsArray.keys (JsArray.upsert key init f d)) ->
  k = key \/ In k (JsArray.keys d).
Proof.
  unfold JsArray.keys. intros H. apply in_map_iff in H as [[k' v] [<- H]].
  apply upsert_In in H as [H|[-> _]]; [|now left].
  right. apply in_map_iff. now exists (k', v).
Qed.

(** *** Shares of one row *)

Lemma share_of_unit dishCount count :
  gt (share_of dishCount count) (Fin 0) = true ->
  unit_share (share_of dishCount count).
Proof.
  unfold share_of, JsNum.of_nat, JsNum.div.
  destruct (JsNum.Reqb (INR dishCount) 0) eqn:E.
  - destruct (JsNum.Reqb (INR (Nat.min count dishCount)) 0) eqn:E0;
      [discriminate|].
    exfalso. apply Reqb_false in E0. apply E0.
    apply Reqb_true in E. change 0 with (INR 0) in E.
    apply INR_eq in E. subst dishCount.
    now rewrite Nat.min_0_r.
  - apply Reqb_false in E.
    assert (Hd : 0 < INR dishCount).
    { destruct dishCount; [contradiction E; reflexivity|].
      apply lt_0_INR. lia. }
    unfold gt, JsNum.le. intros H. apply Bool.negb_true_iff in H.
    apply Rleb_false in H. eexists. split; [reflexivity|].
    split; [exact H|].
    apply (Rmult_le_reg_r (INR dishCount)); [exact Hd|].
    unfold Rdiv. rewrite Rmult_assoc, Rinv_l, Rmult_1_r, Rmult_1_l
      by exact E.
    apply le_INR. lia.
Qed.

Lemma count_token_keys dish_count entries acc :
  (forall k, In k (JsArray.keys acc) -> listed_name k) ->
  forall k,
    In k (JsArray.keys (fold_left (count_token dish_count) entries acc)) ->
    listed_name k.
Proof.
  revert acc. induction entries as [|e entries IH]; intros acc Hacc;
    [exact Hacc|].
  cbn [fold_left]. apply IH. intros k. unfold count_token.
  destruct (normalizeIngredientToken (fst e)) as [|c t] eqn:E;
    cbn [truthy negb]; [apply Hacc|].
  intros H. apply upsert_keys_In in H as [->|H]; [|now apply Hacc].
  destruct (normalizeIngredientToken_fixed (fst e)) as [H1 [H2 _]].
  rewrite E in H1, H2. split; [discriminate | tauto].
Qed.

Lemma count_token_NoDup dish_count entries acc :
  NoDup (JsArray.keys acc) ->
  NoDup (JsArray.keys (fold_left (count_token dish_count) entries acc)).
Proof.
  revert acc. induction entries as [|e entries IH]; intros acc Hacc;
    [exact Hacc|].
  cbn [fold_left]. apply IH. unfold count_token.
  destruct (negb (truthy (normalizeIngredientToken (fst e))));
    [exact Hacc | now apply upsert_keys_NoDup].
Qed.

Lemma put_share_fold dishCount counts acc :
  (forall k v, In (k, v) acc ->
               In k (JsArray.keys counts ++ JsArray.keys acc)%list
               /\ unit_share v) ->
  forall k v,
    In (k, v) (fold_left (put_share dishCount) counts acc) ->
    In k (JsArray.keys counts ++ JsArray.keys acc)%list /\ unit_share v.
Proof.
  revert acc. induction counts as [|e counts IH]; intros acc Hacc;
    [exact Hacc|].
  cbn [fold_left]. intros k v H.
  assert (Hstep : forall k v, In (k, v) (put_share dishCount acc e) ->
            (k = fst e \/ In k (JsArray.keys acc)) /\ unit_share v).
  { clear k v H. intros k v. unfold put_share.
    destruct (gt (share_of dishCount (snd e)) (Fin 0)) eqn:G.
    - intros H. apply upsert_In in H as [H|[-> [[w [_ ->]]|[-> _]]]].
      + destruct (Hacc _ _ H) as [_ Hu]. split; [|exact Hu].
        right. apply in_map_iff. now exists (k, v).
      + split; [now left | now apply share_of_unit].
      + split; [now left | now apply share_of_unit].
    - intros H. destruct (Hacc _ _ H) as [_ Hu]. split; [|exact Hu].
      right. apply in_map_iff. now exists (k, v). }
  apply IH in H.
  - destruct H as [Hk Hu]. split; [|exact Hu].
    apply in_app_or in Hk as [Hk|Hk].
    + apply in_or_app. left. now right.
    + apply in_map_iff in Hk as [[k' v'] [<- Hk]].
      destruct (Hstep _ _ Hk) as [[->|Hk'] _]; apply in_or_app.
      * left. now left.
      * now right.
  - intros k' v' H'. destruct (Hstep _ _ H') as [_ Hu]. split; [|exact Hu].
    apply in_or_app. right. apply in_map_iff. now exists (k', v').
Qed.

Lemma put_share_NoDup dishCount counts acc :
  NoDup (JsArray.keys acc) ->
  NoDup (JsArray.keys (fold_left (put_share dishCount) counts acc)).
Proof.
  revert acc. induction counts as [|e counts IH]; intros acc Hacc;
    [exact Hacc|].
  cbn [fold_left]. apply IH. unfold put_share.
  destruct (gt (share_of dishCount (snd e)) (Fin 0));
    [now apply upsert_keys_NoDup | exact Hacc].
Qed.

(** Every entry of a row's share table has a listed name and a share in
    (0, 1]. *)
Lemma shareMap_entries row k v :
  In (k, v) (shareMap_of row) -> listed_name k /\ unit_share v.
Proof.
  unfold shareMap_of. destruct (0 <? row_dish_count row)%nat; [|intros []].
  intros H. apply put_share_fold in H; [|intros ? ? []].
  destruct H as [Hk Hu]. split; [|exact Hu].
  rewrite app_nil_r in Hk. unfold normalizedCounts_of in Hk.
  apply count_token_keys in Hk; [exact Hk | intros ? []].
Qed.

Lemma shareMap_NoDup row : NoDup (JsArray.keys (shareMap_of row)).
Proof.
  unfold shareMap_of. destruct (0 <? row_dish_count row)%nat;
    [|constructor].
  apply put_share_NoDup. constructor.
Qed.

(** *** The table of shares by state *)

Lemma stateShares_fold rows tables st m :
  In (st, m) (t_stateShares (fold_left add_row rows tables)) ->
  In (st, m) (t_stateShares tables) \/
  exists row, In row rows /\ state row = st /\ m = shareMap_of row.
Proof.
  revert tables. induction rows as [|row rows IH]; intros tables;
    [now left|].
  cbn [fold_left]. intros H. apply IH in H as [H|[r [Hr He]]].
  - cbn [add_row t_stateShares] in H.
    apply upsert_In in H as [H|[-> [[w [_ ->]]|[-> _]]]]; [now left| |];
      right; exists row; split; try (now left); tauto.
  - right. exists r. split; [now right | exact He].
Qed.

Lemma stateShares_rows rows st m :
  In (st, m) (t_stateShares (tables_of rows)) ->
  exists row, In row rows /\ state row = st /\ m = shareMap_of row.
Proof.
  intros H. apply stateShares_fold in H as [[]|H]. exact H.
Qed.

(** X19. The usage share of an ingredient is a share: every entry of
    the table of shares by state is keyed by a listed name and lies in
    (0, 1], and the value the comparison reads for an ingredient and a
    region is a real number in [0, 1], or missing exactly when the
    region has no dishes. *)
Theorem ingredient_value_is_a_share
    (localeCompare : string -> string -> Z) (rows : list CuisineRow) :
  let universe := buildIngredientUniverse localeCompare rows in
  (forall st shareMap ingredient share,
     JsArray.get st (stateShares universe) = Some shareMap ->
     JsArray.get ingredient shareMap = Some share ->
     unit_share share /\ listed_name ingredient) /\
  (forall row ingredient,
     match getCuisineValue (stateShares universe) (Some row)
                           (Ingredient ingredient) with
     | None => row_dish_count row = 0%nat
     | Some v => row_dish_count row <> 0%nat /\
                 exists r, v = Fin r /\ 0 <= r <= 1
     end).
Proof.
  cbv zeta. cbn [buildIngredientUniverse stateShares].
  assert (Hshare : forall st shareMap ingredient share,
     JsArray.get st (t_stateShares (tables_of rows)) = Some shareMap ->
     JsArray.get ingredient shareMap = Some share ->
     unit_share share /\ listed_name ingredient).
  { intros st m k v Hm Hv. apply get_Some_In in Hm, Hv.
    apply stateShares_rows in Hm as [row [_ [_ ->]]].
    apply shareMap_entries in Hv. tauto. }
  split; [exact Hshare|].
  intros row ingredient. cbn [getCuisineValue].
  destruct (Nat.eqb (row_dish_count row) 0) eqn:E;
    [now apply Nat.eqb_eq|].
  apply Nat.eqb_neq in E.
  destruct (JsArray.get (state row) (t_stateShares (tables_of rows)))
    as [m|] eqn:Em;
    [|split; [exact E | exists 0; split; [reflexivity | lra]]].
  destruct (JsArray.get (name ingredient) m) as [v|] eqn:Ev;
    [|split; [exact E | exists 0; split; [reflexivity | lra]]].
  destruct (Hshare _ _ _ _ Em Ev) as [[r [-> Hr]] _].
  split; [exact E|]. exists r. split; [reflexivity | lra].
Qed.

(** *** The table of ingredients *)

Lemma share_sum_app l k r :
  share_sum (l ++ [(k, Fin r)]) = share_sum l + r.
Proof. induction l as [|e l IH]; simpl; [lra | rewrite IH; lra]. Qed.

Section RowByRow.
Variable seen : CuisineRow -> Prop.
Variable cur : CuisineRow.
Hypothesis cur_new : forall r, seen r -> state r <> state cur.

(** What is known of one ingredient's record while the shares of [cur]
    are being added; [done] lists the ingredients of [cur] added so
    far. *)
Let sound (done : list string) (k : string) (d : IngredientData) : Prop :=
  data_states d <> [] /\
  totalShare d = Fin (share_sum (data_states d)) /\
  NoDup (JsArray.keys (data_states d)) /\
  forall s v, In (s, v) (data_states d) ->
    (exists r, seen r /\ state r = s /\ In (k, v) (shareMap_of r)) \/
    (s = state cur /\ In (k, v) (shareMap_of cur) /\ In k done).

Lemma sound_cur_fresh done k d :
  sound done k d -> ~ In k done ->
  ~ In (state cur) (JsArray.keys (data_states d)).
Proof.
  intros [_ [_ [_ H]]] Hk Hin.
  apply in_map_iff in Hin as [[s v] [Es Hin]]. simpl in Es. subst s.
  destruct (H _ _ Hin) as [[r [Hr [Er _]]]|[_ [_ Hd]]]; [|tauto].
  exact (cur_new r Hr Er).
Qed.

Lemma add_share_fold entries done data :
  NoDup (map fst entries) ->
  (forall k, In k (map fst entries) -> ~ In k done) ->
  (forall e, In e entries -> In e (shareMap_of cur)) ->
  NoDup (JsArray.keys data) ->
  (forall k d, In (k, d) data -> sound done k d) ->
  NoDup (JsArray.keys (fold_left (add_share (state cur)) entries data)) /\
  forall k d,
    In (k, d) (fold_left (add_share (state cur)) entries data) ->
    sound (rev (map fst entries) ++ done)%list k d.
Proof.
  revert done data.
  induction entries as [|[k' v'] entries IH];
    intros done data Hnd Hdone Hsub Hkeys Hdata; [now split|].
  cbn [fold_left map rev]. rewrite <- app_assoc. cbn [app].
  inversion Hnd as [|? ? Hk' Hnd']; subst.
  assert (Hv' : exists r', v' = Fin r' /\ 0 < r' <= 1).
  { destruct (shareMap_entries cur k' v') as [_ H]; [|exact H].
    apply Hsub. now left. }
  destruct Hv' as [r' [-> Hr']].
  apply IH.
  - exact Hnd'.
  - intros k Hk [<-|Hd]; [contradiction|].
    apply (Hdone k); [now right | exact Hd].
  - intros e He. apply Hsub. now right.
  - now apply upsert_keys_NoDup.
  - intros k d H.
    assert (Hmono : forall d0, sound done k d0 -> sound (k' :: done) k d0).
    { intros d0 [H1 [H2 [H3 H4]]]. repeat split; try assumption.
      intros s v Hsv. destruct (H4 _ _ Hsv) as [Hl|[Ha [Hb Hc]]];
        [now left | right; repeat split; try assumption; now right]. }
    unfold add_share in H. cbn [fst snd] in H.
    apply upsert_In in H as [H|[-> [[w [Hw ->]]|[-> Hfresh]]]].
    + apply Hmono. now apply Hdata.
    + pose proof (Hdata _ _ Hw) as Hs.
      assert (Hf : ~ In (state cur) (JsArray.keys (data_states w))).
      { apply (sound_cur_fresh done k'); [exact Hs|].
        apply Hdone. now left. }
      destruct Hs as [H1 [H2 [H3 H4]]].
      cbn [data_states totalShare]. rewrite (upsert_fresh _ _ _ _ Hf).
      cbv beta.
      repeat split; cbn [data_states totalShare].
      * destruct (data_states w); discriminate.
      * rewrite H2, share_sum_app. reflexivity.
      * unfold JsArray.keys. rewrite map_app. cbn [map fst].
        apply NoDup_app; [exact H3 | repeat constructor; intros [] |].
        intros x Hx [<-|[]]. exact (Hf Hx).
      * intros s v Hsv. apply in_app_or in Hsv as [Hsv|[Hsv|[]]].
        -- destruct (H4 _ _ Hsv) as [Hl|[Ha [Hb Hc]]];
             [now left | right; repeat split; try assumption; now right].
        -- injection Hsv as <- <-. right. split; [reflexivity|].
           split; [apply Hsub; now left | now left].
    + cbn [data_states totalShare JsArray.upsert].
      repeat split; cbn [data_states totalShare].
      * discriminate.
      * cbn [JsNum.add share_sum snd Scatter.Spec.real_of].
        f_equal. lra.
      * repeat constructor. intros [].
      * intros s v [Hsv|[]]. injection Hsv as <- <-.
        right. split; [reflexivity|].
        split; [apply Hsub; now left | now left].
Qed.

End RowByRow.

Lemma ingredientData_fold rows :
  forall (seen : CuisineRow -> Prop) tables,
  NoDup (map state rows) ->
  (forall r r', seen r -> In r' rows -> state r <> state r') ->
  NoDup (JsArray.keys (t_ingredientData tables)) ->
  (forall k d, In (k, d) (t_ingredientData tables) ->
     data_states d <> [] /\
     totalShare d = Fin (share_sum (data_states d)) /\
     NoDup (JsArray.keys (data_states d)) /\
     forall s v, In (s, v) (data_states d) ->
       exists r, seen r /\ state r = s /\ In (k, v) (shareMap_of r)) ->
  forall k d,
    In (k, d) (t_ingredientData (fold_left add_row rows tables)) ->
    data_states d <> [] /\
    totalShare d = Fin (share_sum (data_states d)) /\
    NoDup (JsArray.keys (data_states d)) /\
    forall s v, In (s, v) (data_states d) ->
      exists r, (seen r \/ In r rows) /\ state r = s /\
                In (k, v) (shareMap_of r).
Proof.
  induction rows as [|row rows IH]; intros seen tables Hnd Hseen Hkeys Hdata.
  - cbn [fold_left]. intros k d H.
    destruct (Hdata _ _ H) as [H1 [H2 [H3 H4]]]. repeat split; try assumption.
    intros s v Hsv. destruct (H4 _ _ Hsv) as [r [Hr He]].
    exists r. tauto.
  - cbn [fold_left]. inversion Hnd as [|? ? Hrow Hnd']; subst.
    assert (Hnew : forall r, seen r -> state r <> state row)
      by (intros r Hr; apply Hseen; [exact Hr | now left]).
    destruct (add_share_fold seen row Hnew (shareMap_of row) []
                (t_ingredientData tables)) as [Hk' Hd'].
    + apply shareMap_NoDup.
    + intros k _ [].
    + tauto.
    + exact Hkeys.
    + intros k d H. destruct (Hdata _ _ H) as [H1 [H2 [H3 H4]]].
      repeat split; try assumption.
      intros s v Hsv. left. now apply H4.
    + intros k d H.
      destruct (IH (fun r => seen r \/ r = row) (add_row tables row))
        with (k := k) (d := d) as [H1 [H2 [H3 H4]]].
      * exact Hnd'.
      * intros r r' [Hr | ->] Hr'.
        -- apply Hseen; [exact Hr | now right].
        -- intros E. apply Hrow. rewrite E. now apply in_map.
      * exact Hk'.
      * intros k0 d0 H0. cbn [add_row t_ingredientData] in H0.
        destruct (Hd' _ _ H0) as [G1 [G2 [G3 G4]]].
        repeat split; try assumption.
        intros s v Hsv. destruct (G4 _ _ Hsv) as [[r [Hr He]]|[-> [Hc _]]].
        -- exists r. tauto.
        -- exists row. tauto.
      * exact H.
      * repeat split; try assumption.
        intros s v Hsv. destruct (H4 _ _ Hsv) as [r [[[Hr | ->]|Hr] He]].
        -- exists r. tauto.
        -- exists row. split; [right; now left | exact He].
        -- exists r. split; [right; now right | exact He].
Qed.

Lemma add_share_keys st entries data k :
  In k (JsArray.keys (fold_left (add_share st) entries data)) ->
  In k (JsArray.keys data) \/ In k (map fst entries).
Proof.
  revert data. induction entries as [|e entries IH]; intros data;
    [now left|].
  cbn [fold_left map]. intros H.
  apply IH in H as [H|H]; [|right; now right].
  unfold add_share in H. apply upsert_keys_In in H as [->|H];
    [right; now left | now left].
Qed.

Lemma add_share_NoDup st entries data :
  NoDup (JsArray.keys data) ->
  NoDup (JsArray.keys (fold_left (add_share st) entries data)).
Proof.
  revert data. induction entries as [|e entries IH]; intros data Hd;
    [exact Hd|].
  cbn [fold_left]. apply IH. now apply upsert_keys_NoDup.
Qed.

Lemma ingredientData_keys rows tables :
  NoDup (JsArray.keys (t_ingredientData tables)) ->
  (forall k, In k (JsArray.keys (t_ingredientData tables)) ->
             listed_name k) ->
  NoDup (JsArray.keys (t_ingredientData (fold_left add_row rows tables)))
  /\ forall k,
       In k (JsArray.keys
               (t_ingredientData (fold_left add_row rows tables))) ->
       listed_name k.
Proof.
  revert tables. induction rows as [|row rows IH]; intros tables Hnd Hk;
    [now split|].
  cbn [fold_left]. apply IH.
  - cbn [add_row t_ingredientData]. now apply add_share_NoDup.
  - cbn [add_row t_ingredientData]. intros k H.
    apply add_share_keys in H as [H|H]; [now apply Hk|].
    apply in_map_iff in H as [[k' v] [<- H]].
    now apply shareMap_entries in H.
Qed.

Lemma NoDup_map_inj {A B : Type} (f : A -> B) l x y :
  NoDup (map f l) -> In x l -> In y l -> f x = f y -> x = y.
Proof.
  induction l as [|a l IH]; simpl; [contradiction|].
  intros Hnd Hx Hy E. inversion Hnd as [|? ? Ha Hl]; subst.
  destruct Hx as [->|Hx], Hy as [->|Hy]; [reflexivity| | |now apply IH].
  - exfalso. apply Ha. rewrite E. now apply in_map.
  - exfalso. apply Ha. rewrite <- E. now apply in_map.
Qed.

(** The listed ingredients carry distinct listed names. *)
Lemma ingredientInfos_names localeCompare rows :
  let infos := ingredientInfos (buildIngredientUniverse localeCompare rows) in
  NoDup (map name infos) /\
  forall info, In info infos ->
    listed_name (name info) /\
    exists d, In (name info, d) (t_ingredientData (tables_of rows)) /\
              info = info_of (name info, d).
Proof.
  cbv zeta. cbn [buildIngredientUniverse ingredientInfos].
  destruct (ingredientData_keys rows
              {| t_stateShares := []; t_ingredientData := [] |})
    as [Hnd Hlisted]; [constructor | intros ? [] |].
  fold (tables_of rows) in Hnd, Hlisted. split.
  - eapply Permutation_NoDup.
    + apply Permutation_map. symmetry. apply sort_perm.
    + rewrite map_map. cbn [info_of name]. exact Hnd.
  - intros info Hin. apply sort_In in Hin.
    apply in_map_iff in Hin as [[k d] [<- Hin]]. cbn [info_of name fst].
    split.
    + apply Hlisted. apply in_map_iff. now exists (k, d).
    + exists d. split; [exact Hin | reflexivity].
Qed.

(** X20. Every listed ingredient is found by its own name, and what is
    typed is looked up by its normalised form only: typing a value or
    typing its normalised form resolves to the same ingredient. *)
Theorem listed_ingredient_resolves_to_itself
    (localeCompare : string -> string -> Z) (rows : list CuisineRow) :
  let universe := buildIngredientUniverse localeCompare rows in
  Forall (fun info =>
            resolveIngredient (name info) (ingredientIndex universe)
                              (ingredientInfos universe) = Some info)
         (ingredientInfos universe) /\
  forall value,
    resolveIngredient value (ingredientIndex universe)
                      (ingredientInfos universe) =
    resolveIngredient (normalizeIngredientToken (trim value))
                      (ingredientIndex universe)
                      (ingredientInfos universe).
Proof.
  cbv zeta. split.
  - destruct (ingredientInfos_names localeCompare rows) as [Hnd Hall].
    apply Forall_forall. intros info Hin.
    destruct (Hall info Hin) as [[Hne [Hfix Htrim]] _].
    unfold resolveIngredient. rewrite Htrim, Hfix.
    destruct (name info) as [|c t] eqn:En; [congruence|].
    cbn [truthy negb]. rewrite <- En.
    cbn [buildIngredientUniverse ingredientIndex].
    set (infos := ingredientInfos
                    (buildIngredientUniverse localeCompare rows)) in *.
    change (JsArray.sort (by_share localeCompare)
              (map info_of (t_ingredientData (tables_of rows))))
      with infos.
    destruct (JsArray.get (name info)
                (JsArray.map_of (map (fun i => (name i, i)) infos)))
      as [found|] eqn:G.
    + apply map_of_Some in G. apply in_map_iff in G as [i [E Hi]].
      injection E as E <-. f_equal.
      exact (NoDup_map_inj name infos i info Hnd Hi Hin E).
    + exfalso. apply map_of_None in G. apply G.
      rewrite map_map. cbn [fst]. now apply in_map.
  - intros value. unfold resolveIngredient.
    destruct (normalizeIngredientToken_fixed (trim value)) as [H1 [H2 _]].
    now rewrite H2, H1.
Qed.

Lemma share_sum_bounds l :
  (forall s v, In (s, v) l -> unit_share v) ->
  0 <= share_sum l <= INR (List.length l) /\
  (l <> [] -> 0 < share_sum l).
Proof.
  induction l as [|[s v] l IH]; intros H.
  - simpl. split; [lra | congruence].
  - destruct IH as [IH _]; [intros s' v' H'; apply (H s' v'); now right|].
    destruct (H s v) as [r [-> Hr]]; [now left|].
    cbn [share_sum snd Scatter.Spec.real_of List.length].
    rewrite S_INR. split; [lra | intros _; lra].
Qed.

(** X21. When the rows name distinct states, every listed ingredient
    is recorded in at least one state and at most once per state, each
    recorded share is the one computed from that state's own row, and
    the average share is the mean of the recorded shares, a real number
    in (0, 1]. *)
Theorem average_share_over_distinct_states
    (localeCompare : string -> string -> Z) (rows : list CuisineRow) :
  NoDup (map state rows) ->
  Forall (fun info =>
            (1 <= stateCount info)%nat /\
            stateCount info = List.length (states info) /\
            NoDup (JsArray.keys (states info)) /\
            (forall st share, In (st, share) (states info) ->
               share_in_row rows (name info) st share) /\
            averageShare info =
              Fin (share_sum (states info) / INR (stateCount info)) /\
            unit_share (averageShare info))
         (ingredientInfos (buildIngredientUniverse localeCompare rows)).
Proof.
  intros Hnd. apply Forall_forall. intros info Hin.
  destruct (ingredientInfos_names localeCompare rows) as [_ Hall].
  destruct (Hall info Hin) as [_ [d [Hd Einfo]]].
  destruct (ingredientData_fold rows (fun _ => False)
              {| t_stateShares := []; t_ingredientData := [] |} Hnd)
    with (k := name info) (d := d) as [H1 [H2 [H3 H4]]];
    [tauto | constructor | intros ? ? [] | exact Hd |].
  assert (Hrow : forall st share, In (st, share) (data_states d) ->
                   share_in_row rows (name info) st share).
  { intros st share Hs. destruct (H4 _ _ Hs) as [r [[[]|Hr] He]].
    exists r. tauto. }
  assert (Hunit : forall st share, In (st, share) (data_states d) ->
                    unit_share share).
  { intros st share Hs. destruct (Hrow _ _ Hs) as [r [_ [_ Hr]]].
    now apply shareMap_entries in Hr. }
  destruct (share_sum_bounds _ Hunit) as [[_ Hle] Hpos].
  specialize (Hpos H1).
  assert (Hlen : (1 <= List.length (data_states d))%nat).
  { destruct (data_states d); [congruence | simpl; lia]. }
  assert (Hn : 0 < INR (List.length (data_states d)))
    by (apply lt_0_INR; lia).
  assert (Havg : averageShare info =
                 Fin (share_sum (data_states d) /
                      INR (List.length (data_states d)))).
  { rewrite Einfo. cbn [info_of averageShare snd].
    destruct (Nat.eqb_spec (List.length (data_states d)) 0) as [E|_];
      [lia|].
    rewrite H2. unfold JsNum.div, JsNum.of_nat.
    destruct (JsNum.Reqb (INR (List.length (data_states d))) 0) eqn:E;
      [|reflexivity].
    apply Reqb_true in E. lra. }
  rewrite Havg. rewrite Einfo. cbn [info_of stateCount states snd].
  repeat split; try assumption.
  eexists. split; [reflexivity|]. split.
  - now apply Rdiv_lt_0_compat.
  - apply (Rmult_le_reg_r (INR (List.length (data_states d))));
      [exact Hn|].
    unfold Rdiv. rewrite Rmult_assoc, Rinv_l, Rmult_1_r, Rmult_1_l by lra.
    exact Hle.
Qed.

(** The two sample regions name distinct states. *)
Lemma average_share_over_distinct_states_witness :
  NoDup (map state IngredientSamples.two_regions) /\
  Forall (fun info =>
            (1 <= stateCount info)%nat /\
            stateCount info = List.length (states info) /\
            NoDup (JsArray.keys (states info)) /\
            (forall st share, In (st, share) (states info) ->
               share_in_row IngredientSamples.two_regions
                            (name info) st share) /\
            averageShare info =
              Fin (share_sum (states info) / INR (stateCount info)) /\
            unit_share (averageShare info))
         (ingredientInfos
            (buildIngredientUniverse Env.code_unit_compare
                                     IngredientSamples.two_regions)).
Proof.
  assert (H : NoDup (map state IngredientSamples.two_regions)).
  { repeat constructor; simpl; intuition discriminate. }
  split; [exact H|].
  exact (average_share_over_distinct_states
           Env.code_unit_compare IngredientSamples.two_regions H).
Defined.

End UniverseFacts.

(* ------------------------------------------------------------------ *)
(** ** The ranked lists of the incidence view *)

Section RankedListFacts.
Import BuildData CancerView.
Local Open Scope R_scope.

Lemma StronglySorted_rev {A : Type} (P : A -> A -> Prop) l :
  StronglySorted P l -> StronglySorted (fun a b => P b a) (rev l).
Proof.
  induction 1 as [|a l Hs IH Hall]; [constructor|].
  cbn [rev].
  assert (Happ : forall l1 l2,
            StronglySorted (fun a b => P b a) l1 ->
            StronglySorted (fun a b => P b a) l2 ->
            (forall x y, In x l1 -> In y l2 -> P y x) ->
            StronglySorted (fun a b => P b a) (l1 ++ l2)%list).
  { clear. induction l1 as [|x l1 IH]; intros l2 H1 H2 Hc; [exact H2|].
    inversion H1 as [|? ? Hs Hall]; subst. cbn [app]. constructor.
    - apply IH; [exact Hs | exact H2 |].
      intros u v Hu Hv. apply Hc; [now right | exact Hv].
    - apply Forall_forall. intros y Hy.
      apply in_app_or in Hy as [Hy|Hy].
      + rewrite Forall_forall in Hall. now apply Hall.
      + apply Hc; [now left | exact Hy]. }
  apply Happ; [exact IH | repeat constructor |].
  intros x y Hx [<-|[]]. rewrite Forall_forall in Hall.
  apply Hall. now apply in_rev.
Qed.

Lemma with_value_In year cancer e :
  In e (with_value year cancer) <->
  exists row, In row cancer /\
              incidence_of year row = Some (entry_value e) /\
              cb_state row = entry_state e.
Proof.
  unfold with_value. rewrite in_flat_map. split.
  - intros [row [Hrow He]]. exists row. split; [exact Hrow|].
    destruct (incidence_of year row) as [v|]; [|contradiction].
    destruct He as [<-|[]]. now split.
  - intros [row [Hrow [Hv Hs]]]. exists row. split; [exact Hrow|].
    rewrite Hv. left. destruct e. simpl in *. now subst.
Qed.

Lemma by_value_no_smaller a b :
  JsNum.isFinite (entry_value a) = true ->
  JsNum.isFinite (entry_value b) = true ->
  JsArray.before by_value a b -> no_smaller a b.
Proof.
  unfold JsArray.before, by_value, no_smaller.
  destruct (entry_value a) as [va| | |], (entry_value b) as [vb| | |];
    try discriminate.
  intros _ _. cbn [JsNum.sub JsNum.neg JsNum.add JsNum.sign
                   Scatter.Spec.real_of].
  destruct (JsNum.Rltb (vb + - va) 0) eqn:E1.
  - apply Rltb_true in E1. lra.
  - destruct (JsNum.Rltb 0 (vb + - va)) eqn:E2; [lia|].
    apply Rltb_false in E2. lra.
Qed.

(** X22. With finite figures, the first list shows at most five
    regions in falling order of the year's figure and nothing left out
    of it has a larger figure; the second list shows at most five
    regions in rising order and nothing left out of it has a smaller
    figure; and the regions ranked are exactly those with a figure for
    the year. *)
Theorem lists_show_the_extremes (year : YearKey)
    (cancer : list CancerBucket) :
  Forall (finite_figure year) cancer ->
  let ranked := entries year cancer in
  (forall e, In e ranked <->
             exists row, In row cancer /\
                         incidence_of year row = Some (entry_value e) /\
                         cb_state row = entry_state e) /\
  (List.length (top year cancer) <= 5)%nat /\
  (List.length (bottom year cancer) <= 5)%nat /\
  StronglySorted no_smaller (top year cancer) /\
  StronglySorted (fun a b => no_smaller b a) (bottom year cancer) /\
  (forall shown other,
     In shown (top year cancer) -> In other (skipn 5 ranked) ->
     no_smaller shown other) /\
  (forall shown other,
     In shown (bottom year cancer) ->
     In other (firstn (List.length ranked - 5) ranked) ->
     no_smaller other shown).
Proof.
  intros Hfin ranked.
  assert (Hin : forall e, In e ranked <->
             exists row, In row cancer /\
                         incidence_of year row = Some (entry_value e) /\
                         cb_state row = entry_state e).
  { intros e. unfold ranked, entries. rewrite sort_In.
    apply with_value_In. }
  assert (Hall : Forall (fun e => JsNum.isFinite (entry_value e) = true)
                        ranked).
  { apply Forall_forall. intros e He. apply Hin in He as [row [Hr [Hv _]]].
    rewrite Forall_forall in Hfin. specialize (Hfin row Hr).
    unfold finite_figure in Hfin. now rewrite Hv in Hfin. }
  assert (Hsorted : StronglySorted no_smaller ranked).
  { apply Sorted_StronglySorted.
    - intros a b c. unfold no_smaller. lra.
    - apply (Sorted_refine (JsArray.before by_value) no_smaller
               (fun e => JsNum.isFinite (entry_value e) = true)).
      + intros a b. apply by_value_no_smaller.
      + exact Hall.
      + apply sort_sorted. intros a b. apply sign_sub_total. }
  pose proof Hsorted as Htop. rewrite <- (firstn_skipn 5 ranked) in Htop.
  apply StronglySorted_app_cross in Htop as [Htop Htop_cut].
  pose proof Hsorted as Hbot.
  rewrite <- (firstn_skipn (List.length ranked - 5) ranked) in Hbot.
  apply StronglySorted_app_cross in Hbot as [_ Hbot_cut].
  assert (Hlast : StronglySorted no_smaller (slice_last 5 ranked)).
  { unfold slice_last.
    pose proof Hsorted as H.
    rewrite <- (firstn_skipn (List.length ranked - 5) ranked) in H.
    clear - H. induction (firstn (List.length ranked - 5) ranked)
      as [|x l IH]; [exact H|].
    inversion H; subst. now apply IH. }
  split; [exact Hin|]. split; [apply firstn_le_length|]. split.
  { unfold bottom, slice_last. rewrite length_rev, length_skipn. lia. }
  split; [exact Htop|]. split.
  { unfold bottom. now apply StronglySorted_rev. }
  split; [exact Htop_cut|].
  intros shown other Hs Ho. unfold bottom in Hs. apply in_rev in Hs.
  now apply Hbot_cut.
Qed.

(** Seven sample regions with finite totals for 2019. *)
Lemma lists_show_the_extremes_witness :
  Forall (finite_figure y2019) seven_regions /\
  (List.length (top y2019 seven_regions) <= 5)%nat /\
  StronglySorted no_smaller (top y2019 seven_regions).
Proof.
  assert (H : Forall (finite_figure y2019) seven_regions)
    by (repeat constructor).
  split; [exact H|].
  destruct (lists_show_the_extremes y2019 seven_regions H)
    as [_ [H1 [_ [H2 _]]]].
  split; [exact H1 | exact H2].
Defined.

End RankedListFacts.

(* ------------------------------------------------------------------ *)
(** ** The router *)

Section RouterFacts.
Import JsString Router.

Lemma normalizeHash_valid route :
  In route validRoutes ->
  normalizeHash (Some route) = route /\
  normalizeHash (Some (String "#" route)) = route.
Proof.
  intros [<-|[<-|[<-|[]]]]; split; reflexivity.
Qed.

Lemma strip_hash_other c t :
  c <> "#"%char -> strip_hash (String c t) = String c t.
Proof.
  intros Hc. destruct c as [[] [] [] [] [] [] [] []];
    try reflexivity. now contradiction Hc.
Qed.

(** X23. Whatever the fragment, the router settles on one of the three
    views, and the view chosen is stable under another pass. A
    fragment that spells a view in any letter case selects that view,
    with or without the leading hash sign; every other fragment, and a
    missing one, selects the incidence view. *)
Theorem normalizeHash_selects_a_view (hash : option string) :
  In (normalizeHash hash) validRoutes /\
  normalizeHash (Some (normalizeHash hash)) = normalizeHash hash /\
  (forall fragment route,
     In route validRoutes -> toLowerCase fragment = route ->
     normalizeHash (Some fragment) = route /\
     normalizeHash (Some (String "#" fragment)) = route) /\
  (forall fragment,
     ~ In (toLowerCase (strip_hash fragment)) validRoutes ->
     normalizeHash (Some fragment) = "cancer") /\
  normalizeHash None = "cancer".
Proof.
  assert (Hin : In (normalizeHash hash) validRoutes).
  { unfold normalizeHash.
    destruct (existsb _ validRoutes) eqn:E; [|now left].
    apply existsb_exists in E as [r [Hr E]].
    apply String.eqb_eq in E. now rewrite E. }
  split; [exact Hin|]. split; [now apply normalizeHash_valid|].
  split; [|split; [|reflexivity]].
  - intros fragment route Hr E.
    assert (Hhash : normalizeHash (Some (String "#" fragment)) = route).
    { unfold normalizeHash. cbn [strip_hash].
      change (Ascii.eqb "#" "#") with true. rewrite E.
      destruct Hr as [<-|[<-|[<-|[]]]]; reflexivity. }
    split; [|exact Hhash].
    assert (Hstrip : strip_hash fragment = fragment).
    { destruct fragment as [|c t]; [reflexivity|].
      apply strip_hash_other. intros ->.
      cbn [toLowerCase] in E. rewrite <- E in Hr.
      destruct Hr as [H|[H|[H|[]]]]; discriminate. }
    unfold normalizeHash. rewrite Hstrip, E.
    destruct Hr as [<-|[<-|[<-|[]]]]; reflexivity.
  - intros fragment Hn. unfold normalizeHash.
    destruct (existsb _ validRoutes) eqn:E; [|reflexivity].
    exfalso. apply Hn. apply existsb_exists in E as [r [Hr E]].
    apply String.eqb_eq in E. now rewrite E.
Qed.

End RouterFacts.

(* ------------------------------------------------------------------ *)
(** ** Comparisons of binary64 numbers *)

Section Binary64Facts.
Import PrimFloat SpecFloat FloatOps Binary64.






End Binary64Facts.

(* ------------------------------------------------------------------ *)
(** ** The growth rate *)

Section GrowthFacts.
Import PrimFloat Binary64.




End GrowthFacts.

(* ------------------------------------------------------------------ *)
(** ** The regression in binary64 *)

Section Scatter64Facts.
Import PrimFloat Binary64 Scatter64.









Lemma filter_idem {A : Type} (f : A -> bool) l :
  filter f (filter f l) = filter f l.
Proof.
  induction l as [|a l IH]; [reflexivity|].
  cbn [filter]. destruct (f a) eqn:E; [|exact IH].
  cbn [filter]. now rewrite E, IH.
Qed.

(** X25. A sample without two finite coordinates plays no part in the
    regression: the result for the data is the result for its finite
    samples alone. The result lists one residual for each finite
    sample, in some order, each with the sample's y as actual value,
    slope * x + intercept of the returned line as predicted value, and
    their difference as residual, in double arithmetic. *)
Theorem residuals_of_finite_samples
    (Math_pow : float -> float -> float)
    (data : list ScatterPoint) (m : ScatterMetrics) :
  renderScatter Math_pow data = Some m ->
  renderScatter Math_pow (Spec.finite_samples data) = Some m /\
  Permutation (residuals m)
    (map (residual_of (slope m) (intercept m))
         (Spec.finite_samples data)) /\
  List.length (residuals m) = List.length (Spec.finite_samples data).
Proof.
  intros Hm.
  assert (Hsame : renderScatter Math_pow (Spec.finite_samples data) =
                  renderScatter Math_pow data).
  { unfold renderScatter, Spec.finite_samples. now rewrite !filter_idem. }
  split; [now rewrite Hsame|].
  unfold renderScatter in Hm. fold (Spec.finite_samples data) in Hm.
  destruct (Nat.eqb (List.length (Spec.finite_samples data)) 0);
    [discriminate|].
  injection Hm as <-. cbn [residuals slope intercept].
  split.
  - apply sort_perm.
  - now rewrite sort_length, length_map.
Qed.

(** Five samples of which three have two finite coordinates. *)
Lemma residuals_of_finite_samples_witness :
  exists m,
    renderScatter squaring five_points = Some m /\
    renderScatter squaring three_points = Some m /\
    List.length (residuals m) = 3.
Proof.
  destruct (renderScatter squaring five_points) as [m|] eqn:E;
    [|vm_compute in E; discriminate].
  destruct (residuals_of_finite_samples squaring five_points m E)
    as [Hsame [_ Hlen]].
  exists m. split; [reflexivity|]. split; [exact Hsame | exact Hlen].
Defined.

End Scatter64Facts.

(* ------------------------------------------------------------------ *)
(** ** Plain spellings and the reads of the tables *)

Section ProtoFacts.
Import JsString Regions BuildData.

(** For an incidence row that spells its region plainly, the bucket
    the first loop opens is keyed by the string [norm] gives, and its
    population is a figure of the table or [null], as the own-key
    lookups of [new_cancer_bucket] have it: no member of
    [Object.prototype] comes into play. *)
Lemma plain_opened_bucket (row : CancerRow) :
  let rawState :=
    trim (match cr_state row with Some s => s | None => EmptyString end) in
  Proto.plain_cancer_row row ->
  JsString.truthy rawState = true ->
  exists population_read,
    Proto.opened_bucket row =
      Some (norm rawState,
            (Proto.Name (norm rawState), population_read)) /\
    population (new_cancer_bucket (norm rawState) rawState) =
      match population_read with
      | Proto.Figure p => Some (JsNum.of_Z p)
      | _ => None
      end /\
    (forall key, population_read <> Proto.MemberObject key).
Proof.
  intros rawState Hrow Htruthy.
  assert (Hraw : Proto.plain rawState).
  { unfold Proto.plain, rawState. rewrite trim_idem. exact Hrow. }
  assert (Hkey : Proto.inherited rawState = false).
  { unfold Proto.plain in Hraw. unfold rawState in *.
    now rewrite trim_idem in Hraw. }
  destruct (plain_norm rawState Hraw) as [Hnorm Hplain].
  assert (Hstate : Proto.inherited (norm rawState) = false).
  { unfold Proto.plain in Hplain.
    destruct (norm_cases rawState) as [[_ Hn] | [k [Hget Hn]]].
    - rewrite Hn in *. now rewrite trim_idem in Hplain.
    - rewrite Hn in *.
      destruct (normMap_values_fixed _ _ Hget) as [_ Ht].
      now rewrite Ht in Hplain. }
  unfold Proto.opened_bucket. fold rawState. rewrite Htruthy.
  cbn [negb]. rewrite Hnorm. cbn [Proto.property_key].
  eexists. split; [reflexivity|].
  unfold Proto.population_of, Proto.read. cbn [Proto.property_key].
  cbn [new_cancer_bucket population]. rewrite Hstate, Hkey.
  destruct (JsArray.get (norm rawState) STATE_POPULATION_2021) as [p|];
    [split; [reflexivity | discriminate]|].
  destruct (JsArray.get rawState STATE_POPULATION_2021) as [p|];
    split; (reflexivity || discriminate).
Qed.

End ProtoFacts.
